(** * eyeglass: import resolution, sandbox guard, URI normalisation

    A shallow embedding of the parts of eyeglass that the specification
    talks about:

    - [functions/fs.ts]: the sandbox guard ([pathInSandboxDir],
      [inSandbox]) and the filesystem functions exposed to Sass;
    - [importers/ModuleImporter.ts]: module-name parsing, the scoped-name
      back-compat retry and the resolution state machine;
    - [importers/FSImporter.ts]: the [fs(token)] registration scheme;
    - [util/URI.ts]: the URI constructor;
    - [util/SassImplementation.ts]: [typeName], [toString], [typeError].

    JavaScript strings are modelled as [string] (8-bit characters), the
    callbacks of the importers as continuations into an event trace. *)

From Stdlib Require Import String Ascii List Bool Arith Lia.
#[local] Set Warnings "-register-all".
Import ListNotations.
Open Scope string_scope.
Open Scope list_scope.

(* ================================================================= *)
(** ** JavaScript string primitives *)

Module JS.

(** The double-quote character, as a one-character string. *)
Definition dquote : string := String (ascii_of_nat 34) EmptyString.

(** The line feed, as a one-character string. *)
Definition lf : string := String (ascii_of_nat 10) EmptyString.

(** Truthiness of a JS string: only the empty string is falsy. *)
Definition truthy (s : string) : bool :=
  match s with EmptyString => false | String _ _ => true end.

(** Truthiness of [string | undefined]. *)
Definition truthy_opt (o : option string) : bool :=
  match o with Some s => truthy s | None => false end.

(** String coercion of [string | undefined] inside [+]. *)
Definition coerce (o : option string) : string :=
  match o with Some s => s | None => "undefined" end.

(** [s.split(c)] for a one-character separator. *)
Fixpoint split (c : ascii) (s : string) : list string :=
  match s with
  | EmptyString => [EmptyString]
  | String a s' =>
      if Ascii.eqb a c then EmptyString :: split c s'
      else match split c s' with
           | h :: t => String a h :: t
           | [] => [String a EmptyString]
           end
  end.

(** [l.join(sep)]. *)
Fixpoint join (sep : string) (l : list string) : string :=
  match l with
  | [] => EmptyString
  | [x] => x
  | x :: rest => (x ++ sep ++ join sep rest)%string
  end.

(** [t.startsWith(p)]. *)
Fixpoint startsWith (p t : string) : bool :=
  match p with
  | EmptyString => true
  | String a p' =>
      match t with
      | EmptyString => false
      | String b t' => Ascii.eqb a b && startsWith p' t'
      end
  end.

(** [t.includes(s)]: [s] occurs in [t]. *)
Fixpoint includes (s t : string) : bool :=
  startsWith s t ||
  match t with
  | EmptyString => false
  | String _ t' => includes s t'
  end.

(** First character of a string, [s[0]]. *)
Definition head (s : string) : option ascii :=
  match s with EmptyString => None | String a _ => Some a end.

(** Last character of a string. *)
Fixpoint last (s : string) : option ascii :=
  match s with
  | EmptyString => None
  | String a EmptyString => Some a
  | String _ s' => last s'
  end.

(** Longest prefix whose characters satisfy [p], and the rest: the greedy
    match of a character class under [*]. *)
Fixpoint span (p : ascii -> bool) (s : string) : string * string :=
  match s with
  | EmptyString => (EmptyString, EmptyString)
  | String a s' =>
      if p a then let '(x, y) := span p s' in (String a x, y)
      else (EmptyString, s)
  end.

(** Every string of [l] with [sep] put in front of it, in one string. *)
Fixpoint prefixed (sep : string) (l : list string) : string :=
  match l with
  | [] => EmptyString
  | x :: rest => (sep ++ x ++ prefixed sep rest)%string
  end.

End JS.

(* ================================================================= *)
(** ** Node's [path] module (POSIX flavour)

    [path] belongs to Node, not to eyeglass.  The functions below follow
    Node's [lib/path.js] on a POSIX host, working on slash-delimited
    segments.  [cwd] stands for [process.cwd()], which Node guarantees to
    be absolute. *)

Module NodePath.

Definition sep : string := "/".
Definition slash : ascii := "/"%char.

Definition isAbsolute (p : string) : bool :=
  match p with String a _ => Ascii.eqb a slash | EmptyString => false end.

(** One step of [normalizeString]: the segments seen so far are kept as a
    stack, most recent first. *)
Definition norm_step (allowAboveRoot : bool) (stack : list string)
    (seg : string) : list string :=
  if String.eqb seg "" then stack
  else if String.eqb seg "." then stack
  else if String.eqb seg ".." then
    match stack with
    | top :: rest =>
        if String.eqb top ".." then
          (if allowAboveRoot then ".." :: stack else stack)
        else rest
    | [] => if allowAboveRoot then [".."] else []
    end
  else seg :: stack.

Definition normalizeSegs (allowAboveRoot : bool) (segs : list string)
    : list string :=
  rev (fold_left (norm_step allowAboveRoot) segs []).

(** [path.resolve(...paths)]: scan the arguments from right to left until
    an absolute one is met, falling back on [cwd]; empty arguments are
    skipped.  The result is the list of segments of the resolved absolute
    path. *)
Fixpoint resolve_raw (cwd : string) (rev_paths : list string)
    (acc : list string) : list string :=
  match rev_paths with
  | [] => JS.split slash cwd ++ acc
  | p :: rest =>
      if String.eqb p "" then resolve_raw cwd rest acc
      else if isAbsolute p then JS.split slash p ++ acc
      else resolve_raw cwd rest (JS.split slash p ++ acc)
  end.

Definition resolve_segs (cwd : string) (paths : list string) : list string :=
  normalizeSegs false (resolve_raw cwd (rev paths) []).

Definition of_segs (segs : list string) : string :=
  ("/" ++ JS.join "/" segs)%string.

Definition resolve (cwd : string) (paths : list string) : string :=
  of_segs (resolve_segs cwd paths).

(** [path.normalize(p)]. *)
Definition normalize (p : string) : string :=
  match p with
  | EmptyString => "."
  | _ =>
      let abs := isAbsolute p in
      let trailing :=
        match JS.last p with Some a => Ascii.eqb a slash | None => false end in
      let body := JS.join "/" (normalizeSegs (negb abs) (JS.split slash p)) in
      match body with
      | EmptyString =>
          if abs then "/" else if trailing then "./" else "."
      | _ =>
          let body' := if trailing then (body ++ "/")%string else body in
          if abs then ("/" ++ body')%string else body'
      end
  end.

(** [path.join(...paths)]: the non-empty arguments joined by [/], then
    normalised. *)
Definition join (paths : list string) : string :=
  match filter JS.truthy paths with
  | [] => "."
  | ps => normalize (JS.join "/" ps)
  end.

(** Longest common prefix of two segment lists removed from both. *)
Fixpoint strip_common (from to : list string)
    : list string * list string :=
  match from, to with
  | a :: from', b :: to' =>
      if String.eqb a b then strip_common from' to' else (from, to)
  | _, _ => (from, to)
  end.

(** [path.relative(from, to)]: both are resolved; one [..] per segment of
    [from] below the common ancestor, then what is left of [to]. *)
Definition relative (cwd from to : string) : string :=
  if String.eqb from to then ""
  else
    let '(up, down) :=
      strip_common (resolve_segs cwd [from]) (resolve_segs cwd [to]) in
    JS.join "/" (map (fun _ => "..") up ++ down).

(** [path.dirname(p)]. *)
Fixpoint drop_trailing_slashes (rev_chars : list ascii) : list ascii :=
  match rev_chars with
  | a :: rest => if Ascii.eqb a slash then drop_trailing_slashes rest
                 else rev_chars
  | [] => []
  end.

Fixpoint drop_last_segment (rev_chars : list ascii) : list ascii :=
  match rev_chars with
  | a :: rest => if Ascii.eqb a slash then rev_chars
                 else drop_last_segment rest
  | [] => []
  end.

Definition dirname (p : string) : string :=
  match p with
  | EmptyString => "."
  | String a tl =>
      let hasRoot := Ascii.eqb a slash in
      let body := rev (list_ascii_of_string tl) in
      match drop_last_segment (drop_trailing_slashes body) with
      | [] => if hasRoot then "/" else "."
      | _ :: before =>
          match before with
          | [] => if hasRoot then "//" else String a EmptyString
          | _ => String a (string_of_list_ascii (rev before))
          end
      end
  end.

(** *** Containment, on resolved segments

    Used to say where a path lies with respect to a directory; the code
    does not call these. *)

(** What is left of [p] once the segments of [r] are removed from its
    front; [None] when [p] does not start with them. *)
Fixpoint strip_prefix (r p : list string) : option (list string) :=
  match r, p with
  | [], _ => Some p
  | a :: r', b :: p' => if String.eqb a b then strip_prefix r' p' else None
  | _ :: _, [] => None
  end.

(** The segments of [p] below the directory [dir]: [Some []] when [p] is
    [dir] itself, [Some (s :: rest)] when [p] lies strictly inside [dir],
    [None] when [p] lies outside of it. *)
Definition below (cwd dir p : string) : option (list string) :=
  strip_prefix (resolve_segs cwd [dir]) (resolve_segs cwd [p]).

(** A proper name of a directory entry: not empty, no [/], neither [.]
    nor [..]. *)
Definition isEntryName (s : string) : bool :=
  negb (String.eqb s "") && negb (String.eqb s ".")
  && negb (String.eqb s "..")
  && forallb (fun a => negb (Ascii.eqb a slash)) (list_ascii_of_string s).

(** An absolute path in normal form, as [process.cwd()] and
    [path.resolve] give them: [/] alone, or [/] followed by entry names
    separated by single [/]. *)
Definition isResolved (p : string) : bool :=
  match p with
  | String a rest =>
      Ascii.eqb a slash
      && (String.eqb rest "" || forallb isEntryName (JS.split slash rest))
  | EmptyString => false
  end.

End NodePath.

(* ================================================================= *)
(** ** Sass values ([util/SassImplementation.ts]) *)

Module Sass.

(** The values of [sass.types].  The code does one thing with a JS number
    (the value of a Sass number, a channel of a colour): it interpolates
    it into a template literal.  A number is therefore kept as the text
    that JavaScript prints for it, such as [12], [0.5] or [1e+21]. *)
Inductive SassValue : Type :=
| SNull
| SString (value : string)
| SNumber (value : string) (unit : string)
| SColor (r g b a : string)
| SBoolean (b : bool)
| SList (items : list SassValue) (comma : bool)
| SMap (entries : list (SassValue * SassValue)).

(** What a Sass function hands to [done]: a value or a [sass.types.Error]. *)
Inductive SassReturn : Type :=
| RetValue (v : SassValue)
| RetError (message : string).

(** A call of a Sass function either completes through [done] or throws a
    JavaScript exception. *)
Inductive Outcome : Type :=
| Done (r : SassReturn)
| Throws (message : string).

Definition isSassString (v : SassValue) : bool :=
  match v with SString _ => true | _ => false end.

Definition typeName (v : SassValue) : string :=
  match v with
  | SNull => "null"
  | SString _ => "string"
  | SNumber _ _ => "number"
  | SMap _ => "map"
  | SList _ _ => "list"
  | SColor _ _ _ _ => "color"
  | SBoolean _ => "boolean"
  end.

Section ToString.

(** String coercion of a Sass value object by [+=], as the host's binding
    defines it (used for map keys only). *)
Variable js_coerce : SassValue -> string.

Fixpoint toString (v : SassValue) : string :=
  match v with
  | SNumber n u => (n ++ u)%string
  | SString s => s
  | SColor r g b a =>
      ("rgba(" ++ r ++ ", " ++ g ++ ", " ++ b ++ ", " ++ a ++ ")")%string
  | SBoolean b => if b then "true" else "false"
  | SList items comma =>
      ("(" ++
       (fix go (first : bool) (l : list SassValue) : string :=
          match l with
          | [] => ""
          | x :: rest =>
              ((if first then "" else if comma then ", " else " ")
                 ++ toString x ++ go false rest)%string
          end) true items
       ++ ")")%string
  | SMap entries =>
      ("(" ++
       (fix go (first : bool) (l : list (SassValue * SassValue)) : string :=
          match l with
          | [] => ""
          | (k, x) :: rest =>
              ((if first then "" else ", ")
                 ++ js_coerce k ++ ": " ++ toString x ++ go false rest)%string
          end) true entries
       ++ ")")%string
  | SNull => ""
  end.

(** [typeError(sass, expected, actual)] for an [actual] that is a value. *)
Definition typeError (expected : string) (actual : SassValue) : SassReturn :=
  RetError ("Expected " ++ expected ++ ", got " ++ typeName actual
              ++ ": " ++ toString actual)%string.

End ToString.

(** *** Type guards

    The guards take [SassValue | SassError], here [SassReturn]. *)

(** [SassTypeName], the keys of [typeGuards]. *)
Inductive SassTypeName : Type :=
| TNull | TString | TNumber | TMap | TList | TColor | TBoolean | TError.

Definition isSassNumber (x : SassReturn) : bool :=
  match x with RetValue (SNumber _ _) => true | _ => false end.

Definition isSassStringValue (x : SassReturn) : bool :=
  match x with RetValue (SString _) => true | _ => false end.

Definition isSassColor (x : SassReturn) : bool :=
  match x with RetValue (SColor _ _ _ _) => true | _ => false end.

Definition isSassBoolean (x : SassReturn) : bool :=
  match x with RetValue (SBoolean _) => true | _ => false end.

Definition isSassNull (x : SassReturn) : bool :=
  match x with RetValue SNull => true | _ => false end.

Definition isSassList (x : SassReturn) : bool :=
  match x with RetValue (SList _ _) => true | _ => false end.

Definition isSassMap (x : SassReturn) : bool :=
  match x with RetValue (SMap _) => true | _ => false end.

(** [value.getLength()] of a list. *)
Definition getLength (x : SassReturn) : nat :=
  match x with
  | RetValue (SList items _) => List.length items
  | RetValue (SMap entries) => List.length entries
  | _ => 0
  end.

Definition isSassMapOrEmptyList (x : SassReturn) : bool :=
  isSassMap x || (isSassList x && Nat.eqb (getLength x) 0).

Definition isSassError (x : SassReturn) : bool :=
  match x with RetError _ => true | _ => false end.

Definition typeGuards (name : SassTypeName) : SassReturn -> bool :=
  match name with
  | TNull => isSassNull
  | TString => isSassStringValue
  | TNumber => isSassNumber
  | TMap => isSassMapOrEmptyList
  | TList => isSassList
  | TColor => isSassColor
  | TBoolean => isSassBoolean
  | TError => isSassError
  end.

(** [typeName(sass, value)] on [SassValue | SassError], with the order of
    its tests. *)
Definition typeNameOf (x : SassReturn) : SassTypeName :=
  if isSassNull x then TNull
  else if isSassStringValue x then TString
  else if isSassNumber x then TNumber
  else if isSassMap x then TMap
  else if isSassList x then TList
  else if isSassColor x then TColor
  else if isSassBoolean x then TBoolean
  else TError.

Definition isType (x : SassReturn) (name : SassTypeName) : bool :=
  if typeGuards name x then true else false.

End Sass.

(* ================================================================= *)
(** ** Sandboxed filesystem functions ([functions/fs.ts]) *)

Module Fs.
Import Sass.

(** The host a compilation runs on, as far as [fs.ts] sees it. *)
Record Host : Type := {
  cwd : string;                          (* process.cwd() *)
  fsSandbox : option (list string);      (* options.eyeglass.fsSandbox:
                                            false, or the allowed roots *)
  existsSync : string -> bool;
  glob : string -> string -> string + list string;
                                         (* directory, pattern: error
                                            message, or the entries with
                                            directories marked by [/] *)
  readFile : string -> string + string;  (* error message, or contents *)
  statInfo : string -> string + SassValue;
                                         (* fs.stat and realpathSync: error
                                            message, or the info map *)
  parseFilename : string -> SassValue;   (* path.parse and isAbsolute, as
                                            a map *)
  joinSegments : list SassValue -> string + string;
                                         (* sassUtils.castToJs of the
                                            segments handed to path.join:
                                            the message of the exception
                                            thrown, or the joined path *)
  js_coerce : SassValue -> string
}.

Definition pathInSandboxDir (cwd fsPath sandboxDir : string) : bool :=
  if JS.startsWith ".." (NodePath.relative cwd sandboxDir fsPath)
  then false else true.

Section Functions.

Variable h : Host.

Definition accessViolation (location : string) : SassReturn :=
  RetError ("Security violation: Cannot access " ++ location)%string.

Definition inSandbox (fsPath : string) : bool :=
  match fsSandbox h with
  | None => true
  | Some sandbox =>
      existsb (fun sb =>
                 if pathInSandboxDir (cwd h) fsPath sb then true else false)
              sandbox
  end.

(** [sassUtils.castToSass] of an array of strings. *)
Definition castToSass (files : list string) : SassValue :=
  SList (map SString files) true.

Definition endsWithSlash (f : string) : bool :=
  match JS.last f with
  | Some a => Ascii.eqb a NodePath.slash
  | None => false
  end.

(** [f.slice(-f.length, -1)]: all but the last character. *)
Fixpoint dropLast (f : string) : string :=
  match f with
  | EmptyString => EmptyString
  | String _ EmptyString => EmptyString
  | String a f' => String a (dropLast f')
  end.

(** The loop of [globFiles] over the entries found; [acc] is
    [filesToReturn], most recent first. *)
Fixpoint globLoop (directory : string) (includeFiles includeDirectories : bool)
    (files : list string) (acc : list string) : SassReturn :=
  match files with
  | [] => RetValue (castToSass (rev acc))
  | f :: rest =>
      let permitted := inSandbox (NodePath.join [directory; f]) in
      if endsWithSlash f then
        if includeDirectories then
          if negb permitted then accessViolation f
          else globLoop directory includeFiles includeDirectories rest
                 (dropLast f :: acc)
        else globLoop directory includeFiles includeDirectories rest acc
      else
        if includeFiles then
          if negb permitted then accessViolation f
          else globLoop directory includeFiles includeDirectories rest
                 (f :: acc)
        else globLoop directory includeFiles includeDirectories rest acc
  end.

Definition globFiles (directory globPattern : string)
    (includeFiles includeDirectories : bool) : SassReturn :=
  if inSandbox directory then
    match glob h directory globPattern with
    | inl message => RetError message
    | inr files =>
        globLoop directory includeFiles includeDirectories files []
    end
  else accessViolation directory.

(** [eyeglass-fs-join($segments...)]: the segments go to
    [sassUtils.castToJs] and [path.join] as they come; what these two do
    with them is the host's. *)
Definition fs_join (segments : list SassValue) : Outcome :=
  match joinSegments h segments with
  | inr joined => Done (RetValue (SString joined))
  | inl message => Throws message
  end.

(** [eyeglass-fs-exists($absolute-path)]. *)
Definition fs_exists (fsAbsolutePath : SassValue) : Outcome :=
  match fsAbsolutePath with
  | SString absolutePath =>
      if inSandbox absolutePath then
        if existsSync h absolutePath then Done (RetValue (SBoolean true))
        else Done (RetValue (SBoolean false))
      else Done (accessViolation absolutePath)
  | _ => Done (typeError (js_coerce h) "string" fsAbsolutePath)
  end.

(** [eyeglass-fs-path-separator()]. *)
Definition fs_path_separator : Outcome :=
  Done (RetValue (SString NodePath.sep)).

(** [eyeglass-fs-list-files($directory, $glob: '*')]. *)
Definition fs_list_files (directory globPattern : SassValue) : Outcome :=
  match directory with
  | SString d =>
      match globPattern with
      | SString g => Done (globFiles d g true false)
      | _ => Done (typeError (js_coerce h) "string" globPattern)
      end
  | _ => Done (typeError (js_coerce h) "string" directory)
  end.

(** [eyeglass-fs-list-directories($directory, $glob: '*')]. *)
Definition fs_list_directories (directory globPattern : SassValue)
    : Outcome :=
  match directory with
  | SString d =>
      match globPattern with
      | SString g => Done (globFiles d g false true)
      | _ => Done (typeError (js_coerce h) "string" globPattern)
      end
  | _ => Done (typeError (js_coerce h) "string" directory)
  end.

(** [eyeglass-fs-parse-filename($filename)]. *)
Definition fs_parse_filename (filename : SassValue) : Outcome :=
  match filename with
  | SString f => Done (RetValue (parseFilename h f))
  | _ => Done (typeError (js_coerce h) "string" filename)
  end.

(** [eyeglass-fs-info($filename)]. *)
Definition fs_info (filename : SassValue) : Outcome :=
  match filename with
  | SString f =>
      if inSandbox f then
        match statInfo h f with
        | inl message => Done (RetError message)
        | inr info => Done (RetValue info)
        end
      else Done (accessViolation f)
  | _ => Done (typeError (js_coerce h) "string" filename)
  end.

(** [eyeglass-fs-read-file($filename)]. *)
Definition fs_read_file (filename : SassValue) : Outcome :=
  match filename with
  | SString f =>
      if inSandbox f then
        match readFile h f with
        | inl message => Done (RetError message)
        | inr contents => Done (RetValue (SString contents))
        end
      else Done (accessViolation f)
  | _ => Done (typeError (js_coerce h) "string" filename)
  end.

(** An entry that [eyeglass-fs-list-files] would return and that lies
    outside the sandbox. *)
Definition deniedFile (directory f : string) : bool :=
  negb (endsWithSlash f) && negb (inSandbox (NodePath.join [directory; f])).

(** The same for [eyeglass-fs-list-directories]. *)
Definition deniedDirectory (directory f : string) : bool :=
  endsWithSlash f && negb (inSandbox (NodePath.join [directory; f])).

End Functions.

End Fs.

(* ================================================================= *)
(** ** The module importer ([importers/ModuleImporter.ts]) *)

Module Importer.

(** What an importer hands to [done]. *)
Inductive ImporterReturn : Type :=
| Imported (contents file : string)      (* { contents, file } *)
| Failed (message : string)              (* new Error(message) *)
| Null.                                  (* sass.NULL *)

(** [ImportedFile]. *)
Record ImportedFile : Type := { contents : string; file : string }.

(** A module of the registry, as the importer reads it. *)
Record ModuleRecord : Type := {
  name : string;
  sassDir : option string;
  mainPath : option string
}.

(** What one call of the importer does, in order. *)
Inductive Event : Type :=
| Access (moduleName location : string)   (* eyeglass.modules.access *)
| Read (path : string)                    (* readFileSync *)
| Fallback (uri prev : string)            (* a fallback importer is called *)
| Return (r : ImporterReturn)             (* done(r) *)
| Throw (message : string).               (* an exception leaves the call *)

Definition Trace : Type := list Event.

(** The host a compilation runs on, as far as the importers see it. *)
Record Host : Type := {
  cwd : string;                                    (* process.cwd() *)
  root : string;                                   (* options.eyeglass.root *)
  includePaths : option (list string);             (* options.includePaths *)
  existsSync : string -> bool;
  readFileSync : string -> option string;          (* None: it throws *)
  access : string -> string -> option ModuleRecord;
                                                   (* eyeglass.modules.access *)
  expand : string -> string -> list string;
      (* NameExpander: the candidates of a uri under one location *)
  fallbackImporter : list (string -> string -> option ImporterReturn);
      (* the importers of the node-sass options; None: nothing usable *)
  importOnce : ImportedFile -> ImporterReturn
      (* ImportUtilities.importOnce: what it hands to done *)
}.

(** The registry calls of a trace, in order. *)
Fixpoint accesses (t : Trace) : list (string * string) :=
  match t with
  | [] => []
  | Access m l :: t' => (m, l) :: accesses t'
  | _ :: t' => accesses t'
  end.

(** The files a trace tries to read, in order. *)
Fixpoint reads (t : Trace) : list string :=
  match t with
  | [] => []
  | Read f :: t' => f :: reads t'
  | _ :: t' => reads t'
  end.

(** What a trace hands to [done]. *)
Fixpoint returned (t : Trace) : list ImporterReturn :=
  match t with
  | [] => []
  | Return r :: t' => r :: returned t'
  | _ :: t' => returned t'
  end.

(** *** [MODULE_PARSER]

    The pattern is anchored at the start: group 1 is either an [@], one or
    more characters other than [/], a [/], one or more characters other
    than [/]; or else one or more characters other than [/].  An optional
    [/] follows, and group 2 is the longest run of characters other than
    line terminators. *)

Definition notSlash (a : ascii) : bool := negb (Ascii.eqb a "/"%char).

(** Characters that [.] does not match: among 8-bit characters, the line
    feed and the carriage return. *)
Definition isLineTerminator (a : ascii) : bool :=
  Nat.eqb (nat_of_ascii a) 10 || Nat.eqb (nat_of_ascii a) 13.

Definition notLineTerminator (a : ascii) : bool := negb (isLineTerminator a).

(** [(?:@[^/]+\/[^/]+)] at the start of [s]: the text matched and the
    rest. *)
Definition scopedSegment (s : string) : option (string * string) :=
  match s with
  | String a s1 =>
      if Ascii.eqb a "@"%char then
        let '(scope, r1) := JS.span notSlash s1 in
        match scope, r1 with
        | String _ _, String _ s2 =>
            let '(nm, r2) := JS.span notSlash s2 in
            match nm with
            | String _ _ => Some (("@" ++ scope ++ "/" ++ nm)%string, r2)
            | EmptyString => None
            end
        | _, _ => None
        end
      else None
  | EmptyString => None
  end.

(** [(?:[^/]+)] at the start of [s]. *)
Definition bareSegment (s : string) : option (string * string) :=
  let '(seg, r) := JS.span notSlash s in
  match seg with
  | String _ _ => Some (seg, r)
  | EmptyString => None
  end.

(** [MODULE_PARSER.exec(uri)]: groups 1 and 2 of the match. *)
Definition MODULE_PARSER (uri : string) : option (string * string) :=
  match
    match scopedSegment uri with
    | Some m => Some m
    | None => bareSegment uri
    end
  with
  | None => None
  | Some (moduleName, rest) =>
      let rest' :=
        match rest with
        | String a r => if Ascii.eqb a "/"%char then r else rest
        | EmptyString => rest
        end in
      Some (moduleName, fst (JS.span notLineTerminator rest'))
  end.

(** One path segment: not empty, no [/]. *)
Definition isSegment (s : string) : bool :=
  JS.truthy s && forallb notSlash (list_ascii_of_string s).

(** *** The candidate set *)

(** Insertion into a JS [Set] of strings: kept in insertion order, an
    element already present is not added again. *)
Definition set_add (files : list string) (f : string) : list string :=
  if existsb (String.eqb f) files then files else files ++ [f].

Section WithHost.

Variable h : Host.

(** Modelled from the spec: [NameExpander] ([util/NameExpander.ts] is not
    among the sources).  Its [files] is the candidate set of section 3:
    insertion order preserved, duplicates discarded; [addLocation] appends
    the expansion of the uri under that location. *)
Definition addLocation (uri : string) (files : list string)
    (location : string) : list string :=
  fold_left set_add (expand h uri location) files.

Definition NameExpander_files (uri : string) (locations : list string)
    : list string :=
  fold_left (addLocation uri) locations [].

(** Modelled from the spec: [ImportUtilities.fallback]
    ([importers/ImportUtilities.ts] is not among the sources).  The
    fallback importers are called in turn with the identifier and the
    requesting file; the first usable result is handed to [done]; when
    none reports anything usable, [noFallback] runs. *)
Fixpoint fallbackChain
    (chain : list (string -> string -> option ImporterReturn))
    (uri prev : string) (done : ImporterReturn -> Trace)
    (noFallback : unit -> Trace) : Trace :=
  match chain with
  | [] => noFallback tt
  | importer :: rest =>
      Fallback uri prev ::
      match importer uri prev with
      | Some r => done r
      | None => fallbackChain rest uri prev done noFallback
      end
  end.

Definition fallback (uri prev : string) (done : ImporterReturn -> Trace)
    (noFallback : unit -> Trace) : Trace :=
  fallbackChain (fallbackImporter h) uri prev done noFallback.

(** How many fallback importers get called for a request, and the usable
    result that stops the chain, if any. *)
Fixpoint firstUsable
    (chain : list (string -> string -> option ImporterReturn))
    (uri prev : string) : nat * option ImporterReturn :=
  match chain with
  | [] => (0, None)
  | importer :: rest =>
      match importer uri prev with
      | Some r => (1, Some r)
      | None => let '(n, r) := firstUsable rest uri prev in (S n, r)
      end
  end.

(** [ImportResultCallback]: an error message, or the file read. *)
Definition ImportResultCallback : Type :=
  option string -> option ImportedFile -> Trace.

Definition notFoundMessage (uri : string) (possibleFiles : list string)
    : string :=
  let header :=
    ("Could not import " ++ uri ++ " from any of the following locations:")
    %string in
  JS.join (JS.lf ++ "  ")%string (header :: possibleFiles).

(** The loop of [readFirstFile]: [onMiss] is what follows the loop when no
    file could be read. *)
Fixpoint readFirst (files : list string) (callback : ImportResultCallback)
    (onMiss : Trace) : Trace :=
  match files with
  | [] => onMiss
  | nextFile :: rest =>
      Read nextFile ::
      match readFileSync h nextFile with
      | Some data =>
          callback None (Some {| contents := data; file := nextFile |})
      | None => readFirst rest callback onMiss
      end
  end.

Definition readFirstFile (uri : string) (possibleFiles : list string)
    (callback : ImportResultCallback) : Trace :=
  readFirst possibleFiles callback
    (callback (Some (notFoundMessage uri possibleFiles)) None).

(** The locations [readAbstractFile] adds to the name expander. *)
Definition locationsOf (location : string)
    (includePaths : option (list string)) (moduleName : option string)
    : list string :=
  [location]
  ++ (match moduleName with
      | Some m => if JS.truthy m then [NodePath.join [location; m]] else []
      | None => []
      end)
  ++ (match includePaths with
      | Some ips =>
          map (fun ip => NodePath.resolve (cwd h) [location; ip]) ips
      | None => []
      end).

Definition readAbstractFile (originalUri uri location : string)
    (includePaths : option (list string)) (moduleName : option string)
    (callback : ImportResultCallback) : Trace :=
  readFirstFile originalUri
    (NameExpander_files uri (locationsOf location includePaths moduleName))
    callback.

(** Where the relative attempt of a request looks: under the directory of
    the requesting file when it is on disk, else under the project root. *)
Definition relativeCandidates (uri prev : string)
    (ips : option (list string)) : list string :=
  NameExpander_files uri
    (locationsOf
       (if existsSync h prev then NodePath.dirname prev else root h)
       ips None).

(** The error that a relative attempt ends with when it finds nothing. *)
Definition relativeMiss (uri prev : string) (ips : option (list string))
    : string :=
  if existsSync h prev
  then notFoundMessage uri (relativeCandidates uri prev ips)
  else ("Could not import " ++ uri ++ " from " ++ prev)%string.

(** Where the module attempt of a request looks. *)
Definition moduleCandidates (relativePath dir moduleName : string)
    : list string :=
  NameExpander_files relativePath (locationsOf dir None (Some moduleName)).

Definition done (r : ImporterReturn) : Trace := [Return r].

(** [defaultErrorHandler(done)]. *)
Definition defaultErrorHandler (err : string) : Trace := done (Failed err).

(** The module lookup of [ModuleImporter] with its back-compat retry: the
    registry calls made, then the module name, the relative path and the
    module they end with. *)
Definition lookupModule (prev moduleName relativePath : string)
    : list Event * (string * string * option ModuleRecord) :=
  let location := if existsSync h prev then prev else root h in
  match access h moduleName location with
  | Some m => ([Access moduleName location], (moduleName, relativePath, Some m))
  | None =>
      match JS.head moduleName with
      | Some a =>
          if Ascii.eqb a "@"%char then
            let pieces := JS.split "/"%char moduleName in
            let relativePath' :=
              (JS.coerce (nth_error pieces 1) ++ "/" ++ relativePath)%string in
            let moduleName' := JS.coerce (nth_error pieces 0) in
            ([Access moduleName location; Access moduleName' location],
             (moduleName', relativePath', access h moduleName' location))
          else ([Access moduleName location], (moduleName, relativePath, None))
      | None => ([Access moduleName location], (moduleName, relativePath, None))
      end
  end.

Section Request.

Variables uri prev : string.

Definition createHandler (errorHandler : option (string -> Trace))
    : ImportResultCallback :=
  let errHandler :=
    match errorHandler with
    | Some e => e
    | None => defaultErrorHandler
    end in
  fun err data =>
    match err, data with
    | None, Some d => done (importOnce h d)
    | _, _ =>
        fallback uri prev done
          (fun _ =>
             errHandler
               (match err with
                | Some e => e
                | None => "[internal error] No data returned."
                end))
    end.

Definition handleRelativeImports (includePaths : option (list string))
    : Trace :=
  if existsSync h prev then
    readAbstractFile uri uri (NodePath.dirname prev) includePaths None
      (createHandler None)
  else
    readAbstractFile uri uri (root h) includePaths None
      (createHandler
         (Some (fun _ =>
                  done (Failed ("Could not import " ++ uri ++ " from "
                                  ++ prev)%string)))).

Definition missingMessage (m : ModuleRecord) : string :=
  (("sassDir is not specified in " ++ name m ++ "'s package.json")
   ++ (match mainPath m with
       | Some mp => if JS.truthy mp then " or " ++ mp else ""
       | None => ""
       end))%string.

(** The importer function that [ModuleImporter] returns, applied to
    [uri], [prev] and [done]. *)
Definition ModuleImporter : Trace :=
  match MODULE_PARSER uri with
  | None => [Throw ("invalid uri: " ++ uri)%string]
  | Some (moduleName0, relativePath0) =>
      let '(lookups, (moduleName, relativePath, mod_)) :=
        lookupModule prev moduleName0 relativePath0 in
      lookups ++
      match mod_ with
      | Some m =>
          if negb (JS.truthy_opt (sassDir m)) && negb (existsSync h prev)
          then
            fallback uri prev done (fun _ => done (Failed (missingMessage m)))
          else
            match sassDir m with
            | Some dir =>
                if JS.truthy dir then
                  readAbstractFile uri relativePath dir None (Some moduleName)
                    (createHandler (Some (fun _ => handleRelativeImports None)))
                else handleRelativeImports (includePaths h)
            | None => handleRelativeImports (includePaths h)
            end
      | None => handleRelativeImports (includePaths h)
      end
  end.

(** *** The filesystem importer ([importers/FSImporter.ts]) *)

Definition isIdentStart (a : ascii) : bool :=
  let n := nat_of_ascii a in
  Nat.eqb n 45 || Nat.eqb n 95
  || (Nat.leb 97 n && Nat.leb n 122) || (Nat.leb 65 n && Nat.leb n 90).

Definition isIdentChar (a : ascii) : bool :=
  let n := nat_of_ascii a in
  isIdentStart a || (Nat.leb 48 n && Nat.leb n 57).

(** [uri.match(/^fs\(([-_a-zA-Z][-_a-zA-Z0-9]+)\)$/)]: group 1. *)
Definition fsURI (s : string) : option string :=
  match s with
  | String f (String s' (String p (String c0 rest))) =>
      if Ascii.eqb f "f"%char && Ascii.eqb s' "s"%char
         && Ascii.eqb p "("%char && isIdentStart c0
      then
        let '(body, tl) := JS.span isIdentChar rest in
        match body with
        | String _ _ =>
            if String.eqb tl ")" then Some (String c0 body) else None
        | EmptyString => None
        end
      else None
  | _ => None
  end.

Definition registration (identifier absolutePath : string) : ImportedFile :=
  {| contents :=
       ("@import " ++ JS.dquote ++ "eyeglass/fs" ++ JS.dquote
          ++ "; @include fs-register-path(" ++ identifier ++ ", "
          ++ JS.dquote ++ absolutePath ++ JS.dquote ++ ");")%string;
     file := ("fs:" ++ identifier ++ ":" ++ absolutePath)%string |}.

(** The importer function that [FSImporter] returns, applied to [uri],
    [prev] and [done]. *)
Definition FSImporter : Trace :=
  match fsURI uri with
  | Some identifier =>
      let absolutePath :=
        if String.eqb identifier "root" then root h
        else if negb (existsSync h prev) then NodePath.resolve (cwd h) ["."]
        else NodePath.resolve (cwd h) [NodePath.dirname prev] in
      if JS.truthy absolutePath then
        done (importOnce h (registration identifier absolutePath))
      else
        done (Failed ("Cannot resolve filesystem location of " ++ prev)%string)
  | None => fallback uri prev done (fun _ => done Null)
  end.

End Request.

End WithHost.

(** A token of the [fs(...)] pattern: a letter, [-] or [_], then one or
    more letters, digits, [-] or [_]. *)
Definition isToken (token : string) : bool :=
  match token with
  | String c0 (String c1 rest) =>
      isIdentStart c0
      && forallb isIdentChar (list_ascii_of_string (String c1 rest))
  | _ => false
  end.

(** The events that precede the completion of a request. *)
Definition isProbe (e : Event) : bool :=
  match e with
  | Access _ _ | Read _ | Fallback _ _ => true
  | Return _ | Throw _ => false
  end.

(** A trace that completes: probes, then one call of [done], and nothing
    after it. *)
Definition settles (t : Trace) : Prop :=
  exists pre r, t = pre ++ [Return r] /\ forallb isProbe pre = true.

End Importer.

(* ================================================================= *)
(** ** URIs ([util/URI.ts]), on a POSIX host *)

Module URI.

Definition stdSep : string := "/".

(** The process a URI is built in: [process.cwd()] and the environment
    variable [EYEGLASS_NORMALIZE_PATHS]. *)
Record Host : Type := {
  cwd : string;
  EYEGLASS_NORMALIZE_PATHS : option string
}.

Record t : Type := {
  sep : string;
  path : string;
  search : string;
  hash : string
}.

Definition isPathSep (a : ascii) : bool :=
  Ascii.eqb a "/"%char || Nat.eqb (nat_of_ascii a) 92.

(** [uri.replace(rAllPathSep, sep)]: every maximal run of slashes and
    backslashes becomes [sep].  [sep] is [/] or a backslash, the two
    values the separator of a URI is declared to take; neither holds a
    [$], so the replacement text is inserted as it is. *)
Fixpoint replaceSeps (sep : string) (inRun : bool) (uri : string) : string :=
  match uri with
  | EmptyString => EmptyString
  | String a rest =>
      if isPathSep a then
        if inRun then replaceSeps sep true rest
        else (sep ++ replaceSeps sep true rest)%string
      else String a (replaceSeps sep false rest)
  end.

Definition notQueryOrHash (a : ascii) : bool :=
  negb (Ascii.eqb a "?"%char || Ascii.eqb a "#"%char).

Definition notHash (a : ascii) : bool := negb (Ascii.eqb a "#"%char).

Definition isSearchDelim (a : ascii) : bool :=
  Ascii.eqb a "?"%char || Ascii.eqb a "&"%char.

(** [rUriFragments.exec(uri)]: groups 1, 2 and 3 of the match, [None] for
    [null].  Group 1 is one or more characters other than [?] and [#];
    group 2, optional, a [?] and the characters up to the next [#]; group
    3, optional, a [#] and the characters up to the next line
    terminator. *)
Definition rUriFragments (uri : string)
    : option (string * option string * option string) :=
  let '(p, r1) := JS.span notQueryOrHash uri in
  match p with
  | EmptyString => None
  | String _ _ =>
      let '(q, r2) :=
        match r1 with
        | String a r =>
            if Ascii.eqb a "?"%char then
              let '(x, y) := JS.span notHash r in (Some (String a x), y)
            else (None, r1)
        | EmptyString => (None, r1)
        end in
      let f :=
        match r2 with
        | String a r =>
            if Ascii.eqb a "#"%char then
              Some (String a (fst (JS.span Importer.notLineTerminator r)))
            else None
        | EmptyString => None
        end in
      Some (p, q, f)
  end.

Section WithHost.

Variable h : Host.

(** [path.sep] is [/] here, so only the environment decides. *)
Definition shouldNormalizePathSep : bool :=
  match EYEGLASS_NORMALIZE_PATHS h with
  | Some v => negb (String.eqb v "false")
  | None => true
  end.

Definition convertSeparator (uri sep : string) : string :=
  if shouldNormalizePathSep then replaceSeps sep false uri else uri.

Definition setPath (u : t) (pathname : string) : t :=
  let pathname1 := convertSeparator pathname NodePath.sep in
  let pathname2 := NodePath.normalize pathname1 in
  {| sep := sep u; path := convertSeparator pathname2 (sep u);
     search := search u; hash := hash u |}.

Definition getPath (u : t) (sep' relativeTo : option string) : string :=
  let pathname :=
    if JS.truthy_opt relativeTo then
      let pathname1 := convertSeparator (path u) NodePath.sep in
      let relativeTo1 := convertSeparator (JS.coerce relativeTo) NodePath.sep in
      if JS.startsWith relativeTo1 pathname1
      then NodePath.relative (cwd h) relativeTo1 pathname1
      else pathname1
    else path u in
  convertSeparator pathname
    (if JS.truthy_opt sep' then JS.coerce sep' else sep u).

(** [search.replace(rSearchDelim, delim)]: the leading run of [?] and [&],
    possibly empty, becomes [delim]. *)
Fixpoint dropSearchDelims (s : string) : string :=
  match s with
  | String a rest => if isSearchDelim a then dropSearchDelims rest else s
  | EmptyString => s
  end.

Definition addQuery (u : t) (search' : option string) : t :=
  if negb (JS.truthy_opt search') then u
  else
    {| sep := sep u; path := path u;
       search :=
         (search u ++ (if JS.truthy (search u) then "&" else "?")
            ++ dropSearchDelims (JS.coerce search'))%string;
       hash := hash u |}.

Definition setQuery (u : t) (search' : option string) : t :=
  addQuery {| sep := sep u; path := path u; search := ""; hash := hash u |}
           search'.

Definition setHash (u : t) (hash' : option string) : t :=
  {| sep := sep u; path := path u; search := search u;
     hash := match hash' with None => "" | Some x => x end |}.

(** [new URI(uri, sep)]; [None] when the constructor throws the
    [TypeError] of reading index 1 of [null]. *)
Definition new (uri : string) (sep' : option string) : option t :=
  let u0 :=
    {| sep := if JS.truthy_opt sep' then JS.coerce sep' else stdSep;
       path := ""; search := ""; hash := "" |} in
  match rUriFragments uri with
  | None => None
  | Some (p, q, f) => Some (setHash (setQuery (setPath u0 p) q) f)
  end.

Definition toString (u : t) : string := (path u ++ search u ++ hash u)%string.

(** [URI.join(...fragments)]. *)
Definition join (fragments : list string) : option string :=
  match new (JS.join stdSep (filter JS.truthy fragments)) None with
  | Some u => Some (getPath u None None)
  | None => None
  end.

(** [URI.web(uri)]. *)
Definition web (uri : string) : option string :=
  match new uri None with
  | Some u => Some (toString u)
  | None => None
  end.

(** [URI.system(uri)]. *)
Definition system (uri : string) : option string :=
  match new uri None with
  | Some u => Some (getPath u (Some NodePath.sep) None)
  | None => None
  end.

End WithHost.

(** *** Static helpers on strings *)

Definition backslash : ascii := ascii_of_nat 92.

Definition BACKSLASH : string := "<BACKSLASH>".

(** [URI.isRelative(uri)]: one or two dots at the start. *)
Definition isRelative (uri : string) : bool := JS.startsWith "." uri.

(** [URI.preserve(uri)]: every backslash becomes [<BACKSLASH>]. *)
Fixpoint preserve (uri : string) : string :=
  match uri with
  | EmptyString => EmptyString
  | String a rest =>
      if Ascii.eqb a backslash then (BACKSLASH ++ preserve rest)%string
      else String a (preserve rest)
  end.

(** [URI.restore(uri)]: every [<BACKSLASH>], scanning from the left,
    becomes a backslash.  [skip] counts the characters of a match that are
    still to be passed over. *)
Fixpoint restore_from (skip : nat) (uri : string) : string :=
  match uri with
  | EmptyString => EmptyString
  | String a rest =>
      match skip with
      | S k => restore_from k rest
      | O =>
          if JS.startsWith BACKSLASH uri
          then String backslash (restore_from 10 rest)
          else String a (restore_from 0 rest)
      end
  end.

Definition restore (uri : string) : string := restore_from 0 uri.

(** [s.slice(k)]. *)
Fixpoint slice (k : nat) (s : string) : string :=
  match k, s with
  | S k', String _ r => slice k' r
  | _, _ => s
  end.

End URI.

(* ================================================================= *)
(** ** Sample hosts

    Small concrete hosts on which the definitions above are run. *)

Module Samples.

(** [path.join] on Sass strings; a segment of another kind makes it
    throw. *)
Fixpoint segmentStrings (segments : list Sass.SassValue)
    : option (list string) :=
  match segments with
  | [] => Some []
  | Sass.SString s :: rest =>
      match segmentStrings rest with
      | Some l => Some (s :: l)
      | None => None
      end
  | _ :: _ => None
  end.

Definition joinStrings (segments : list Sass.SassValue) : string + string :=
  match segmentStrings segments with
  | Some l => inr (NodePath.join l)
  | None => inl "TypeError"
  end.

(** A host for [fs.ts] with the given sandbox; one file exists. *)
Definition fsHost (sandbox : option (list string)) : Fs.Host :=
  {| Fs.cwd := "/work";
     Fs.fsSandbox := sandbox;
     Fs.existsSync := fun p => String.eqb p "/r/a.txt";
     Fs.glob := fun _ _ => inr [];
     Fs.readFile := fun _ => inl "ENOENT";
     Fs.statInfo := fun _ => inl "ENOENT";
     Fs.parseFilename := fun _ => Sass.SMap [];
     Fs.joinSegments := joinStrings;
     Fs.js_coerce := fun _ => "[object Object]" |}.

(** A toy name expander: the file and its partial, as [.scss]. *)
Definition expandScss (uri location : string) : list string :=
  [(location ++ "/" ++ uri ++ ".scss")%string;
   (location ++ "/_" ++ uri ++ ".scss")%string].

Fixpoint assoc {A : Type} (l : list (string * A)) (k : string) : option A :=
  match l with
  | [] => None
  | (k', v) :: rest => if String.eqb k' k then Some v else assoc rest k
  end.

(** A host for the importers: project root and working directory [/proj],
    the given files on disk, the given modules in the registry, the given
    fallback importers. *)
Definition importerHost (files : list (string * string))
    (modules : list (string * Importer.ModuleRecord))
    (chain : list (string -> string -> option Importer.ImporterReturn))
    : Importer.Host :=
  {| Importer.cwd := "/proj";
     Importer.root := "/proj";
     Importer.includePaths := None;
     Importer.existsSync :=
       fun p => match assoc files p with Some _ => true | None => false end;
     Importer.readFileSync := assoc files;
     Importer.access := fun m _ => assoc modules m;
     Importer.expand := expandScss;
     Importer.fallbackImporter := chain;
     Importer.importOnce :=
       fun d => Importer.Imported (Importer.contents d) (Importer.file d) |}.

(** The same host with a working directory and a project root of one's
    choice. *)
Definition importerHostAt (cwd root : string)
    (files : list (string * string))
    (chain : list (string -> string -> option Importer.ImporterReturn))
    : Importer.Host :=
  {| Importer.cwd := cwd;
     Importer.root := root;
     Importer.includePaths := None;
     Importer.existsSync :=
       fun p => match assoc files p with Some _ => true | None => false end;
     Importer.readFileSync := assoc files;
     Importer.access := fun _ _ => None;
     Importer.expand := expandScss;
     Importer.fallbackImporter := chain;
     Importer.importOnce :=
       fun d => Importer.Imported (Importer.contents d) (Importer.file d) |}.

(** The module [widgets] of scenario A. *)
Definition widgets : Importer.ModuleRecord :=
  {| Importer.name := "widgets";
     Importer.sassDir := Some "/proj/node_modules/widgets/sass";
     Importer.mainPath := None |}.

(** A module found in the registry that declares no [sassDir]. *)
Definition bare : Importer.ModuleRecord :=
  {| Importer.name := "bare";
     Importer.sassDir := None;
     Importer.mainPath := Some "/proj/node_modules/bare/eyeglass-exports.js" |}.

(** A fallback importer that resolves everything to one stylesheet. *)
Definition catchAll (uri prev : string) : option Importer.ImporterReturn :=
  Some (Importer.Imported "/* fallback */" "/elsewhere/found.scss").

(** A process with normalisation of separators left on. *)
Definition uriHost : URI.Host :=
  {| URI.cwd := "/work"; URI.EYEGLASS_NORMALIZE_PATHS := None |}.

(** A host for [fs.ts] whose glob finds two files and a directory under
    every directory for the pattern [*], and an entry of the parent
    directory for the pattern [../*]. *)
Definition listingHost (sandbox : option (list string)) : Fs.Host :=
  {| Fs.cwd := "/work";
     Fs.fsSandbox := sandbox;
     Fs.existsSync := fun _ => true;
     Fs.glob :=
       fun _ pattern =>
         if String.eqb pattern "*" then inr ["a.scss"; "sub/"; "b.scss"]
         else if String.eqb pattern "../*" then inr ["../x.scss"; "../lib/"]
         else inl "no match";
     Fs.readFile := fun _ => inl "ENOENT";
     Fs.statInfo := fun _ => inl "ENOENT";
     Fs.parseFilename := fun _ => Sass.SMap [];
     Fs.joinSegments := joinStrings;
     Fs.js_coerce := fun _ => "[object Object]" |}.

End Samples.

(* ================================================================= *)
(** * Properties *)

(** ** Strings and segments *)

Section StringFacts.

Lemma str_app_assoc (a b c : string) :
  ((a ++ b) ++ c)%string = (a ++ (b ++ c))%string.
Proof. induction a as [|x a IH]; simpl; [reflexivity | rewrite IH; reflexivity]. Qed.

Lemma str_app_nil_r (a : string) : (a ++ "")%string = a.
Proof. induction a as [|x a IH]; simpl; [reflexivity | rewrite IH; reflexivity]. Qed.

Lemma startsWith_dotdot_join (s : string) (rest : list string) :
  JS.startsWith ".." (JS.join "/" (s :: rest)) = JS.startsWith ".." s.
Proof.
  destruct rest as [|x rest]; [reflexivity|].
  change (JS.join "/" (s :: x :: rest))
    with (s ++ "/" ++ JS.join "/" (x :: rest))%string.
  destruct s as [|a [|b s]]; cbn.
  - reflexivity.
  - destruct (Ascii.eqb "." a); reflexivity.
  - destruct (Ascii.eqb "." a); [|reflexivity].
    destruct (Ascii.eqb "." b); reflexivity.
Qed.

Lemma split_nonempty (c : ascii) (s : string) : JS.split c s <> [].
Proof.
  destruct s as [|a s]; simpl; [discriminate|].
  destruct (Ascii.eqb a c); [discriminate|].
  destruct (JS.split c s); discriminate.
Qed.

(** Splitting a string that has a separator in the middle. *)
Lemma split_app_sep (c : ascii) (s t : string) :
  JS.split c (s ++ String c t) = JS.split c s ++ JS.split c t.
Proof.
  induction s as [|a s IH]; simpl.
  - rewrite Ascii.eqb_refl. reflexivity.
  - destruct (Ascii.eqb a c); [rewrite IH; reflexivity|].
    rewrite IH.
    destruct (JS.split c s) eqn:E; [exfalso; exact (split_nonempty c s E)|].
    reflexivity.
Qed.

(** A string without separator is its own single piece. *)
Lemma split_no_sep (c : ascii) (s : string) :
  forallb (fun a => negb (Ascii.eqb a c)) (list_ascii_of_string s) = true ->
  JS.split c s = [s].
Proof.
  induction s as [|a s IH]; simpl; [reflexivity|].
  intros H. apply andb_true_iff in H. destruct H as [Ha Hs].
  apply negb_true_iff in Ha. rewrite Ha, (IH Hs). reflexivity.
Qed.

Lemma strip_prefix_common (r p rest : list string) :
  NodePath.strip_prefix r p = Some rest ->
  NodePath.strip_common r p = ([], rest).
Proof.
  revert p. induction r as [|a r IH]; intros p H; simpl in *.
  - injection H as <-. destruct p; reflexivity.
  - destruct p as [|b p]; [discriminate|].
    destruct (String.eqb a b); [auto|discriminate].
Qed.

Lemma strip_prefix_none_common (r p : list string) :
  NodePath.strip_prefix r p = None ->
  exists a up down, NodePath.strip_common r p = (a :: up, down).
Proof.
  revert p. induction r as [|a r IH]; intros p H; simpl in *.
  - discriminate.
  - destruct p as [|b p]; [eauto|].
    destruct (String.eqb a b); [auto|eauto].
Qed.

Lemma strip_prefix_refl (l : list string) :
  NodePath.strip_prefix l l = Some [].
Proof.
  induction l as [|a l IH]; simpl; [reflexivity|].
  rewrite String.eqb_refl. exact IH.
Qed.

Lemma strip_prefix_app (l rest : list string) :
  NodePath.strip_prefix l (l ++ rest) = Some rest.
Proof.
  induction l as [|a l IH]; simpl; [reflexivity|].
  rewrite String.eqb_refl. exact IH.
Qed.

(** [path.relative] from a directory to a path at or below it is made of
    the segments below the directory. *)
Lemma relative_below (cwd dir p : string) (rest : list string) :
  NodePath.below cwd dir p = Some rest ->
  NodePath.relative cwd dir p = JS.join "/" rest
  \/ (dir = p /\ NodePath.relative cwd dir p = "").
Proof.
  unfold NodePath.below, NodePath.relative. intros H.
  destruct (String.eqb dir p) eqn:E.
  - right. split; [apply String.eqb_eq; exact E | reflexivity].
  - left. rewrite (strip_prefix_common _ _ _ H). reflexivity.
Qed.

Lemma below_same (cwd p : string) : NodePath.below cwd p p = Some [].
Proof. unfold NodePath.below. apply strip_prefix_refl. Qed.

(** [path.relative] from a directory to a path outside of it starts by
    going up. *)
Lemma relative_outside (cwd dir p : string) :
  NodePath.below cwd dir p = None ->
  JS.startsWith ".." (NodePath.relative cwd dir p) = true.
Proof.
  unfold NodePath.relative. intros H.
  destruct (String.eqb dir p) eqn:E.
  - apply String.eqb_eq in E. subst p. rewrite below_same in H. discriminate.
  - destruct (strip_prefix_none_common _ _ H) as (a & up & down & ->).
    cbn [map app]. rewrite startsWith_dotdot_join. reflexivity.
Qed.

End StringFacts.

(** ** The sandbox guard *)

Section Sandbox.

Import Fs.

Lemma relative_strictly_below (cwd dir p s : string) (rest : list string) :
  NodePath.below cwd dir p = Some (s :: rest) ->
  NodePath.relative cwd dir p = JS.join "/" (s :: rest).
Proof.
  intros H. destruct (relative_below _ _ _ _ H) as [E | [E _]]; [exact E|].
  subst p. rewrite below_same in H. discriminate.
Qed.

Lemma relative_at (cwd dir p : string) :
  NodePath.below cwd dir p = Some [] -> NodePath.relative cwd dir p = "".
Proof.
  intros H. destruct (relative_below _ _ _ _ H) as [E | [_ E]]; exact E.
Qed.

(** The test of one root, by where the path lies. *)
Lemma pathInSandboxDir_below (cwd dir p s : string) (rest : list string) :
  NodePath.below cwd dir p = Some (s :: rest) ->
  pathInSandboxDir cwd p dir = negb (JS.startsWith ".." s).
Proof.
  intros H. unfold pathInSandboxDir.
  rewrite (relative_strictly_below _ _ _ _ _ H), startsWith_dotdot_join.
  destruct (JS.startsWith ".." s); reflexivity.
Qed.

Lemma pathInSandboxDir_at (cwd dir p : string) :
  NodePath.below cwd dir p = Some [] -> pathInSandboxDir cwd p dir = true.
Proof.
  intros H. unfold pathInSandboxDir. rewrite (relative_at _ _ _ H).
  reflexivity.
Qed.

Lemma pathInSandboxDir_outside (cwd dir p : string) :
  NodePath.below cwd dir p = None -> pathInSandboxDir cwd p dir = false.
Proof.
  intros H. unfold pathInSandboxDir. rewrite (relative_outside _ _ _ H).
  reflexivity.
Qed.

Lemma inSandbox_allow_list (h : Host) (roots : list string) (p : string) :
  fsSandbox h = Some roots ->
  inSandbox h p = existsb (pathInSandboxDir (cwd h) p) roots.
Proof.
  intros E. unfold inSandbox. rewrite E. clear E.
  induction roots as [|r roots IH]; simpl; [reflexivity|].
  rewrite IH. destruct (pathInSandboxDir (cwd h) p r); reflexivity.
Qed.

Lemma inSandbox_some_root (h : Host) (roots : list string) (p r : string) :
  fsSandbox h = Some roots -> In r roots ->
  pathInSandboxDir (cwd h) p r = true -> inSandbox h p = true.
Proof.
  intros E Hin Hr. rewrite (inSandbox_allow_list _ _ _ E).
  apply existsb_exists. exists r. split; assumption.
Qed.

Lemma inSandbox_no_root (h : Host) (roots : list string) (p : string) :
  fsSandbox h = Some roots ->
  (forall r, In r roots -> pathInSandboxDir (cwd h) p r = false) ->
  inSandbox h p = false.
Proof.
  intros E Hall. rewrite (inSandbox_allow_list _ _ _ E).
  destruct (existsb (pathInSandboxDir (cwd h) p) roots) eqn:X;
    [|reflexivity].
  apply existsb_exists in X. destruct X as (r & Hin & Hr).
  rewrite (Hall r Hin) in Hr. discriminate.
Qed.

(** The resolved segments of [dir/name] are those of [dir], then [name]. *)
Lemma resolve_segs_entry (cwd dir name : string) :
  dir <> "" -> NodePath.isEntryName name = true ->
  NodePath.resolve_segs cwd [(dir ++ "/" ++ name)%string]
  = NodePath.resolve_segs cwd [dir] ++ [name].
Proof.
  intros Hdir Hname. unfold NodePath.isEntryName in Hname.
  repeat (apply andb_true_iff in Hname; destruct Hname as [Hname ?]).
  assert (Hsplit : JS.split NodePath.slash (dir ++ "/" ++ name)%string
                   = JS.split NodePath.slash dir ++ [name]).
  { change (dir ++ "/" ++ name)%string
      with (dir ++ String NodePath.slash name)%string.
    rewrite split_app_sep, (split_no_sep _ name); [reflexivity|assumption]. }
  assert (Hraw : NodePath.resolve_raw cwd [(dir ++ "/" ++ name)%string] []
                 = NodePath.resolve_raw cwd [dir] [] ++ [name]).
  { destruct dir as [|a dir]; [congruence|].
    set (p' := (String a dir ++ "/" ++ name)%string) in *.
    assert (Hne : String.eqb p' "" = false) by reflexivity.
    assert (Habs : NodePath.isAbsolute p' = Ascii.eqb a NodePath.slash)
      by reflexivity.
    unfold NodePath.resolve_raw. rewrite Hne, Habs, Hsplit, !app_nil_r.
    change (String.eqb (String a dir) "") with false.
    change (NodePath.isAbsolute (String a dir))
      with (Ascii.eqb a NodePath.slash).
    destruct (Ascii.eqb a NodePath.slash); [reflexivity|].
    rewrite app_assoc. reflexivity. }
  unfold NodePath.resolve_segs. cbn [rev app]. rewrite Hraw.
  unfold NodePath.normalizeSegs. rewrite fold_left_app. cbn [fold_left].
  unfold NodePath.norm_step at 1.
  apply negb_true_iff in Hname, H0, H1. rewrite Hname, H1, H0.
  cbn [rev]. reflexivity.
Qed.

Lemma below_entry (cwd dir name : string) :
  dir <> "" -> NodePath.isEntryName name = true ->
  NodePath.below cwd dir (dir ++ "/" ++ name)%string = Some [name].
Proof.
  intros Hdir Hname. unfold NodePath.below.
  rewrite (resolve_segs_entry _ _ _ Hdir Hname). apply strip_prefix_app.
Qed.

End Sandbox.

Section SandboxClaims.

Import Fs Sass.

(** C2, as amended.  [inSandbox] answers true under an unrestricted
    configuration.  Under an allow-list it answers true exactly when, for
    some root, [path.relative] from the root to the path does not start
    with the two characters [..].  In particular: a path strictly inside a
    listed root, whose first segment below that root does not start with
    [..], is permitted; a path equal to a listed root is permitted; a path
    outside a listed root (such as one that climbs out of it through
    [..]) fails the test of that root, and is rejected when it lies
    outside every listed root. *)
Theorem inSandbox_spec (h : Host) (p : string) :
  (fsSandbox h = None -> inSandbox h p = true)
  /\ (forall roots, fsSandbox h = Some roots ->
        (inSandbox h p = true <->
         exists r, In r roots /\
           JS.startsWith ".." (NodePath.relative (cwd h) r p) = false)
        /\ (forall r s rest, In r roots ->
              NodePath.below (cwd h) r p = Some (s :: rest) ->
              JS.startsWith ".." s = false -> inSandbox h p = true)
        /\ (forall r, In r roots ->
              NodePath.below (cwd h) r p = Some [] -> inSandbox h p = true)
        /\ (forall r, In r roots ->
              NodePath.below (cwd h) r p = None ->
              pathInSandboxDir (cwd h) p r = false)
        /\ ((forall r, In r roots -> NodePath.below (cwd h) r p = None) ->
              inSandbox h p = false)).
Proof.
  split.
  - intros E. unfold inSandbox. rewrite E. reflexivity.
  - intros roots E. repeat split.
    + rewrite (inSandbox_allow_list _ _ _ E). intros H.
      apply existsb_exists in H. destruct H as (r & Hin & Hr).
      exists r. split; [exact Hin|].
      unfold pathInSandboxDir in Hr.
      destruct (JS.startsWith ".." (NodePath.relative (cwd h) r p));
        [discriminate|reflexivity].
    + intros (r & Hin & Hr). apply (inSandbox_some_root _ _ _ r E Hin).
      unfold pathInSandboxDir. rewrite Hr. reflexivity.
    + intros r s rest Hin Hb Hs. apply (inSandbox_some_root _ _ _ r E Hin).
      rewrite (pathInSandboxDir_below _ _ _ _ _ Hb), Hs. reflexivity.
    + intros r Hin Hb. apply (inSandbox_some_root _ _ _ r E Hin).
      apply pathInSandboxDir_at. exact Hb.
    + intros r _ Hb. apply pathInSandboxDir_outside. exact Hb.
    + intros Hall. apply (inSandbox_no_root _ _ _ E).
      intros r Hin. apply pathInSandboxDir_outside. exact (Hall r Hin).
Qed.

(** The theorem at work: [/proj/sandbox/../sandbox-evil/x] climbs out of
    the only root [/proj/sandbox], which is a prefix of the resolved path
    [/proj/sandbox-evil/x]; it is rejected. *)
Lemma inSandbox_spec_witness :
  JS.startsWith "/proj/sandbox"
    (NodePath.resolve "/work" ["/proj/sandbox/../sandbox-evil/x"]) = true
  /\ inSandbox (Samples.fsHost (Some ["/proj/sandbox"]))
       "/proj/sandbox/../sandbox-evil/x" = false.
Proof.
  split; [reflexivity|].
  destruct (inSandbox_spec (Samples.fsHost (Some ["/proj/sandbox"]))
              "/proj/sandbox/../sandbox-evil/x") as [_ H].
  destruct (H ["/proj/sandbox"] eq_refl) as (_ & _ & _ & _ & Hout).
  apply Hout. intros r [<- | []]. reflexivity.
Defined.

(** C2 as stated fails: [/r/..foo] lies strictly inside the only allowed
    root [/r], and is not permitted. *)
Lemma inSandbox_rejects_path_inside_root :
  NodePath.below "/work" "/r" "/r/..foo" = Some ["..foo"]
  /\ fsSandbox (Samples.fsHost (Some ["/r"])) = Some ["/r"]
  /\ inSandbox (Samples.fsHost (Some ["/r"])) "/r/..foo" = false.
Proof. repeat split. Qed.

(** C10, as amended.  Under an allow-list containing a root [r], a path
    that lies inside [r] and whose first segment below [r] starts with the
    two characters [..] fails the test of [r]; when no other root of the
    list admits it, it is not in the sandbox and the filesystem functions
    answer with a security violation naming it. *)
Theorem dotdot_entry_denied (h : Host) (roots : list string)
    (r p s : string) (rest : list string) :
  fsSandbox h = Some roots -> In r roots ->
  NodePath.below (cwd h) r p = Some (s :: rest) ->
  JS.startsWith ".." s = true ->
  JS.startsWith ".." (NodePath.relative (cwd h) r p) = true
  /\ pathInSandboxDir (cwd h) p r = false
  /\ ((forall r', In r' roots -> r' <> r ->
         pathInSandboxDir (cwd h) p r' = false) ->
      inSandbox h p = false
      /\ fs_exists h (SString p) = Done (accessViolation p)
      /\ fs_info h (SString p) = Done (accessViolation p)
      /\ fs_read_file h (SString p) = Done (accessViolation p)
      /\ (forall g, fs_list_files h (SString p) (SString g)
                    = Done (accessViolation p))
      /\ (forall g, fs_list_directories h (SString p) (SString g)
                    = Done (accessViolation p))).
Proof.
  intros E Hin Hb Hs.
  assert (Hr : pathInSandboxDir (cwd h) p r = false).
  { rewrite (pathInSandboxDir_below _ _ _ _ _ Hb), Hs. reflexivity. }
  split; [|split; [exact Hr|]].
  - rewrite (relative_strictly_below _ _ _ _ _ Hb), startsWith_dotdot_join.
    exact Hs.
  - intros Hothers.
    assert (Hno : inSandbox h p = false).
    { apply (inSandbox_no_root _ _ _ E). intros r' Hin'.
      destruct (string_dec r' r) as [-> | Hne]; [exact Hr|].
      apply Hothers; assumption. }
    unfold fs_exists, fs_info, fs_read_file, fs_list_files,
      fs_list_directories, globFiles.
    rewrite Hno. repeat split.
Qed.

Lemma dotdot_entry_denied_witness :
  inSandbox (Samples.fsHost (Some ["/r"])) "/r/..foo" = false
  /\ fs_exists (Samples.fsHost (Some ["/r"])) (SString "/r/..foo")
     = Done (RetError "Security violation: Cannot access /r/..foo").
Proof.
  destruct (dotdot_entry_denied (Samples.fsHost (Some ["/r"])) ["/r"]
              "/r" "/r/..foo" "..foo" [] eq_refl (or_introl eq_refl)
              eq_refl eq_refl) as (_ & _ & H).
  destruct H as (H1 & H2 & _).
  - intros r' [<- | []] Hne. exfalso. apply Hne. reflexivity.
  - split; [exact H1 | exact H2].
Defined.

(** C10 as stated fails: the allow-list contains [/r], the path
    [/r/..foo] lies inside [/r] with a first segment that starts with
    [..], and the path is permitted, through the other root [/]. *)
Lemma dotdot_entry_admitted_by_other_root :
  fsSandbox (Samples.fsHost (Some ["/r"; "/"])) = Some ["/r"; "/"]
  /\ NodePath.below "/work" "/r" "/r/..foo" = Some ["..foo"]
  /\ inSandbox (Samples.fsHost (Some ["/r"; "/"])) "/r/..foo" = true
  /\ fs_exists (Samples.fsHost (Some ["/r"; "/"])) (SString "/r/..foo")
     = Done (RetValue (SBoolean false)).
Proof. repeat split. Qed.

(** The example of C10: a root joined with an entry name that starts with
    [..] is such a path. *)
Lemma joined_dotdot_entry (cwd r name : string) :
  r <> "" -> NodePath.isEntryName name = true ->
  JS.startsWith ".." name = true ->
  NodePath.below cwd r (r ++ "/" ++ name)%string = Some [name]
  /\ pathInSandboxDir cwd (r ++ "/" ++ name)%string r = false.
Proof.
  intros Hr Hname Hs. pose proof (below_entry cwd r name Hr Hname) as Hb.
  split; [exact Hb|].
  rewrite (pathInSandboxDir_below _ _ _ _ _ Hb), Hs. reflexivity.
Qed.

End SandboxClaims.

(** ** Module-name parsing *)

Section Parsing.

Import Importer.

Lemma span_spec (p : ascii -> bool) (s x y : string) :
  JS.span p s = (x, y) ->
  s = (x ++ y)%string
  /\ forallb p (list_ascii_of_string x) = true
  /\ (y = "" \/ exists a y', y = String a y' /\ p a = false).
Proof.
  revert x y. induction s as [|a s IH]; intros x y H; simpl in H.
  - injection H as <- <-. repeat split. left. reflexivity.
  - destruct (p a) eqn:Pa.
    + destruct (JS.span p s) as [x' y'] eqn:E.
      injection H as <- <-.
      destruct (IH x' y' eq_refl) as (Hs & Hall & Hy).
      repeat split.
      * simpl. f_equal. exact Hs.
      * simpl. rewrite Pa. exact Hall.
      * exact Hy.
    + injection H as <- <-. repeat split. right. eauto.
Qed.

(** The greedy run of a character class stops where the class stops. *)
Lemma span_app_stop (p : ascii -> bool) (x y : string) :
  forallb p (list_ascii_of_string x) = true ->
  (y = "" \/ exists a y', y = String a y' /\ p a = false) ->
  JS.span p (x ++ y) = (x, y).
Proof.
  intros Hx Hy. induction x as [|a x IH]; simpl.
  - destruct Hy as [-> | (a & y' & -> & Ha)]; [reflexivity|].
    simpl. rewrite Ha. reflexivity.
  - simpl in Hx. apply andb_true_iff in Hx. destruct Hx as [Ha Hx].
    rewrite Ha, (IH Hx). reflexivity.
Qed.

Lemma isSegment_intro (a : ascii) (s : string) :
  forallb notSlash (list_ascii_of_string (String a s)) = true ->
  isSegment (String a s) = true.
Proof. intros H. unfold isSegment. rewrite H. reflexivity. Qed.

Lemma notSlash_false (a : ascii) : notSlash a = false -> a = "/"%char.
Proof.
  unfold notSlash. intros H. apply negb_false_iff in H.
  apply Ascii.eqb_eq. exact H.
Qed.

(** What the first group matches, and what follows it. *)
Lemma scopedSegment_spec (s m rest : string) :
  scopedSegment s = Some (m, rest) ->
  s = (m ++ rest)%string
  /\ (exists scope nm, m = ("@" ++ scope ++ "/" ++ nm)%string
        /\ isSegment scope = true /\ isSegment nm = true)
  /\ (rest = "" \/ exists r, rest = String "/" r).
Proof.
  unfold scopedSegment. destruct s as [|a s1]; [discriminate|].
  destruct (Ascii.eqb a "@") eqn:Ea; [|discriminate].
  apply Ascii.eqb_eq in Ea. subst a.
  destruct (JS.span notSlash s1) as [scope r1] eqn:E1.
  destruct scope as [|c scope]; [discriminate|].
  destruct r1 as [|b s2]; [discriminate|].
  destruct (JS.span notSlash s2) as [nm r2] eqn:E2.
  destruct nm as [|d nm]; [discriminate|].
  intros H. injection H as <- <-.
  destruct (span_spec _ _ _ _ E1) as (H1 & Hall1 & [Hy1 | (b' & y' & Hy1 & Hb)]);
    [discriminate|].
  injection Hy1 as <- <-. apply notSlash_false in Hb. subst b.
  destruct (span_spec _ _ _ _ E2) as (H2 & Hall2 & Hy2).
  repeat split.
  - rewrite H1, H2. simpl. do 2 f_equal.
    rewrite !str_app_assoc. reflexivity.
  - exists (String c scope), (String d nm). repeat split.
    + apply isSegment_intro. exact Hall1.
    + apply isSegment_intro. exact Hall2.
  - destruct Hy2 as [-> | (a & y & -> & Ha)]; [left; reflexivity|].
    right. apply notSlash_false in Ha. subst a. eauto.
Qed.

Lemma bareSegment_spec (s m rest : string) :
  bareSegment s = Some (m, rest) ->
  s = (m ++ rest)%string /\ isSegment m = true
  /\ (rest = "" \/ exists r, rest = String "/" r).
Proof.
  unfold bareSegment. destruct (JS.span notSlash s) as [seg r] eqn:E.
  destruct seg as [|c seg]; [discriminate|].
  intros H. injection H as <- <-.
  destruct (span_spec _ _ _ _ E) as (H1 & Hall & Hy).
  repeat split; [exact H1 | apply isSegment_intro; exact Hall |].
  destruct Hy as [-> | (a & y & -> & Ha)]; [left; reflexivity|].
  right. apply notSlash_false in Ha. subst a. eauto.
Qed.

(** Every match of [MODULE_PARSER]: the module name is a scoped name or
    a single segment; the identifier is the module name alone, or the
    module name, a [/], the relative path, and what follows the first line
    terminator. *)
Lemma MODULE_PARSER_shape (uri moduleName relativePath : string) :
  MODULE_PARSER uri = Some (moduleName, relativePath) ->
  ((exists scope nm,
      moduleName = ("@" ++ scope ++ "/" ++ nm)%string
      /\ isSegment scope = true /\ isSegment nm = true)
   \/ isSegment moduleName = true)
  /\ ((uri = moduleName /\ relativePath = "")
      \/ exists tail,
           uri = (moduleName ++ "/" ++ relativePath ++ tail)%string
           /\ forallb notLineTerminator
                (list_ascii_of_string relativePath) = true
           /\ (tail = "" \/
               exists a t, tail = String a t
                           /\ isLineTerminator a = true)).
Proof.
  revert uri moduleName relativePath.
  intros uri m rel. unfold MODULE_PARSER.
  assert (Hgen : forall rest,
            uri = (m ++ rest)%string ->
            (rest = "" \/ exists r, rest = String "/" r) ->
            rel = fst (JS.span notLineTerminator
                         match rest with
                         | String a r =>
                             if Ascii.eqb a "/" then r else rest
                         | EmptyString => rest
                         end) ->
            (uri = m /\ rel = "")
            \/ exists tail,
                 uri = (m ++ "/" ++ rel ++ tail)%string
                 /\ forallb notLineTerminator (list_ascii_of_string rel) = true
                 /\ (tail = "" \/
                     exists a t, tail = String a t
                                 /\ isLineTerminator a = true)).
  { intros rest Huri [-> | (r & ->)] Hrel.
    - left. split; [|exact Hrel].
      rewrite Huri. apply str_app_nil_r.
    - right. rewrite Ascii.eqb_refl in Hrel.
      destruct (JS.span notLineTerminator r) as [x y] eqn:E.
      simpl in Hrel. subst rel.
      destruct (span_spec _ _ _ _ E) as (Hr & Hall & Hy).
      exists y. repeat split.
      + rewrite Huri, Hr. reflexivity.
      + exact Hall.
      + destruct Hy as [-> | (a & t & -> & Ha)]; [left; reflexivity|].
        right. exists a, t. split; [reflexivity|].
        unfold notLineTerminator in Ha. apply negb_false_iff in Ha.
        exact Ha. }
  destruct (scopedSegment uri) as [[m1 rest1]|] eqn:Es.
  - intros H. injection H as <- Hrel.
    destruct (scopedSegment_spec _ _ _ Es) as (Huri & Hshape & Hrest).
    split; [left; exact Hshape|].
    apply (Hgen rest1 Huri Hrest). symmetry. exact Hrel.
  - destruct (bareSegment uri) as [[m1 rest1]|] eqn:Eb; [|discriminate].
    intros H. injection H as <- Hrel.
    destruct (bareSegment_spec _ _ _ Eb) as (Huri & Hseg & Hrest).
    split; [right; exact Hseg|].
    apply (Hgen rest1 Huri Hrest). symmetry. exact Hrel.
Qed.


Lemma isSegment_chars (s : string) :
  isSegment s = true ->
  forallb (fun a => negb (Ascii.eqb a "/")) (list_ascii_of_string s) = true.
Proof.
  unfold isSegment. intros H. apply andb_true_iff in H. exact (proj2 H).
Qed.

(** The pieces of a scoped name. *)
Lemma split_scoped (scope nm : string) :
  isSegment scope = true -> isSegment nm = true ->
  JS.split "/" ("@" ++ scope ++ "/" ++ nm)%string
  = [("@" ++ scope)%string; nm].
Proof.
  intros Hs Hn.
  change ("@" ++ scope ++ "/" ++ nm)%string
    with (String "@" scope ++ String "/" nm)%string.
  rewrite split_app_sep, (split_no_sep _ nm (isSegment_chars _ Hn)).
  rewrite (split_no_sep _ (String "@" scope)); [reflexivity|].
  simpl. apply isSegment_chars. exact Hs.
Qed.

(** A parsed module name that starts with [@] has one piece, as
    [@scope], or two, as [@scope/name]. *)
Lemma parsed_scope_pieces (uri m rel : string) :
  MODULE_PARSER uri = Some (m, rel) ->
  JS.head m = Some "@"%char ->
  JS.split "/" m = [m]
  \/ exists scope nm,
       JS.split "/" m = [scope; nm] /\ m = (scope ++ "/" ++ nm)%string.
Proof.
  intros Hp _.
  destruct (MODULE_PARSER_shape _ _ _ Hp) as [[(scope & nm & -> & Hs & Hn) | Hb] _].
  - right. exists ("@" ++ scope)%string, nm.
    split; [apply split_scoped; assumption | reflexivity].
  - left. apply split_no_sep, isSegment_chars, Hb.
Qed.

(** C4.  [MODULE_PARSER] splits an identifier into a module name, which
    is a scoped name [@scope/name] or a single segment, optionally
    followed by [/] and the relative path (up to the first line
    terminator, which the pattern does not cross); it parses
    [@scope/pkg/lib/_foo] as module [@scope/pkg] with relative path
    [lib/_foo], and [pkg/lib/foo] as module [pkg] with relative path
    [lib/foo]. *)
Theorem MODULE_PARSER_splits :
  MODULE_PARSER "@scope/pkg/lib/_foo" = Some ("@scope/pkg", "lib/_foo")
  /\ MODULE_PARSER "pkg/lib/foo" = Some ("pkg", "lib/foo")
  /\ forall uri moduleName relativePath,
       MODULE_PARSER uri = Some (moduleName, relativePath) ->
       ((exists scope nm,
           moduleName = ("@" ++ scope ++ "/" ++ nm)%string
           /\ isSegment scope = true /\ isSegment nm = true)
        \/ isSegment moduleName = true)
       /\ ((uri = moduleName /\ relativePath = "")
           \/ exists tail,
                uri = (moduleName ++ "/" ++ relativePath ++ tail)%string
                /\ forallb notLineTerminator
                     (list_ascii_of_string relativePath) = true
                /\ (tail = "" \/
                    exists a t, tail = String a t
                                /\ isLineTerminator a = true)).
Proof.
  split; [reflexivity|]. split; [reflexivity|].
  intros uri m rel. apply MODULE_PARSER_shape.
Qed.

Lemma MODULE_PARSER_splits_witness :
  (exists scope nm,
      "@a/b" = ("@" ++ scope ++ "/" ++ nm)%string
      /\ isSegment scope = true /\ isSegment nm = true)
  \/ isSegment "@a/b" = true.
Proof.
  destruct MODULE_PARSER_splits as (_ & _ & H).
  exact (proj1 (H "@a/b/c" "@a/b" "c" eq_refl)).
Defined.

End Parsing.

(** ** Traces of the importers *)

Section Traces.

Import Importer.

Variable h : Host.

Lemma fallbackChain_trace
    (chain : list (string -> string -> option ImporterReturn))
    (uri prev : string) (dn : ImporterReturn -> Trace)
    (noFallback : unit -> Trace) :
  fallbackChain chain uri prev dn noFallback
  = repeat (Fallback uri prev) (fst (firstUsable chain uri prev))
    ++ match snd (firstUsable chain uri prev) with
       | Some r => dn r
       | None => noFallback tt
       end.
Proof.
  induction chain as [|imp chain IH]; simpl; [reflexivity|].
  destruct (imp uri prev) as [r|]; [reflexivity|].
  rewrite IH. destruct (firstUsable chain uri prev) as [n r]. reflexivity.
Qed.

Lemma fallback_trace (uri prev : string) (dn : ImporterReturn -> Trace)
    (noFallback : unit -> Trace) :
  fallback h uri prev dn noFallback
  = repeat (Fallback uri prev) (fst (firstUsable (fallbackImporter h) uri prev))
    ++ match snd (firstUsable (fallbackImporter h) uri prev) with
       | Some r => dn r
       | None => noFallback tt
       end.
Proof. apply fallbackChain_trace. Qed.

(** A chain in which no importer has anything usable is walked to its
    end. *)
Lemma firstUsable_nothing
    (chain : list (string -> string -> option ImporterReturn))
    (uri prev : string) :
  (forall imp, In imp chain -> imp uri prev = None) ->
  firstUsable chain uri prev = (length chain, None).
Proof.
  induction chain as [|imp chain IH]; intros H; simpl; [reflexivity|].
  rewrite (H imp (or_introl eq_refl)), IH; [reflexivity|].
  intros imp' Hin. apply H. right. exact Hin.
Qed.

Lemma readFirst_miss (files : list string) (cb : ImportResultCallback)
    (onMiss : Trace) :
  (forall f, In f files -> readFileSync h f = None) ->
  readFirst h files cb onMiss = map Read files ++ onMiss.
Proof.
  induction files as [|f files IH]; intros H; simpl; [reflexivity|].
  rewrite (H f (or_introl eq_refl)), IH; [reflexivity|].
  intros f' Hin. apply H. right. exact Hin.
Qed.

Lemma readFirst_hit (pre post : list string) (f data : string)
    (cb : ImportResultCallback) (onMiss : Trace) :
  (forall g, In g pre -> readFileSync h g = None) ->
  readFileSync h f = Some data ->
  readFirst h (pre ++ f :: post) cb onMiss
  = map Read pre ++ Read f
      :: cb None (Some {| contents := data; file := f |}).
Proof.
  induction pre as [|g pre IH]; intros H Hf; simpl.
  - rewrite Hf. reflexivity.
  - rewrite (H g (or_introl eq_refl)), IH; [reflexivity| |exact Hf].
    intros g' Hin. apply H. right. exact Hin.
Qed.

Lemma accesses_app (a b : Trace) : accesses (a ++ b) = accesses a ++ accesses b.
Proof.
  induction a as [|e a IH]; simpl; [reflexivity|].
  destruct e; simpl; rewrite IH; reflexivity.
Qed.

Lemma accesses_fallback (uri prev : string) (dn : ImporterReturn -> Trace)
    (noFallback : unit -> Trace) :
  (forall r, accesses (dn r) = []) -> accesses (noFallback tt) = [] ->
  accesses (fallback h uri prev dn noFallback) = [].
Proof.
  intros Hd Hn. unfold fallback.
  induction (fallbackImporter h) as [|imp chain IH]; simpl; [exact Hn|].
  destruct (imp uri prev); [apply Hd | exact IH].
Qed.

Lemma accesses_readFirst (files : list string) (cb : ImportResultCallback)
    (onMiss : Trace) :
  (forall e d, accesses (cb e d) = []) -> accesses onMiss = [] ->
  accesses (readFirst h files cb onMiss) = [].
Proof.
  intros Hcb Hm. induction files as [|f files IH]; simpl; [exact Hm|].
  destruct (readFileSync h f); [apply Hcb | exact IH].
Qed.

Lemma accesses_readAbstractFile (originalUri uri location : string)
    (ips : option (list string)) (moduleName : option string)
    (cb : ImportResultCallback) :
  (forall e d, accesses (cb e d) = []) ->
  accesses (readAbstractFile h originalUri uri location ips moduleName cb) = [].
Proof.
  intros Hcb. unfold readAbstractFile, readFirstFile.
  apply accesses_readFirst; [exact Hcb | apply Hcb].
Qed.

Lemma accesses_createHandler (uri prev : string)
    (errorHandler : option (string -> Trace)) :
  (forall eh, errorHandler = Some eh -> forall e, accesses (eh e) = []) ->
  forall e d, accesses (createHandler h uri prev errorHandler e d) = [].
Proof.
  intros Heh e d. unfold createHandler.
  assert (Hf : forall msg,
             accesses
               (fallback h uri prev done
                  (fun _ =>
                     match errorHandler with
                     | Some eh => eh
                     | None => defaultErrorHandler
                     end msg)) = []).
  { intros msg. apply accesses_fallback; [reflexivity|].
    destruct errorHandler as [eh|]; [apply (Heh eh eq_refl) | reflexivity]. }
  destruct e as [e|]; [apply Hf|].
  destruct d as [d|]; [reflexivity | apply Hf].
Qed.

Lemma accesses_handleRelativeImports (uri prev : string)
    (ips : option (list string)) :
  accesses (handleRelativeImports h uri prev ips) = [].
Proof.
  unfold handleRelativeImports.
  destruct (existsSync h prev); apply accesses_readAbstractFile;
    apply accesses_createHandler.
  - discriminate.
  - intros eh E. injection E as <-. reflexivity.
Qed.

(** The registry is consulted by the lookup at the start only. *)
Lemma accesses_ModuleImporter (uri prev m rel : string) :
  MODULE_PARSER uri = Some (m, rel) ->
  accesses (ModuleImporter h uri prev)
  = accesses (fst (lookupModule h prev m rel)).
Proof.
  intros Hp. unfold ModuleImporter. rewrite Hp.
  destruct (lookupModule h prev m rel) as [lookups [[mn rp] md]].
  rewrite accesses_app. cbn [fst].
  rewrite <- (app_nil_r (accesses lookups)) at 2. f_equal.
  destruct md as [md|]; [|apply accesses_handleRelativeImports].
  destruct (negb (JS.truthy_opt (sassDir md)) && negb (existsSync h prev)).
  - apply accesses_fallback; reflexivity.
  - destruct (sassDir md) as [dir|]; [|apply accesses_handleRelativeImports].
    destruct (JS.truthy dir); [|apply accesses_handleRelativeImports].
    apply accesses_readAbstractFile, accesses_createHandler.
    intros eh E. injection E as <-. intros _.
    apply accesses_handleRelativeImports.
Qed.

End Traces.

(** ** The scoped-name retry *)

Section Retry.

Import Importer.

(** C3.  When the parsed module name starts with [@] and the registry
    does not know it, the lookup is retried exactly once, for the first
    [/]-piece of the name alone.  A scoped name [@scope/name] is retried
    as [@scope], with [name/] put in front of the relative path, and that
    relative path is what a module attempt then expands.  A name of one
    piece has no second piece to put in front: the retry asks for the same
    name again, finds nothing and the request goes on with the relative
    attempt, in which the relative path plays no part. *)
Theorem scoped_name_retry (h : Host) (uri prev m rel : string) :
  MODULE_PARSER uri = Some (m, rel) ->
  JS.head m = Some "@"%char ->
  access h m (if existsSync h prev then prev else root h) = None ->
  let location := if existsSync h prev then prev else root h in
  exists first,
    ((JS.split "/" m = [first] /\ first = m)
     \/ exists nm, JS.split "/" m = [first; nm]
                   /\ m = (first ++ "/" ++ nm)%string)
    /\ accesses (ModuleImporter h uri prev)
       = [(m, location); (first, location)]
    /\ (forall nm,
          JS.split "/" m = [first; nm] ->
          lookupModule h prev m rel
          = ([Access m location; Access first location],
             (first, (nm ++ "/" ++ rel)%string, access h first location))
          /\ forall md dir,
               access h first location = Some md ->
               sassDir md = Some dir -> JS.truthy dir = true ->
               ModuleImporter h uri prev
               = [Access m location; Access first location]
                 ++ readAbstractFile h uri (nm ++ "/" ++ rel)%string dir None
                      (Some first)
                      (createHandler h uri prev
                         (Some (fun _ =>
                                  handleRelativeImports h uri prev None))))
    /\ (JS.split "/" m = [first] ->
          ModuleImporter h uri prev
          = [Access m location; Access m location]
            ++ handleRelativeImports h uri prev (includePaths h)).
Proof.
  intros Hp Hhead Hacc location.
  assert (Hl : forall pieces,
             JS.split "/" m = pieces ->
             lookupModule h prev m rel
             = ([Access m location;
                 Access (JS.coerce (nth_error pieces 0)) location],
                (JS.coerce (nth_error pieces 0),
                 (JS.coerce (nth_error pieces 1) ++ "/" ++ rel)%string,
                 access h (JS.coerce (nth_error pieces 0)) location))).
  { intros pieces <-. unfold lookupModule. fold location.
    unfold location at 1. rewrite Hacc, Hhead, Ascii.eqb_refl. reflexivity. }
  destruct (parsed_scope_pieces uri m rel Hp Hhead)
    as [Hone | (first & nm & Htwo & Hm)].
  - exists m. split; [left; split; [exact Hone | reflexivity]|].
    pose proof (Hl _ Hone) as Hl1. cbn [nth_error JS.coerce] in Hl1.
    split; [|split].
    + rewrite (accesses_ModuleImporter h uri prev m rel Hp), Hl1.
      reflexivity.
    + intros nm Htwo. rewrite Hone in Htwo. discriminate.
    + intros _. unfold ModuleImporter. rewrite Hp, Hl1. fold location.
      unfold location at 3. rewrite Hacc. reflexivity.
  - exists first. split; [right; exists nm; split; assumption|].
    pose proof (Hl _ Htwo) as Hl2. cbn [nth_error JS.coerce] in Hl2.
    split; [|split].
    + rewrite (accesses_ModuleImporter h uri prev m rel Hp), Hl2.
      reflexivity.
    + intros nm' Htwo'. rewrite Htwo in Htwo'. injection Htwo' as <-.
      split; [exact Hl2|].
      intros md dir Hmd Hdir Htruthy. unfold ModuleImporter.
      rewrite Hp, Hl2, Hmd. unfold JS.truthy_opt.
      rewrite Hdir, Htruthy. reflexivity.
    + intros Hone. rewrite Htwo in Hone. discriminate.
Qed.

(** Scenario C: [@scope/name/sub], with no module [@scope/name], is
    retried as module [@scope] with relative path [name/sub]. *)
Lemma scoped_name_retry_witness :
  MODULE_PARSER "@scope/name/sub" = Some ("@scope/name", "sub")
  /\ lookupModule (Samples.importerHost [] [] []) "stdin" "@scope/name" "sub"
     = ([Access "@scope/name" "/proj"; Access "@scope" "/proj"],
        ("@scope", "name/sub", None)).
Proof.
  split; [reflexivity|].
  destruct (scoped_name_retry (Samples.importerHost [] [] [])
              "@scope/name/sub" "stdin" "@scope/name" "sub"
              eq_refl eq_refl eq_refl) as (first & Hpieces & _ & Htwo & _).
  destruct Hpieces as [[Hone _] | (nm & Hsplit & _)].
  - discriminate Hone.
  - injection Hsplit as <- <-. exact (proj1 (Htwo "name" eq_refl)).
Defined.

(** A name of one piece, [@scope]: the registry is asked twice for
    [@scope]; the relative path computed for the retry is [undefined/]
    (there is no second piece), and the run, which goes on with the
    relative attempt for the identifier, does not read it. *)
Example single_segment_scope_retry :
  MODULE_PARSER "@scope" = Some ("@scope", "")
  /\ lookupModule (Samples.importerHost [] [] []) "stdin" "@scope" ""
     = ([Access "@scope" "/proj"; Access "@scope" "/proj"],
        ("@scope", "undefined/", None))
  /\ ModuleImporter (Samples.importerHost [] [] []) "@scope" "stdin"
     = [Access "@scope" "/proj"; Access "@scope" "/proj";
        Read "/proj/@scope.scss"; Read "/proj/_@scope.scss";
        Return (Failed "Could not import @scope from stdin")].
Proof. repeat split. Qed.

End Retry.

(** ** The resolution state machine *)

Section Resolution.

Import Importer.

Variable h : Host.

Lemma startsWith_app (s b : string) : JS.startsWith s (s ++ b) = true.
Proof.
  induction s as [|a s IH]; simpl; [reflexivity|].
  rewrite Ascii.eqb_refl. exact IH.
Qed.

Lemma includes_app (s a b : string) : JS.includes s (a ++ s ++ b) = true.
Proof.
  induction a as [|x a IH].
  - simpl append. destruct (s ++ b)%string eqn:E.
    + unfold JS.includes. rewrite <- E, startsWith_app. reflexivity.
    + unfold JS.includes; fold JS.includes. rewrite <- E, startsWith_app.
      reflexivity.
  - simpl append. simpl. rewrite IH. apply orb_true_r.
Qed.

Lemma includes_self (s : string) : JS.includes s s = true.
Proof.
  rewrite <- (str_app_nil_r s) at 2. apply (includes_app s "" "").
Qed.

(** Every element of a joined list occurs in the result. *)
Lemma includes_join (sep f : string) (l : list string) :
  In f l -> JS.includes f (JS.join sep l) = true.
Proof.
  induction l as [|x l IH]; intros Hin; [destruct Hin|].
  destruct l as [|y l].
  - destruct Hin as [-> | []]. apply includes_self.
  - change (JS.join sep (x :: y :: l))
      with (x ++ sep ++ JS.join sep (y :: l))%string.
    destruct Hin as [-> | Hin].
    + apply (includes_app f "").
    + specialize (IH Hin).
      assert (G : forall t pre, JS.includes f t = true ->
                                JS.includes f (pre ++ t) = true).
      { intros t pre Ht. induction pre as [|c pre IHp]; [exact Ht|].
        simpl. rewrite IHp. apply orb_true_r. }
      apply G, G, IH.
Qed.

(** The probing loop, when every file it tried to read was missing. *)
Lemma readFirst_all_missed (files : list string) (cb : ImportResultCallback)
    (onMiss : Trace) :
  (forall f, In f (reads (readFirst h files cb onMiss)) ->
             readFileSync h f = None) ->
  readFirst h files cb onMiss = map Read files ++ onMiss.
Proof.
  induction files as [|f files IH]; intros H; [reflexivity|].
  simpl in H |- *.
  assert (Hf : readFileSync h f = None) by (apply H; left; reflexivity).
  rewrite Hf in H |- *. f_equal. apply IH.
  intros g Hg. apply H. right. exact Hg.
Qed.

Lemma reads_app (a b : Trace) : reads (a ++ b) = reads a ++ reads b.
Proof.
  induction a as [|e a IH]; simpl; [reflexivity|].
  destruct e; simpl; rewrite IH; reflexivity.
Qed.

Lemma reads_map_Read (l : list string) : reads (map Read l) = l.
Proof. induction l as [|x l IH]; simpl; [reflexivity | rewrite IH; reflexivity]. Qed.

Lemma reads_repeat_Fallback (uri prev : string) (n : nat) :
  reads (repeat (Fallback uri prev) n) = [].
Proof. induction n; simpl; auto. Qed.

Lemma returned_app (a b : Trace) :
  returned (a ++ b) = returned a ++ returned b.
Proof.
  induction a as [|e a IH]; simpl; [reflexivity|].
  destruct e; simpl; rewrite IH; reflexivity.
Qed.

Lemma returned_map_Read (l : list string) : returned (map Read l) = [].
Proof. induction l as [|x l IH]; simpl; auto. Qed.

Lemma returned_repeat_Fallback (uri prev : string) (n : nat) :
  returned (repeat (Fallback uri prev) n) = [].
Proof. induction n; simpl; auto. Qed.

Lemma handleRelativeImports_miss (uri prev : string)
    (ips : option (list string)) :
  (forall f, In f (reads (handleRelativeImports h uri prev ips)) ->
             readFileSync h f = None) ->
  handleRelativeImports h uri prev ips
  = map Read (relativeCandidates h uri prev ips)
    ++ repeat (Fallback uri prev)
         (fst (firstUsable (fallbackImporter h) uri prev))
    ++ match snd (firstUsable (fallbackImporter h) uri prev) with
       | Some r => [Return r]
       | None => [Return (Failed (relativeMiss h uri prev ips))]
       end.
Proof.
  unfold handleRelativeImports, relativeMiss, relativeCandidates,
    readAbstractFile, readFirstFile.
  destruct (existsSync h prev); intros H;
    rewrite (readFirst_all_missed _ _ _ H); unfold createHandler;
    rewrite fallback_trace; reflexivity.
Qed.

End Resolution.

Section ResolutionClaims.

Import Importer.

Variable h : Host.

Lemma handleRelativeImports_no_candidate (uri prev : string)
    (ips : option (list string)) :
  (forall f, In f (relativeCandidates h uri prev ips) ->
             readFileSync h f = None) ->
  handleRelativeImports h uri prev ips
  = map Read (relativeCandidates h uri prev ips)
    ++ repeat (Fallback uri prev)
         (fst (firstUsable (fallbackImporter h) uri prev))
    ++ match snd (firstUsable (fallbackImporter h) uri prev) with
       | Some r => [Return r]
       | None => [Return (Failed (relativeMiss h uri prev ips))]
       end.
Proof.
  unfold handleRelativeImports, relativeMiss, relativeCandidates,
    readAbstractFile, readFirstFile.
  destruct (existsSync h prev); intros H;
    rewrite (readFirst_miss _ _ _ _ H); unfold createHandler;
    rewrite fallback_trace; reflexivity.
Qed.

Lemma handleRelativeImports_hit (uri prev : string)
    (ips : option (list string)) (pre post : list string) (f data : string) :
  relativeCandidates h uri prev ips = pre ++ f :: post ->
  (forall g, In g pre -> readFileSync h g = None) ->
  readFileSync h f = Some data ->
  handleRelativeImports h uri prev ips
  = map Read pre
    ++ [Read f; Return (importOnce h {| contents := data; file := f |})].
Proof.
  unfold handleRelativeImports, relativeCandidates, readAbstractFile,
    readFirstFile.
  destruct (existsSync h prev); intros E Hpre Hf; rewrite E;
    rewrite (readFirst_hit _ _ _ _ _ _ _ Hpre Hf); reflexivity.
Qed.

(** The module attempt, when none of its candidates can be read. *)
Lemma module_attempt_miss (uri prev rel dir mname : string) :
  (forall f, In f (moduleCandidates h rel dir mname) ->
             readFileSync h f = None) ->
  readAbstractFile h uri rel dir None (Some mname)
    (createHandler h uri prev
       (Some (fun _ => handleRelativeImports h uri prev None)))
  = map Read (moduleCandidates h rel dir mname)
    ++ fallback h uri prev done
         (fun _ => handleRelativeImports h uri prev None).
Proof.
  intros H. unfold readAbstractFile, readFirstFile.
  fold (moduleCandidates h rel dir mname).
  rewrite (readFirst_miss _ _ _ _ H). reflexivity.
Qed.

(** C1, as amended.  When a request reaches the module attempt and none
    of the module candidates can be read, the fallback importers are
    called first, with the original identifier and the requesting file.  A
    usable answer of theirs completes the request, and no relative attempt
    is made.  Only when they have nothing usable does the relative attempt
    run (without include paths); its first readable candidate completes
    the request; when none of its candidates can be read either, the
    fallback importers are called again with the original identifier, and
    only when they have nothing usable is the final error delivered. *)
Theorem module_miss_consults_fallback_first
    (uri prev m0 rel0 mname rel dir : string) (lookups : list Event)
    (md : ModuleRecord) :
  MODULE_PARSER uri = Some (m0, rel0) ->
  lookupModule h prev m0 rel0 = (lookups, (mname, rel, Some md)) ->
  sassDir md = Some dir -> JS.truthy dir = true ->
  (forall f, In f (moduleCandidates h rel dir mname) ->
             readFileSync h f = None) ->
  let calls :=
    repeat (Fallback uri prev)
      (fst (firstUsable (fallbackImporter h) uri prev)) in
  let usable := snd (firstUsable (fallbackImporter h) uri prev) in
  ModuleImporter h uri prev
  = lookups ++ map Read (moduleCandidates h rel dir mname) ++ calls
    ++ match usable with
       | Some r => [Return r]
       | None => handleRelativeImports h uri prev None
       end
  /\ (forall pre post f data,
        relativeCandidates h uri prev None = pre ++ f :: post ->
        (forall g, In g pre -> readFileSync h g = None) ->
        readFileSync h f = Some data ->
        handleRelativeImports h uri prev None
        = map Read pre
          ++ [Read f; Return (importOnce h {| contents := data; file := f |})])
  /\ ((forall f, In f (relativeCandidates h uri prev None) ->
                 readFileSync h f = None) ->
      handleRelativeImports h uri prev None
      = map Read (relativeCandidates h uri prev None) ++ calls
        ++ match usable with
           | Some r => [Return r]
           | None => [Return (Failed (relativeMiss h uri prev None))]
           end).
Proof.
  intros Hp Hl Hdir Htruthy Hmiss calls usable. split; [|split].
  - unfold ModuleImporter. rewrite Hp, Hl. f_equal.
    unfold JS.truthy_opt. rewrite Hdir, Htruthy. cbn [negb andb].
    rewrite (module_attempt_miss _ _ _ _ _ Hmiss), fallback_trace.
    reflexivity.
  - intros pre post f data. apply handleRelativeImports_hit.
  - apply handleRelativeImports_no_candidate.
Qed.

End ResolutionClaims.

Ltac each_candidate H :=
  vm_compute in H;
  repeat (destruct H as [<- | H]; [reflexivity|]);
  destruct H.

(** Scenario A with a fallback importer that has nothing: the module
    candidates are missed, the fallback is asked, then the relative
    attempt finds [/proj/src/widgets/button.scss]. *)
Lemma module_miss_consults_fallback_first_witness :
  Importer.ModuleImporter
    (Samples.importerHost
       [("/proj/src/app.scss", "@import 'widgets/button'");
        ("/proj/src/widgets/button.scss", "b {}")]
       [("widgets", Samples.widgets)] [fun _ _ => None])
    "widgets/button" "/proj/src/app.scss"
  = [Importer.Access "widgets" "/proj/src/app.scss";
     Importer.Read "/proj/node_modules/widgets/sass/button.scss";
     Importer.Read "/proj/node_modules/widgets/sass/_button.scss";
     Importer.Read "/proj/node_modules/widgets/sass/widgets/button.scss";
     Importer.Read "/proj/node_modules/widgets/sass/widgets/_button.scss";
     Importer.Fallback "widgets/button" "/proj/src/app.scss";
     Importer.Read "/proj/src/widgets/button.scss";
     Importer.Return
       (Importer.Imported "b {}" "/proj/src/widgets/button.scss")].
Proof.
  set (host := Samples.importerHost _ _ _).
  assert (Hmiss : forall f,
             In f (Importer.moduleCandidates host "button"
                     "/proj/node_modules/widgets/sass" "widgets") ->
             Importer.readFileSync host f = None).
  { intros f Hin. each_candidate Hin. }
  destruct (module_miss_consults_fallback_first host
              "widgets/button" "/proj/src/app.scss" "widgets" "button"
              "widgets" "button" "/proj/node_modules/widgets/sass"
              [Importer.Access "widgets" "/proj/src/app.scss"]
              Samples.widgets eq_refl eq_refl eq_refl eq_refl Hmiss)
    as (E & _).
  rewrite E. reflexivity.
Defined.

(** C1 as stated fails: the module candidates are missing and the
    relative candidate [/proj/src/widgets/button.scss] is on disk, yet the
    fallback importer is called, its answer completes the request, and the
    relative attempt is never made. *)
Lemma fallback_preempts_relative_attempt :
  let host :=
    Samples.importerHost
      [("/proj/src/app.scss", "@import 'widgets/button'");
       ("/proj/src/widgets/button.scss", "b {}")]
      [("widgets", Samples.widgets)] [Samples.catchAll] in
  Importer.ModuleImporter host "widgets/button" "/proj/src/app.scss"
  = [Importer.Access "widgets" "/proj/src/app.scss";
     Importer.Read "/proj/node_modules/widgets/sass/button.scss";
     Importer.Read "/proj/node_modules/widgets/sass/_button.scss";
     Importer.Read "/proj/node_modules/widgets/sass/widgets/button.scss";
     Importer.Read "/proj/node_modules/widgets/sass/widgets/_button.scss";
     Importer.Fallback "widgets/button" "/proj/src/app.scss";
     Importer.Return
       (Importer.Imported "/* fallback */" "/elsewhere/found.scss")]
  /\ In "/proj/src/widgets/button.scss"
       (Importer.relativeCandidates host "widgets/button"
          "/proj/src/app.scss" None)
  /\ Importer.readFileSync host "/proj/src/widgets/button.scss"
     = Some "b {}"
  /\ Importer.existsSync host "/proj/src/widgets/button.scss" = true.
Proof.
  repeat split. left. reflexivity.
Qed.

Section ErrorClaims.

Import Importer.

Variable h : Host.

Lemma lookupModule_events (prev m rel : string) :
  reads (fst (lookupModule h prev m rel)) = []
  /\ returned (fst (lookupModule h prev m rel)) = [].
Proof.
  unfold lookupModule.
  destruct (access h m (if existsSync h prev then prev else root h));
    [split; reflexivity|].
  destruct (JS.head m) as [a|]; [|split; reflexivity].
  destruct (Ascii.eqb a "@"); split; reflexivity.
Qed.

(** C8, as amended.  When the module is found, declares no [sassDir], and
    the requesting file is not on disk, the fallback importers are called
    with the original identifier; a usable answer of theirs completes the
    request; when they have nothing usable, the request fails with an
    error that names the module and its [package.json], and its
    [mainPath] when there is one. *)
Theorem missing_sassDir_error
    (uri prev m0 rel0 mname rel : string) (lookups : list Event)
    (md : ModuleRecord) :
  MODULE_PARSER uri = Some (m0, rel0) ->
  lookupModule h prev m0 rel0 = (lookups, (mname, rel, Some md)) ->
  JS.truthy_opt (sassDir md) = false ->
  existsSync h prev = false ->
  ModuleImporter h uri prev
  = lookups
    ++ repeat (Fallback uri prev)
         (fst (firstUsable (fallbackImporter h) uri prev))
    ++ match snd (firstUsable (fallbackImporter h) uri prev) with
       | Some r => [Return r]
       | None => [Return (Failed (missingMessage md))]
       end
  /\ JS.includes (name md ++ "'s package.json") (missingMessage md) = true
  /\ (forall mp, mainPath md = Some mp -> JS.truthy mp = true ->
        missingMessage md
        = ("sassDir is not specified in " ++ name md
             ++ "'s package.json or " ++ mp)%string)
  /\ (JS.truthy_opt (mainPath md) = false ->
        missingMessage md
        = ("sassDir is not specified in " ++ name md
             ++ "'s package.json")%string).
Proof.
  intros Hp Hl Hdir Hprev. repeat split.
  - unfold ModuleImporter. rewrite Hp, Hl, Hdir, Hprev. cbn [negb andb].
    rewrite fallback_trace. reflexivity.
  - unfold missingMessage. rewrite str_app_assoc.
    apply (includes_app (name md ++ "'s package.json")
             "sassDir is not specified in ").
  - intros mp Hmp Ht. unfold missingMessage. rewrite Hmp, Ht.
    rewrite !str_app_assoc. reflexivity.
  - intros Hmp. unfold missingMessage. unfold JS.truthy_opt in Hmp.
    destruct (mainPath md) as [mp|].
    + rewrite Hmp. rewrite str_app_nil_r. reflexivity.
    + rewrite str_app_nil_r. reflexivity.
Qed.

(** C5, as amended.  When every file the importer tried to read was
    missing and the fallback importers have nothing usable, the error
    delivered is that of the last, relative attempt.  If the requesting
    file is on disk, its message lists every candidate of that relative
    attempt (those of an earlier module attempt are not repeated); if it is
    not, the message names the identifier and the requesting file only. *)
Theorem not_found_message
    (uri prev m0 rel0 mname rel : string) (lookups : list Event)
    (mod_ : option ModuleRecord) :
  MODULE_PARSER uri = Some (m0, rel0) ->
  lookupModule h prev m0 rel0 = (lookups, (mname, rel, mod_)) ->
  (forall md, mod_ = Some md ->
     JS.truthy_opt (sassDir md) = true \/ existsSync h prev = true) ->
  snd (firstUsable (fallbackImporter h) uri prev) = None ->
  (forall f, In f (reads (ModuleImporter h uri prev)) ->
             readFileSync h f = None) ->
  let ips :=
    match mod_ with
    | Some md => if JS.truthy_opt (sassDir md) then None else includePaths h
    | None => includePaths h
    end in
  returned (ModuleImporter h uri prev)
  = [Failed (relativeMiss h uri prev ips)]
  /\ (forall f, In f (relativeCandidates h uri prev ips) ->
        In f (reads (ModuleImporter h uri prev)))
  /\ (existsSync h prev = true ->
        relativeMiss h uri prev ips
        = notFoundMessage uri (relativeCandidates h uri prev ips)
        /\ forall f, In f (relativeCandidates h uri prev ips) ->
             JS.includes f (relativeMiss h uri prev ips) = true)
  /\ (existsSync h prev = false ->
        relativeMiss h uri prev ips
        = ("Could not import " ++ uri ++ " from " ++ prev)%string).
Proof.
  intros Hp Hl Hcfg Hfb Hmiss ips.
  pose proof (lookupModule_events prev m0 rel0) as [Hlr Hlt].
  rewrite Hl in Hlr, Hlt. cbn [fst] in Hlr, Hlt.
  assert (Hrel : forall ips',
             (forall f, In f (reads (handleRelativeImports h uri prev ips')) ->
                        readFileSync h f = None) ->
             returned (handleRelativeImports h uri prev ips')
             = [Failed (relativeMiss h uri prev ips')]
             /\ reads (handleRelativeImports h uri prev ips')
                = relativeCandidates h uri prev ips').
  { intros ips' H'. rewrite (handleRelativeImports_miss h _ _ _ H'), Hfb.
    rewrite !returned_app, !reads_app, returned_map_Read, reads_map_Read,
      returned_repeat_Fallback, reads_repeat_Fallback.
    split; [reflexivity | apply app_nil_r]. }
  assert (Hmain :
            returned (ModuleImporter h uri prev)
            = [Failed (relativeMiss h uri prev ips)]
            /\ (forall f, In f (relativeCandidates h uri prev ips) ->
                          In f (reads (ModuleImporter h uri prev)))).
  { revert Hmiss. unfold ModuleImporter. rewrite Hp, Hl.
    rewrite returned_app, !reads_app, Hlr, Hlt. cbn [app].
    destruct mod_ as [md|].
    - destruct (Hcfg md eq_refl) as [Hd | He].
      + subst ips. rewrite Hd. cbn [negb andb].
        unfold JS.truthy_opt in Hd.
        destruct (sassDir md) as [dir|]; [|discriminate]. rewrite Hd.
        unfold readAbstractFile, readFirstFile.
        fold (moduleCandidates h rel dir mname). intros Hmiss.
        rewrite (readFirst_all_missed h _ _ _ Hmiss) in Hmiss |- *.
        unfold createHandler in Hmiss |- *.
        rewrite fallback_trace, Hfb in Hmiss |- *.
        rewrite !reads_app, reads_map_Read, reads_repeat_Fallback in Hmiss.
        rewrite !returned_app, returned_map_Read, returned_repeat_Fallback.
        rewrite !reads_app, reads_map_Read, reads_repeat_Fallback.
        cbn [app] in Hmiss |- *.
        destruct (Hrel None) as [Hr1 Hr2].
        { intros f Hf. apply Hmiss, in_or_app. right. exact Hf. }
        rewrite Hr1, Hr2. split; [reflexivity|].
        intros f Hf. apply in_or_app. right. exact Hf.
      + rewrite He, andb_false_r. intros Hmiss.
        subst ips.
        revert Hmiss. unfold JS.truthy_opt.
        destruct (sassDir md) as [dir|].
        * destruct (JS.truthy dir) eqn:Hd.
          -- unfold readAbstractFile, readFirstFile.
             fold (moduleCandidates h rel dir mname). intros Hmiss.
             rewrite (readFirst_all_missed h _ _ _ Hmiss) in Hmiss |- *.
             unfold createHandler in Hmiss |- *.
             rewrite fallback_trace, Hfb in Hmiss |- *.
             rewrite !reads_app, reads_map_Read, reads_repeat_Fallback
               in Hmiss.
             rewrite !returned_app, returned_map_Read,
               returned_repeat_Fallback.
             rewrite !reads_app, reads_map_Read, reads_repeat_Fallback.
             cbn [app] in Hmiss |- *.
             destruct (Hrel None) as [Hr1 Hr2].
             { intros f Hf. apply Hmiss, in_or_app. right. exact Hf. }
             rewrite Hr1, Hr2. split; [reflexivity|].
             intros f Hf. apply in_or_app. right. exact Hf.
          -- intros Hmiss. destruct (Hrel _ Hmiss) as [Hr1 Hr2].
             rewrite Hr1, Hr2. split; [reflexivity | auto].
        * intros Hmiss. destruct (Hrel _ Hmiss) as [Hr1 Hr2].
          rewrite Hr1, Hr2. split; [reflexivity | auto].
    - intros Hmiss. destruct (Hrel _ Hmiss) as [Hr1 Hr2].
      subst ips. rewrite Hr1, Hr2. split; [reflexivity | auto]. }
  destruct Hmain as [H1 H2]. split; [exact H1|]. split; [exact H2|].
  split.
  - intros He. unfold relativeMiss. rewrite He. split; [reflexivity|].
    intros f Hf. unfold notFoundMessage. apply includes_join.
    right. exact Hf.
  - intros He. unfold relativeMiss. rewrite He. reflexivity.
Qed.

End ErrorClaims.

(** A module without [sassDir], no fallback importer, a requesting file
    that is not on disk: the configuration error is delivered. *)
Lemma missing_sassDir_error_witness :
  Importer.ModuleImporter (Samples.importerHost [] [("bare", Samples.bare)] [])
    "bare/x" "stdin"
  = [Importer.Access "bare" "/proj";
     Importer.Return
       (Importer.Failed
          ("sassDir is not specified in bare's package.json or "
             ++ "/proj/node_modules/bare/eyeglass-exports.js"))].
Proof.
  exact (proj1 (missing_sassDir_error
                  (Samples.importerHost [] [("bare", Samples.bare)] [])
                  "bare/x" "stdin" "bare" "x" "bare" "x"
                  [Importer.Access "bare" "/proj"] Samples.bare
                  eq_refl eq_refl eq_refl eq_refl)).
Defined.

(** C8 as stated fails: the module is found without [sassDir], the
    requesting file is not on disk, and the request succeeds with what the
    fallback importer resolved; no configuration error is delivered. *)
Lemma missing_sassDir_hidden_by_fallback :
  let host :=
    Samples.importerHost [] [("bare", Samples.bare)] [Samples.catchAll] in
  Importer.MODULE_PARSER "bare/x" = Some ("bare", "x")
  /\ Importer.access host "bare" "/proj" = Some Samples.bare
  /\ Importer.sassDir Samples.bare = None
  /\ Importer.existsSync host "stdin" = false
  /\ Importer.ModuleImporter host "bare/x" "stdin"
     = [Importer.Access "bare" "/proj";
        Importer.Fallback "bare/x" "stdin";
        Importer.Return
          (Importer.Imported "/* fallback */" "/elsewhere/found.scss")].
Proof. repeat split. Qed.

(** Nothing is found for [widgets/button] imported from a file on disk:
    the message lists the two candidates of the relative attempt. *)
Lemma not_found_message_witness :
  let host :=
    Samples.importerHost [("/proj/src/app.scss", "@import 'widgets/button'")]
      [("widgets", Samples.widgets)] [] in
  Importer.returned
    (Importer.ModuleImporter host "widgets/button" "/proj/src/app.scss")
  = [Importer.Failed
       (Importer.notFoundMessage "widgets/button"
          ["/proj/src/widgets/button.scss";
           "/proj/src/_widgets/button.scss"])].
Proof.
  intros host.
  assert (Hmiss : forall f,
             In f (Importer.reads
                     (Importer.ModuleImporter host "widgets/button"
                        "/proj/src/app.scss")) ->
             Importer.readFileSync host f = None).
  { intros f Hin. each_candidate Hin. }
  assert (Hcfg : forall md, Some Samples.widgets = Some md ->
             JS.truthy_opt (Importer.sassDir md) = true
             \/ Importer.existsSync host "/proj/src/app.scss" = true).
  { intros md _. right. reflexivity. }
  exact (proj1 (not_found_message host
                  "widgets/button" "/proj/src/app.scss" "widgets" "button"
                  "widgets" "button"
                  [Importer.Access "widgets" "/proj/src/app.scss"]
                  (Some Samples.widgets) eq_refl eq_refl Hcfg eq_refl Hmiss)).
Defined.

(** C5 as stated fails, in two ways.  With the requesting file on disk,
    the module candidate [/proj/node_modules/widgets/sass/_button.scss] is
    probed and the message of the error does not list it.  With a
    requesting file that is not on disk, the candidate [/proj/a.scss] is
    probed and the message lists no path at all. *)
Lemma not_found_message_omits_probed_paths :
  (let host :=
     Samples.importerHost [("/proj/src/app.scss", "@import 'widgets/button'")]
       [("widgets", Samples.widgets)] [] in
   let trace :=
     Importer.ModuleImporter host "widgets/button" "/proj/src/app.scss" in
   In "/proj/node_modules/widgets/sass/_button.scss" (Importer.reads trace)
   /\ Importer.returned trace
      = [Importer.Failed
           (Importer.notFoundMessage "widgets/button"
              ["/proj/src/widgets/button.scss";
               "/proj/src/_widgets/button.scss"])]
   /\ JS.includes "/proj/node_modules/widgets/sass/_button.scss"
        (Importer.notFoundMessage "widgets/button"
           ["/proj/src/widgets/button.scss";
            "/proj/src/_widgets/button.scss"]) = false)
  /\ (let host := Samples.importerHost [] [] [] in
      let trace := Importer.ModuleImporter host "a" "stdin" in
      In "/proj/a.scss" (Importer.reads trace)
      /\ Importer.returned trace
         = [Importer.Failed "Could not import a from stdin"]
      /\ JS.includes "/proj/a.scss" "Could not import a from stdin" = false).
Proof.
  split; cbv zeta; repeat split.
  - right. left. reflexivity.
  - left. reflexivity.
Qed.

(** ** Paths in normal form *)

Section NormalForm.

Lemma join_split (s : string) : JS.join "/" (JS.split "/" s) = s.
Proof.
  induction s as [|a s IH]; [reflexivity|].
  cbn [JS.split]. destruct (Ascii.eqb a "/") eqn:Ea.
  - apply Ascii.eqb_eq in Ea. subst a.
    destruct (JS.split "/" s) as [|y l] eqn:E;
      [exfalso; exact (split_nonempty _ _ E)|].
    change (JS.join "/" ("" :: y :: l))
      with ("" ++ "/" ++ JS.join "/" (y :: l))%string.
    rewrite IH. reflexivity.
  - destruct (JS.split "/" s) as [|y l] eqn:E;
      [exfalso; exact (split_nonempty _ _ E)|].
    destruct l as [|z l].
    + simpl in IH |- *. rewrite IH. reflexivity.
    + change (JS.join "/" (String a y :: z :: l))
        with (String a (y ++ "/" ++ JS.join "/" (z :: l)))%string.
      change (JS.join "/" (y :: z :: l))
        with (y ++ "/" ++ JS.join "/" (z :: l))%string in IH.
      rewrite IH. reflexivity.
Qed.

Lemma norm_step_entry (stack : list string) (name : string) :
  NodePath.isEntryName name = true ->
  NodePath.norm_step false stack name = name :: stack.
Proof.
  unfold NodePath.isEntryName, NodePath.norm_step. intros H.
  repeat (apply andb_true_iff in H; destruct H as [H ?]).
  apply negb_true_iff in H, H1, H2. rewrite H, H2, H1. reflexivity.
Qed.

Lemma fold_norm_step_entries (l stack : list string) :
  forallb NodePath.isEntryName l = true ->
  fold_left (NodePath.norm_step false) l stack = rev l ++ stack.
Proof.
  revert stack. induction l as [|x l IH]; intros stack H; [reflexivity|].
  simpl in H. apply andb_true_iff in H. destruct H as [Hx Hl].
  cbn [fold_left rev]. rewrite (norm_step_entry _ _ Hx), (IH _ Hl).
  rewrite <- app_assoc. reflexivity.
Qed.

(** The segments of a path in normal form. *)
Lemma normalize_resolved (a : ascii) (rest : string) :
  NodePath.isResolved (String a rest) = true ->
  NodePath.of_segs
    (NodePath.normalizeSegs false (JS.split "/" (String a rest) ++ []))
  = String a rest.
Proof.
  unfold NodePath.isResolved. intros H. apply andb_true_iff in H.
  destruct H as [Ha Hrest]. apply Ascii.eqb_eq in Ha. subst a.
  rewrite app_nil_r. cbn [JS.split]. unfold NodePath.slash.
  rewrite Ascii.eqb_refl. unfold NodePath.normalizeSegs. cbn [fold_left].
  change (NodePath.norm_step false [] "") with (@nil string).
  apply orb_true_iff in Hrest. destruct Hrest as [Hr | Hr].
  - apply String.eqb_eq in Hr. subst rest. reflexivity.
  - rewrite (fold_norm_step_entries _ _ Hr), app_nil_r, rev_involutive.
    unfold NodePath.of_segs. rewrite join_split. reflexivity.
Qed.

(** [path.resolve] leaves a path in normal form as it is, whatever the
    working directory. *)
Lemma resolve_resolved (cwd p : string) :
  NodePath.isResolved p = true -> NodePath.resolve cwd [p] = p.
Proof.
  intros H. destruct p as [|a rest]; [discriminate|].
  pose proof (normalize_resolved a rest H) as E.
  unfold NodePath.isResolved in H. apply andb_true_iff in H.
  destruct H as [Ha _].
  unfold NodePath.resolve, NodePath.resolve_segs. cbn [rev app].
  unfold NodePath.resolve_raw.
  change (String.eqb (String a rest) "") with false.
  change (NodePath.isAbsolute (String a rest))
    with (Ascii.eqb a NodePath.slash).
  rewrite Ha. exact E.
Qed.

(** [path.resolve('.')] is the working directory. *)
Lemma resolve_cwd (cwd : string) :
  NodePath.isResolved cwd = true -> NodePath.resolve cwd ["."] = cwd.
Proof.
  intros H. destruct cwd as [|a rest]; [discriminate|].
  rewrite <- (normalize_resolved a rest H) at 2.
  unfold NodePath.resolve, NodePath.resolve_segs. f_equal.
  cbn [rev app NodePath.resolve_raw String.eqb Ascii.eqb Bool.eqb
       NodePath.isAbsolute NodePath.slash JS.split].
  unfold NodePath.normalizeSegs. rewrite !app_nil_r, fold_left_app.
  reflexivity.
Qed.

Lemma list_ascii_app (a b : string) :
  list_ascii_of_string (a ++ b)
  = list_ascii_of_string a ++ list_ascii_of_string b.
Proof. induction a as [|x a IH]; simpl; [reflexivity | rewrite IH; reflexivity]. Qed.

Lemma drop_last_segment_name (name : list ascii) (tl : list ascii) :
  forallb (fun a => negb (Ascii.eqb a NodePath.slash)) name = true ->
  NodePath.drop_last_segment (name ++ NodePath.slash :: tl)
  = NodePath.slash :: tl.
Proof.
  induction name as [|x name IH]; intros H.
  - reflexivity.
  - simpl in H. apply andb_true_iff in H. destruct H as [Hx Hn].
    apply negb_true_iff in Hx. simpl. rewrite Hx. apply IH. exact Hn.
Qed.

(** [path.dirname] of a file named [name] in the directory [/dt]. *)
Lemma dirname_entry (dt name : string) :
  dt <> "" -> NodePath.isEntryName name = true ->
  NodePath.dirname (String "/" dt ++ "/" ++ name) = String "/" dt.
Proof.
  intros Hdt Hname. unfold NodePath.isEntryName in Hname.
  apply andb_true_iff in Hname. destruct Hname as [Hname Hchars].
  apply andb_true_iff in Hname. destruct Hname as [Hname _].
  apply andb_true_iff in Hname. destruct Hname as [Hne _].
  apply negb_true_iff in Hne.
  cbn [append NodePath.dirname].
  change (dt ++ String "/" name)%string with (dt ++ "/" ++ name)%string.
  rewrite list_ascii_app. cbn [append list_ascii_of_string].
  rewrite rev_app_distr. cbn [rev]. rewrite <- app_assoc. cbn [app].
  assert (Hrev : forallb (fun a => negb (Ascii.eqb a NodePath.slash))
                   (rev (list_ascii_of_string name)) = true).
  { apply forallb_forall. intros x Hx. apply in_rev in Hx.
    exact (proj1 (forallb_forall _ _) Hchars x Hx). }
  assert (Hdrop : NodePath.drop_trailing_slashes
                    (rev (list_ascii_of_string name)
                     ++ "/"%char :: rev (list_ascii_of_string dt))
                  = rev (list_ascii_of_string name)
                    ++ "/"%char :: rev (list_ascii_of_string dt)).
  { destruct (rev (list_ascii_of_string name)) as [|x l] eqn:E.
    - exfalso. destruct name as [|c name]; [discriminate Hne|].
      simpl in E. destruct (rev (list_ascii_of_string name)); discriminate.
    - simpl in Hrev. apply andb_true_iff in Hrev.
      destruct Hrev as [Hx _]. apply negb_true_iff in Hx.
      simpl. rewrite Hx. reflexivity. }
  rewrite Hdrop.
  change ("/"%char :: rev (list_ascii_of_string dt))
    with (NodePath.slash :: rev (list_ascii_of_string dt)).
  rewrite (drop_last_segment_name _ _ Hrev).
  destruct (rev (list_ascii_of_string dt)) as [|y l] eqn:E.
  - exfalso. apply Hdt. destruct dt as [|c dt]; [reflexivity|].
    simpl in E. destruct (rev (list_ascii_of_string dt)); discriminate.
  - rewrite <- E, rev_involutive, string_of_list_ascii_of_string.
    reflexivity.
Qed.

(** The directory of a file in a directory in normal form. *)
Lemma resolve_dirname_entry (cwd d name : string) :
  NodePath.isResolved d = true -> d <> "/" ->
  NodePath.isEntryName name = true ->
  NodePath.resolve cwd [NodePath.dirname (d ++ "/" ++ name)] = d.
Proof.
  intros Hd Hroot Hname. destruct d as [|a dt]; [discriminate|].
  assert (Ha : a = "/"%char).
  { unfold NodePath.isResolved in Hd. apply andb_true_iff in Hd.
    apply Ascii.eqb_eq. exact (proj1 Hd). }
  subst a.
  assert (Hdt : dt <> "") by (intros ->; apply Hroot; reflexivity).
  rewrite (dirname_entry dt name Hdt Hname).
  apply resolve_resolved. exact Hd.
Qed.

End NormalForm.

(** ** The filesystem importer *)

Section Registration.

Import Importer.

Variable h : Host.

Lemma fsURI_shape (uri token : string) :
  fsURI uri = Some token -> uri = ("fs(" ++ token ++ ")")%string.
Proof.
  unfold fsURI.
  destruct uri as [|f [|s [|p [|c0 rest]]]]; try discriminate.
  destruct (Ascii.eqb f "f") eqn:Ef; [|discriminate].
  destruct (Ascii.eqb s "s") eqn:Es; [|discriminate].
  destruct (Ascii.eqb p "(") eqn:Ep; [|discriminate].
  destruct (isIdentStart c0); [|discriminate]. cbn [andb].
  destruct (JS.span isIdentChar rest) as [body tl] eqn:E.
  destruct body as [|b body]; [discriminate|].
  destruct (String.eqb tl ")") eqn:Et; [|discriminate].
  intros H. injection H as <-.
  apply Ascii.eqb_eq in Ef, Es, Ep. apply String.eqb_eq in Et.
  subst f s p tl.
  destruct (span_spec _ _ _ _ E) as (-> & _ & _).
  cbn [append]. reflexivity.
Qed.

Lemma fsURI_token (uri token : string) :
  fsURI uri = Some token -> isToken token = true.
Proof.
  unfold fsURI.
  destruct uri as [|f [|s [|p [|c0 rest]]]]; try discriminate.
  destruct (Ascii.eqb f "f" && Ascii.eqb s "s" && Ascii.eqb p "("
            && isIdentStart c0) eqn:E; [|discriminate].
  apply andb_true_iff in E. destruct E as [_ Hc0].
  destruct (JS.span isIdentChar rest) as [body tl] eqn:Es.
  destruct body as [|b body]; [discriminate|].
  destruct (String.eqb tl ")"); [|discriminate].
  intros H. injection H as <-.
  destruct (span_spec _ _ _ _ Es) as (_ & Hall & _).
  unfold isToken. rewrite Hc0, Hall. reflexivity.
Qed.

Lemma fsURI_of_token (token : string) :
  isToken token = true -> fsURI ("fs(" ++ token ++ ")") = Some token.
Proof.
  intros Ht. unfold isToken in Ht.
  destruct token as [|c0 [|c1 rest]]; try discriminate.
  apply andb_true_iff in Ht. destruct Ht as [Hc0 Hall].
  unfold fsURI. cbn [append]. rewrite !Ascii.eqb_refl, Hc0. cbn [andb].
  change (String c1 (rest ++ ")"))%string
    with (String c1 rest ++ ")")%string.
  rewrite (span_app_stop isIdentChar (String c1 rest) ")" Hall).
  - reflexivity.
  - right. exists ")"%char, ""%string. split; reflexivity.
Qed.

Lemma resolve_truthy (cwd : string) (paths : list string) :
  JS.truthy (NodePath.resolve cwd paths) = true.
Proof. reflexivity. Qed.

(** C9, as amended.  An identifier matches when it is [fs(token)] with a
    token of at least two characters (a letter, [-] or [_], then letters,
    digits, [-] or [_]), and every such identifier matches.  For a match
    no file is read.  With the token [root] the base directory is the
    project root; when that is the empty string the request fails with
    [Cannot resolve filesystem location of <requesting file>].  With
    another token the base directory is the resolved directory of the
    requesting file when that file is on disk (the directory [d] for a
    file [d/name]), else the working directory.  The import then completes
    with a synthesized stylesheet that registers the token for the base
    directory.  Every other identifier, [fs(a)] with its token of one
    character among them, is handed to the fallback importers, and the
    importer answers [sass.NULL] when they have nothing. *)
Theorem FSImporter_registers (uri prev : string) :
  (forall token, fsURI uri = Some token ->
     uri = ("fs(" ++ token ++ ")")%string
     /\ isToken token = true
     /\ reads (FSImporter h uri prev) = []
     /\ (token = "root" ->
         FSImporter h uri prev
         = if JS.truthy (root h)
           then [Return (importOnce h (registration "root" (root h)))]
           else [Return (Failed ("Cannot resolve filesystem location of "
                                   ++ prev)%string)])
     /\ (token <> "root" -> existsSync h prev = true ->
         FSImporter h uri prev
         = [Return (importOnce h
                      (registration token
                         (NodePath.resolve (cwd h) [NodePath.dirname prev])))]
         /\ forall d name,
              prev = (d ++ "/" ++ name)%string ->
              NodePath.isResolved d = true -> d <> "/" ->
              NodePath.isEntryName name = true ->
              FSImporter h uri prev
              = [Return (importOnce h (registration token d))])
     /\ (token <> "root" -> existsSync h prev = false ->
         NodePath.isResolved (cwd h) = true ->
         FSImporter h uri prev
         = [Return (importOnce h (registration token (cwd h)))])
     /\ forall base,
          contents (registration token base)
          = ("@import " ++ JS.dquote ++ "eyeglass/fs" ++ JS.dquote
               ++ "; @include fs-register-path(" ++ token ++ ", "
               ++ JS.dquote ++ base ++ JS.dquote ++ ");")%string
          /\ file (registration token base)
             = ("fs:" ++ token ++ ":" ++ base)%string)
  /\ (forall token, isToken token = true ->
        fsURI ("fs(" ++ token ++ ")") = Some token)
  /\ (fsURI uri = None ->
      FSImporter h uri prev
      = repeat (Fallback uri prev)
          (fst (firstUsable (fallbackImporter h) uri prev))
        ++ match snd (firstUsable (fallbackImporter h) uri prev) with
           | Some r => [Return r]
           | None => [Return Null]
           end).
Proof.
  split; [|split].
  - intros token Hm.
    split; [apply fsURI_shape; exact Hm|].
    split; [apply (fsURI_token uri); exact Hm|].
    assert (Hother : token <> "root" ->
              FSImporter h uri prev
              = [Return (importOnce h
                           (registration token
                              (if existsSync h prev
                               then NodePath.resolve (cwd h)
                                      [NodePath.dirname prev]
                               else NodePath.resolve (cwd h) ["."])))]).
    { intros Hne. unfold FSImporter. rewrite Hm.
      destruct (String.eqb token "root") eqn:Et;
        [apply String.eqb_eq in Et; contradiction|].
      destruct (existsSync h prev); cbn [negb];
        rewrite resolve_truthy; reflexivity. }
    assert (Hroot : token = "root" ->
              FSImporter h uri prev
              = if JS.truthy (root h)
                then [Return (importOnce h (registration "root" (root h)))]
                else [Return (Failed ("Cannot resolve filesystem location of "
                                        ++ prev)%string)]).
    { intros ->. unfold FSImporter. rewrite Hm.
      change (String.eqb "root" "root") with true. cbv iota.
      destruct (JS.truthy (root h)); reflexivity. }
    split.
    { destruct (string_dec token "root") as [E | E].
      - rewrite (Hroot E). destruct (JS.truthy (root h)); reflexivity.
      - rewrite (Hother E). reflexivity. }
    split; [exact Hroot|]. split; [|split].
    + intros Hne He. rewrite (Hother Hne), He. split; [reflexivity|].
      intros d name -> Hd Hr Hn.
      rewrite (resolve_dirname_entry (cwd h) d name Hd Hr Hn). reflexivity.
    + intros Hne He Hcwd. rewrite (Hother Hne), He, (resolve_cwd _ Hcwd).
      reflexivity.
    + intros base. split; reflexivity.
  - exact fsURI_of_token.
  - intros Hm. unfold FSImporter. rewrite Hm, fallback_trace. reflexivity.
Qed.

End Registration.

(** [fs(assets)] imported from a file that is not on disk registers the
    working directory, which is not the project root here; imported from
    [/proj/src/app.scss] it registers [/proj/src]; [fs(root)] registers
    the project root. *)
Lemma FSImporter_registers_witness :
  Importer.FSImporter (Samples.importerHostAt "/work/site" "/proj" [] [])
    "fs(assets)" "stdin"
  = [Importer.Return
       (Importer.Imported
          ("@import " ++ JS.dquote ++ "eyeglass/fs" ++ JS.dquote
             ++ "; @include fs-register-path(assets, "
             ++ JS.dquote ++ "/work/site" ++ JS.dquote ++ ");")
          "fs:assets:/work/site")]
  /\ Importer.FSImporter
       (Samples.importerHostAt "/work/site" "/proj"
          [("/proj/src/app.scss", "")] [])
       "fs(assets)" "/proj/src/app.scss"
     = [Importer.Return
          (Importer.Imported
             ("@import " ++ JS.dquote ++ "eyeglass/fs" ++ JS.dquote
                ++ "; @include fs-register-path(assets, "
                ++ JS.dquote ++ "/proj/src" ++ JS.dquote ++ ");")
             "fs:assets:/proj/src")]
  /\ Importer.FSImporter (Samples.importerHostAt "/work/site" "/proj" [] [])
       "fs(root)" "stdin"
     = [Importer.Return
          (Importer.Imported
             ("@import " ++ JS.dquote ++ "eyeglass/fs" ++ JS.dquote
                ++ "; @include fs-register-path(root, "
                ++ JS.dquote ++ "/proj" ++ JS.dquote ++ ");")
             "fs:root:/proj")].
Proof.
  split; [|split].
  - destruct (FSImporter_registers
                (Samples.importerHostAt "/work/site" "/proj" [] [])
                "fs(assets)" "stdin") as [H _].
    destruct (H "assets" eq_refl) as (_ & _ & _ & _ & _ & Hcwd & _).
    apply Hcwd; [discriminate | reflexivity | reflexivity].
  - destruct (FSImporter_registers
                (Samples.importerHostAt "/work/site" "/proj"
                   [("/proj/src/app.scss", "")] [])
                "fs(assets)" "/proj/src/app.scss") as [H _].
    destruct (H "assets" eq_refl) as (_ & _ & _ & _ & Hfile & _).
    destruct Hfile as [_ Hd]; [discriminate | reflexivity|].
    exact (Hd "/proj/src" "app.scss" eq_refl eq_refl
             ltac:(discriminate) eq_refl).
  - destruct (FSImporter_registers
                (Samples.importerHostAt "/work/site" "/proj" [] [])
                "fs(root)" "stdin") as [H _].
    destruct (H "root" eq_refl) as (_ & _ & _ & Hroot & _).
    exact (Hroot eq_refl).
Defined.

(** C9 as stated fails, in two ways.  [fs(a)] has the shape [fs(token)],
    and nothing is registered for it: the pattern wants a token of two
    characters, so the identifier goes to the fallback importers and,
    there being none, the importer answers [sass.NULL].  And with an
    empty project root, [fs(root)] registers nothing either: the request
    fails. *)
Lemma FSImporter_declines_short_token :
  Importer.fsURI "fs(a)" = None
  /\ Importer.FSImporter (Samples.importerHostAt "/work/site" "/proj" [] [])
       "fs(a)" "stdin"
     = [Importer.Return Importer.Null]
  /\ Importer.fsURI "fs(root)" = Some "root"
  /\ Importer.FSImporter (Samples.importerHostAt "/work/site" "" [] [])
       "fs(root)" "stdin"
     = [Importer.Return
          (Importer.Failed "Cannot resolve filesystem location of stdin")].
Proof. repeat split. Qed.

(** ** The URI constructor *)

Section UriFacts.

Variable h : URI.Host.

Lemma rUriFragments_null (uri : string) :
  URI.rUriFragments uri = None <->
  match uri with
  | EmptyString => True
  | String a _ => a = "?"%char \/ a = "#"%char
  end.
Proof.
  unfold URI.rUriFragments. destruct uri as [|a t].
  - simpl. split; [trivial | reflexivity].
  - cbn [JS.span]. unfold URI.notQueryOrHash at 1.
    destruct (Ascii.eqb a "?") eqn:Eq.
    + cbn [orb negb]. apply Ascii.eqb_eq in Eq.
      split; [intros _; left; exact Eq | reflexivity].
    + destruct (Ascii.eqb a "#") eqn:Eh.
      * cbn [orb negb]. apply Ascii.eqb_eq in Eh.
        split; [intros _; right; exact Eh | reflexivity].
      * cbn [orb negb].
        destruct (JS.span URI.notQueryOrHash t) as [x y].
        apply Ascii.eqb_neq in Eq, Eh. split.
        -- destruct y as [|b r]; [discriminate|].
           destruct (Ascii.eqb b "?");
             [destruct (JS.span URI.notHash r)|]; discriminate.
        -- intros [E | E]; contradiction.
Qed.

(** C6 fails on the code.  [new URI(uri)] throws when [uri] is empty or
    starts with [?] or [#], and succeeds on every other string; so do
    [URI.web], [URI.system] and, when no fragment is truthy, [URI.join]. *)
Theorem URI_constructor_partial (sep' : option string) :
  URI.new h "" sep' = None
  /\ URI.new h "?v=1" sep' = None
  /\ URI.new h "#top" sep' = None
  /\ URI.web h "" = None
  /\ URI.join h [""; ""] = None
  /\ forall uri,
       URI.new h uri sep' = None <->
       match uri with
       | EmptyString => True
       | String a _ => a = "?"%char \/ a = "#"%char
       end.
Proof.
  repeat split; try reflexivity.
  - intros H. apply rUriFragments_null. unfold URI.new in H.
    destruct (URI.rUriFragments uri) as [[[p q] f]|];
      [discriminate | reflexivity].
  - intros H. apply rUriFragments_null in H. unfold URI.new. rewrite H.
    reflexivity.
Qed.

End UriFacts.

(** ** Argument checks of the filesystem functions *)

Section ArgumentChecks.

Import Fs Sass.

Variable h : Fs.Host.

(** The six functions that check: in [eyeglass-fs-exists], [-list-files],
    [-list-directories], [-parse-filename], [-info] and [-read-file], each
    parameter is checked to be a Sass string before anything else is done
    with it, in the order of the parameters, and an argument that is not a
    string makes the function answer with the error value
    [Expected string, got <type>: <value>]. *)
Lemma string_arguments_validated (v : SassValue) :
  isSassString v = false ->
  let mismatch :=
    Done (RetError ("Expected string, got " ++ typeName v ++ ": "
                      ++ toString (js_coerce h) v)%string) in
  fs_exists h v = mismatch
  /\ fs_parse_filename h v = mismatch
  /\ fs_info h v = mismatch
  /\ fs_read_file h v = mismatch
  /\ (forall g, fs_list_files h v g = mismatch)
  /\ (forall d, fs_list_files h (SString d) v = mismatch)
  /\ (forall g, fs_list_directories h v g = mismatch)
  /\ (forall d, fs_list_directories h (SString d) v = mismatch).
Proof.
  intros Hv mismatch.
  destruct v; try discriminate Hv; repeat split.
Qed.

(** C7 fails on the code.  Given a segment that is not a string,
    [eyeglass-fs-join] does not answer with the type error that
    [eyeglass-fs-exists] gives for the same value: it has no check, and
    whatever [castToJs] and [path.join] do, it answers with a string or
    throws, never with an error value. *)
Theorem fs_join_unchecked (v : SassValue) (segments : list SassValue) :
  isSassString v = false -> In v segments ->
  fs_exists h v = Done (typeError (js_coerce h) "string" v)
  /\ fs_join h segments <> Done (typeError (js_coerce h) "string" v)
  /\ match fs_join h segments with
     | Done (RetValue (SString _)) | Throws _ => True
     | Done _ => False
     end.
Proof.
  intros Hv _. split; [|split].
  - destruct v; try discriminate Hv; reflexivity.
  - unfold fs_join, typeError.
    destruct (joinSegments h segments); discriminate.
  - unfold fs_join. destruct (joinSegments h segments); exact I.
Qed.

End ArgumentChecks.

Lemma string_arguments_validated_witness :
  Fs.fs_exists (Samples.fsHost None) (Sass.SNumber "12" "px")
  = Sass.Done (Sass.RetError "Expected string, got number: 12px")
  /\ Fs.fs_list_files (Samples.fsHost None) (Sass.SString "/r")
       (Sass.SList [Sass.SBoolean true; Sass.SNull] false)
     = Sass.Done (Sass.RetError "Expected string, got list: (true )").
Proof.
  split.
  - exact (proj1 (string_arguments_validated (Samples.fsHost None)
                    (Sass.SNumber "12" "px") eq_refl)).
  - destruct (string_arguments_validated (Samples.fsHost None)
                (Sass.SList [Sass.SBoolean true; Sass.SNull] false) eq_refl)
      as (_ & _ & _ & _ & _ & H & _).
    exact (H "/r").
Defined.

(** [eyeglass-fs-join("a", 1)] against [eyeglass-fs-exists(1)]. *)
Lemma fs_join_unchecked_witness :
  Fs.fs_exists (Samples.fsHost None) (Sass.SNumber "1" "")
  = Sass.Done (Sass.RetError "Expected string, got number: 1")
  /\ Fs.fs_join (Samples.fsHost None)
       [Sass.SString "a"; Sass.SNumber "1" ""]
     <> Sass.Done (Sass.RetError "Expected string, got number: 1").
Proof.
  destruct (fs_join_unchecked (Samples.fsHost None) (Sass.SNumber "1" "")
              [Sass.SString "a"; Sass.SNumber "1" ""] eq_refl
              (or_intror (or_introl eq_refl))) as (H1 & H2 & _).
  split; [exact H1 | exact H2].
Defined.

(** ** Notes on the shapes involved *)

Section Shapes.

Import Importer.

(** [path.resolve('.')] is the resolved working directory. *)
Lemma resolve_dot (cwd : string) :
  NodePath.resolve cwd ["."] = NodePath.resolve cwd [].
Proof.
  unfold NodePath.resolve, NodePath.resolve_segs. f_equal.
  cbn [rev app NodePath.resolve_raw String.eqb Ascii.eqb Bool.eqb
       NodePath.isAbsolute NodePath.slash JS.split].
  unfold NodePath.normalizeSegs. rewrite !app_nil_r, fold_left_app.
  reflexivity.
Qed.

End Shapes.

(** ** The definitions at work *)

Section Runs.

Import Importer.

(** Scenario A: [widgets/button], imported from [/proj/src/app.scss],
    resolves to the partial in the stylesheet directory of [widgets]. *)
Example scenario_A :
  ModuleImporter
    (Samples.importerHost
       [("/proj/src/app.scss", "@import 'widgets/button'");
        ("/proj/node_modules/widgets/sass/_button.scss", "b {}")]
       [("widgets", Samples.widgets)] [])
    "widgets/button" "/proj/src/app.scss"
  = [Access "widgets" "/proj/src/app.scss";
     Read "/proj/node_modules/widgets/sass/button.scss";
     Read "/proj/node_modules/widgets/sass/_button.scss";
     Return (Imported "b {}" "/proj/node_modules/widgets/sass/_button.scss")].
Proof. reflexivity. Qed.

(** An identifier that starts with [/] is refused by the parser. *)
Example absolute_identifier :
  ModuleImporter (Samples.importerHost [] [] []) "/abs/file" "stdin"
  = [Throw "invalid uri: /abs/file"].
Proof. reflexivity. Qed.

(** A token of one character does not match the [fs(...)] pattern. *)
Example short_token :
  fsURI "fs(a)" = None /\ fsURI "fs(ab)" = Some "ab".
Proof. split; reflexivity. Qed.

(** Mixed separators, a dot-dot segment, a query and a fragment. *)
Example uri_parts :
  URI.new Samples.uriHost "a\b//c/../d?&x=1#top" None
  = Some {| URI.sep := "/"; URI.path := "a/b/d";
            URI.search := "?x=1"; URI.hash := "#top" |}.
Proof. reflexivity. Qed.

(** The paths of Node's documentation for [path.relative] and
    [path.dirname]. *)
Example node_relative :
  NodePath.relative "/" "/data/orandea/test/aaa" "/data/orandea/impl/bbb"
  = "../../impl/bbb".
Proof. reflexivity. Qed.

Example node_dirname : NodePath.dirname "/foo/bar/baz/asdf/quux" = "/foo/bar/baz/asdf".
Proof. reflexivity. Qed.

End Runs.

(* ================================================================= *)
(** * Further properties of the code *)

(** ** The module importer: completion, refusal, lookups, success *)

Section ImporterMore.

Import Importer.

Variable h : Host.

Lemma settles_done (r : ImporterReturn) : settles (done r).
Proof. exists [], r. split; reflexivity. Qed.

Lemma settles_app (a t : Trace) :
  forallb isProbe a = true -> settles t -> settles (a ++ t).
Proof.
  intros Ha (pre & r & -> & Hpre). exists (a ++ pre), r. split.
  - rewrite app_assoc. reflexivity.
  - rewrite forallb_app, Ha, Hpre. reflexivity.
Qed.

Lemma settles_cons (e : Event) (t : Trace) :
  isProbe e = true -> settles t -> settles (e :: t).
Proof.
  intros He Ht. apply (settles_app [e] t); [|exact Ht].
  simpl. rewrite He. reflexivity.
Qed.

Lemma settles_fallback (uri prev : string) (dn : ImporterReturn -> Trace)
    (noFallback : unit -> Trace) :
  (forall r, settles (dn r)) -> settles (noFallback tt) ->
  settles (fallback h uri prev dn noFallback).
Proof.
  intros Hd Hn. unfold fallback.
  induction (fallbackImporter h) as [|imp chain IH]; simpl; [exact Hn|].
  apply settles_cons; [reflexivity|].
  destruct (imp uri prev); [apply Hd | exact IH].
Qed.

Lemma settles_readFirst (files : list string) (cb : ImportResultCallback)
    (onMiss : Trace) :
  (forall e d, settles (cb e d)) -> settles onMiss ->
  settles (readFirst h files cb onMiss).
Proof.
  intros Hcb Hm. induction files as [|f files IH]; simpl; [exact Hm|].
  apply settles_cons; [reflexivity|].
  destruct (readFileSync h f); [apply Hcb | exact IH].
Qed.

Lemma settles_readAbstractFile (originalUri uri location : string)
    (ips : option (list string)) (moduleName : option string)
    (cb : ImportResultCallback) :
  (forall e d, settles (cb e d)) ->
  settles (readAbstractFile h originalUri uri location ips moduleName cb).
Proof.
  intros Hcb. unfold readAbstractFile, readFirstFile.
  apply settles_readFirst; [exact Hcb | apply Hcb].
Qed.

Lemma settles_createHandler (uri prev : string)
    (errorHandler : option (string -> Trace)) :
  (forall eh, errorHandler = Some eh -> forall e, settles (eh e)) ->
  forall e d, settles (createHandler h uri prev errorHandler e d).
Proof.
  intros Heh e d. unfold createHandler.
  assert (Hf : forall msg,
             settles
               (fallback h uri prev done
                  (fun _ =>
                     match errorHandler with
                     | Some eh => eh
                     | None => defaultErrorHandler
                     end msg))).
  { intros msg. apply settles_fallback; [apply settles_done|].
    destruct errorHandler as [eh|];
      [apply (Heh eh eq_refl) | apply settles_done]. }
  destruct e as [e|]; [apply Hf|].
  destruct d as [d|]; [apply settles_done | apply Hf].
Qed.

Lemma settles_handleRelativeImports (uri prev : string)
    (ips : option (list string)) :
  settles (handleRelativeImports h uri prev ips).
Proof.
  unfold handleRelativeImports.
  destruct (existsSync h prev); apply settles_readAbstractFile;
    apply settles_createHandler.
  - discriminate.
  - intros eh E. injection E as <-. intros _. apply settles_done.
Qed.

Lemma forallb_isProbe_lookups (prev m rel : string) :
  forallb isProbe (fst (lookupModule h prev m rel)) = true.
Proof.
  unfold lookupModule.
  destruct (access h m (if existsSync h prev then prev else root h));
    [reflexivity|].
  destruct (JS.head m) as [a|]; [|reflexivity].
  destruct (Ascii.eqb a "@"); reflexivity.
Qed.

Lemma settles_ModuleImporter (uri prev m rel : string) :
  MODULE_PARSER uri = Some (m, rel) -> settles (ModuleImporter h uri prev).
Proof.
  intros Hp. unfold ModuleImporter. rewrite Hp.
  pose proof (forallb_isProbe_lookups prev m rel) as Hl.
  destruct (lookupModule h prev m rel) as [lookups [[mn rp] md]].
  cbn [fst] in Hl. apply settles_app; [exact Hl|].
  destruct md as [md|]; [|apply settles_handleRelativeImports].
  destruct (negb (JS.truthy_opt (sassDir md)) && negb (existsSync h prev)).
  - apply settles_fallback; [apply settles_done|apply settles_done].
  - destruct (sassDir md) as [dir|]; [|apply settles_handleRelativeImports].
    destruct (JS.truthy dir); [|apply settles_handleRelativeImports].
    apply settles_readAbstractFile, settles_createHandler.
    intros eh E. injection E as <-. intros _.
    apply settles_handleRelativeImports.
Qed.

Lemma MODULE_PARSER_null (uri : string) :
  MODULE_PARSER uri = None <-> uri = "" \/ JS.startsWith "/" uri = true.
Proof.
  split.
  - unfold MODULE_PARSER.
    destruct (scopedSegment uri) as [[m r]|]; [discriminate|].
    unfold bareSegment. destruct uri as [|a t]; [intros _; left; reflexivity|].
    cbn [JS.span]. unfold notSlash at 1.
    destruct (Ascii.eqb a "/") eqn:E.
    + intros _. right. apply Ascii.eqb_eq in E. subst a. reflexivity.
    + cbn [negb]. destruct (JS.span notSlash t). discriminate.
  - intros [-> | H]; [reflexivity|].
    destruct uri as [|a t]; [discriminate|].
    unfold JS.startsWith in H. apply andb_true_iff in H.
    destruct H as [H _]. apply Ascii.eqb_eq in H. subst a. reflexivity.
Qed.

(** X1.  The importer refuses an identifier exactly when it is empty or
    starts with [/]: it throws [invalid uri: ...] and then nothing is
    looked up, read or handed to the fallback importers, and [done] is not
    called. *)
Theorem ModuleImporter_invalid_uri (uri prev : string) :
  ModuleImporter h uri prev = [Throw ("invalid uri: " ++ uri)%string]
  <-> (uri = "" \/ JS.startsWith "/" uri = true).
Proof.
  split.
  - intros E. apply MODULE_PARSER_null.
    destruct (MODULE_PARSER uri) as [[m rel]|] eqn:Hp; [|reflexivity].
    destruct (settles_ModuleImporter uri prev m rel Hp)
      as (pre & r & E' & _).
    rewrite E in E'. destruct pre as [|e [|e' pre]]; discriminate.
  - intros H. apply MODULE_PARSER_null in H. unfold ModuleImporter.
    rewrite H. reflexivity.
Qed.

(** X2.  For every identifier that parses, the importer calls [done]
    exactly once, as the last thing it does, and does not throw: whatever
    the disk, the registry and the fallback importers answer, the trace is
    a run of lookups, reads and fallback calls closed by one [Return]. *)
Theorem ModuleImporter_calls_done_once (uri prev m rel : string) :
  MODULE_PARSER uri = Some (m, rel) ->
  exists pre r,
    ModuleImporter h uri prev = pre ++ [Return r]
    /\ forallb isProbe pre = true
    /\ returned (ModuleImporter h uri prev) = [r].
Proof.
  intros Hp.
  destruct (settles_ModuleImporter uri prev m rel Hp) as (pre & r & E & Hpre).
  exists pre, r. split; [exact E|]. split; [exact Hpre|].
  rewrite E, returned_app. cbn.
  assert (Hq : returned pre = []).
  { clear E. induction pre as [|e pre IH]; [reflexivity|].
    simpl in Hpre. apply andb_true_iff in Hpre. destruct Hpre as [He Hpre].
    destruct e; try discriminate He; simpl; apply IH; exact Hpre. }
  rewrite Hq. reflexivity.
Qed.

(** X3.  The registry is asked once, for the parsed module name, or twice
    when that name starts with [@] and is not found: then the second call
    asks for the first piece of the name.  Every call is made for the
    requesting file when it is on disk, else for the project root. *)
Theorem registry_calls (uri prev m rel : string) :
  MODULE_PARSER uri = Some (m, rel) ->
  let location := if existsSync h prev then prev else root h in
  accesses (ModuleImporter h uri prev)
  = match access h m location, JS.head m with
    | None, Some a =>
        if Ascii.eqb a "@"
        then [(m, location);
              (JS.coerce (nth_error (JS.split "/" m) 0), location)]
        else [(m, location)]
    | _, _ => [(m, location)]
    end.
Proof.
  intros Hp location.
  rewrite (accesses_ModuleImporter h uri prev m rel Hp).
  unfold lookupModule. fold location.
  destruct (access h m location); [reflexivity|].
  destruct (JS.head m) as [a|]; [|reflexivity].
  destruct (Ascii.eqb a "@"); reflexivity.
Qed.

(** X4.  In the module attempt the candidates are read in order and the
    first that can be read is imported: no later candidate is read, no
    fallback importer is called, and the relative attempt does not run. *)
Theorem module_attempt_first_readable
    (uri prev m0 rel0 mname rel dir : string) (lookups : list Event)
    (md : ModuleRecord) (pre post : list string) (f data : string) :
  MODULE_PARSER uri = Some (m0, rel0) ->
  lookupModule h prev m0 rel0 = (lookups, (mname, rel, Some md)) ->
  sassDir md = Some dir -> JS.truthy dir = true ->
  moduleCandidates h rel dir mname = pre ++ f :: post ->
  (forall g, In g pre -> readFileSync h g = None) ->
  readFileSync h f = Some data ->
  ModuleImporter h uri prev
  = lookups ++ map Read pre
    ++ [Read f; Return (importOnce h {| contents := data; file := f |})].
Proof.
  intros Hp Hl Hdir Htruthy Hc Hpre Hf.
  unfold ModuleImporter. rewrite Hp, Hl. f_equal.
  unfold JS.truthy_opt. rewrite Hdir, Htruthy. cbn [negb andb].
  unfold readAbstractFile, readFirstFile.
  fold (moduleCandidates h rel dir mname). rewrite Hc.
  rewrite (readFirst_hit h _ _ _ _ _ _ Hpre Hf). reflexivity.
Qed.

End ImporterMore.

Lemma ModuleImporter_calls_done_once_witness :
  exists pre r,
    Importer.ModuleImporter
      (Samples.importerHost [] [("widgets", Samples.widgets)]
         [fun _ _ => None; Samples.catchAll])
      "widgets/button" "stdin"
    = pre ++ [Importer.Return r]
    /\ forallb Importer.isProbe pre = true
    /\ Importer.returned
         (Importer.ModuleImporter
            (Samples.importerHost [] [("widgets", Samples.widgets)]
               [fun _ _ => None; Samples.catchAll])
            "widgets/button" "stdin")
       = [r].
Proof.
  exact (ModuleImporter_calls_done_once
           (Samples.importerHost [] [("widgets", Samples.widgets)]
              [fun _ _ => None; Samples.catchAll])
           "widgets/button" "stdin" "widgets" "button" eq_refl).
Defined.

Lemma registry_calls_witness :
  Importer.accesses
    (Importer.ModuleImporter
       (Samples.importerHost [] [("@acme", Samples.widgets)] [])
       "@acme/theme/colors" "stdin")
  = [("@acme/theme", "/proj"); ("@acme", "/proj")]
  /\ Importer.accesses
       (Importer.ModuleImporter
          (Samples.importerHost [] [] []) "plain/colors" "stdin")
     = [("plain", "/proj")].
Proof.
  split.
  - exact (registry_calls
             (Samples.importerHost [] [("@acme", Samples.widgets)] [])
             "@acme/theme/colors" "stdin" "@acme/theme" "colors" eq_refl).
  - exact (registry_calls (Samples.importerHost [] [] [])
             "plain/colors" "stdin" "plain" "colors" eq_refl).
Defined.

Lemma module_attempt_first_readable_witness :
  Importer.ModuleImporter
    (Samples.importerHost
       [("/proj/src/app.scss", "@import 'widgets/button'");
        ("/proj/node_modules/widgets/sass/_button.scss", "b {}");
        ("/proj/node_modules/widgets/sass/widgets/button.scss", "late {}");
        ("/proj/src/widgets/button.scss", "local {}")]
       [("widgets", Samples.widgets)] [Samples.catchAll])
    "widgets/button" "/proj/src/app.scss"
  = [Importer.Access "widgets" "/proj/src/app.scss";
     Importer.Read "/proj/node_modules/widgets/sass/button.scss";
     Importer.Read "/proj/node_modules/widgets/sass/_button.scss";
     Importer.Return
       (Importer.Imported "b {}"
          "/proj/node_modules/widgets/sass/_button.scss")].
Proof.
  set (host := Samples.importerHost _ _ _).
  assert (Hpre : forall g,
             In g ["/proj/node_modules/widgets/sass/button.scss"] ->
             Importer.readFileSync host g = None).
  { intros g Hin. each_candidate Hin. }
  exact (module_attempt_first_readable host
           "widgets/button" "/proj/src/app.scss" "widgets" "button"
           "widgets" "button" "/proj/node_modules/widgets/sass"
           [Importer.Access "widgets" "/proj/src/app.scss"] Samples.widgets
           ["/proj/node_modules/widgets/sass/button.scss"]
           ["/proj/node_modules/widgets/sass/widgets/button.scss";
            "/proj/node_modules/widgets/sass/widgets/_button.scss"]
           "/proj/node_modules/widgets/sass/_button.scss" "b {}"
           eq_refl eq_refl eq_refl eq_refl eq_refl Hpre eq_refl).
Defined.

(** ** The filesystem importer: the pattern, the shape of every run *)

Section FSImporterMore.

Import Importer.

Variable h : Host.

(** X5.  The [fs(...)] pattern, in full: an identifier matches, with
    [token] as its group, exactly when it is [fs(] followed by [token] and
    [)], where [token] is a letter, [-] or [_] followed by at least one
    letter, digit, [-] or [_].  A token of one character does not
    match. *)
Theorem fsURI_matches (uri token : string) :
  fsURI uri = Some token
  <-> (uri = ("fs(" ++ token ++ ")")%string /\ isToken token = true).
Proof.
  split.
  - intros H. split; [apply fsURI_shape; exact H|].
    unfold fsURI in H.
    destruct uri as [|f [|s [|p [|c0 rest]]]]; try discriminate.
    destruct (Ascii.eqb f "f" && Ascii.eqb s "s" && Ascii.eqb p "("
              && isIdentStart c0) eqn:E; [|discriminate].
    apply andb_true_iff in E. destruct E as [_ Hc0].
    destruct (JS.span isIdentChar rest) as [body tl] eqn:Es.
    destruct body as [|b body]; [discriminate|].
    destruct (String.eqb tl ")"); [|discriminate].
    injection H as <-.
    destruct (span_spec _ _ _ _ Es) as (_ & Hall & _).
    unfold isToken. rewrite Hc0, Hall. reflexivity.
  - intros [-> Ht]. unfold isToken in Ht.
    destruct token as [|c0 [|c1 rest]]; try discriminate.
    apply andb_true_iff in Ht. destruct Ht as [Hc0 Hall].
    unfold fsURI. cbn [append]. rewrite !Ascii.eqb_refl, Hc0. cbn [andb].
    change (String c1 (rest ++ ")"))%string
      with (String c1 rest ++ ")")%string.
    rewrite (span_app_stop isIdentChar (String c1 rest) ")" Hall).
    + reflexivity.
    + right. exists ")"%char, ""%string. split; reflexivity.
Qed.

(** X6.  Every run of the filesystem importer is a run of fallback calls
    closed by one call of [done]: it never throws, never reads a file and
    never asks the registry, and it calls a fallback importer only for an
    identifier that does not match the pattern. *)
Theorem FSImporter_run (uri prev : string) :
  exists n r,
    FSImporter h uri prev = repeat (Fallback uri prev) n ++ [Return r]
    /\ (fsURI uri <> None -> n = 0)
    /\ n <= length (fallbackImporter h).
Proof.
  unfold FSImporter. destruct (fsURI uri) as [token|].
  - match goal with
    | |- context [if JS.truthy ?b then _ else _] => destruct (JS.truthy b)
    end.
    + eexists 0, _. split; [reflexivity|]. split; [reflexivity | apply Nat.le_0_l].
    + eexists 0, _. split; [reflexivity|]. split; [reflexivity | apply Nat.le_0_l].
  - rewrite fallback_trace.
    assert (Hn : forall chain,
               fst (firstUsable chain uri prev) <= length chain).
    { induction chain as [|imp chain IH]; simpl; [apply Nat.le_refl|].
      destruct (imp uri prev); [simpl; apply le_n_S, Nat.le_0_l|].
      destruct (firstUsable chain uri prev) as [k r]. simpl in *.
      apply le_n_S. exact IH. }
    destruct (snd (firstUsable (fallbackImporter h) uri prev)) as [r|];
      eexists _, _; (split; [reflexivity|]);
      (split; [intros C; exfalso; apply C; reflexivity | apply Hn]).
Qed.

End FSImporterMore.

Lemma FSImporter_run_witness :
  exists n r,
    Importer.FSImporter
      (Samples.importerHost [] [] [fun _ _ => None; Samples.catchAll])
      "fs(a)" "stdin"
    = repeat (Importer.Fallback "fs(a)" "stdin") n ++ [Importer.Return r]
    /\ (Importer.fsURI "fs(a)" <> None -> n = 0)
    /\ n <= 2.
Proof.
  exact (FSImporter_run
           (Samples.importerHost [] [] [fun _ _ => None; Samples.catchAll])
           "fs(a)" "stdin").
Defined.

(** ** Directory listings and the sandbox *)

Section ListingMore.

Import Fs Sass.

Variable h : Fs.Host.

Lemma globLoop_files (directory : string) (files acc : list string) :
  globLoop h directory true false files acc
  = match find (deniedFile h directory) files with
    | Some f => accessViolation f
    | None =>
        RetValue
          (castToSass
             (rev acc ++ filter (fun f => negb (endsWithSlash f)) files))
    end.
Proof.
  revert acc. induction files as [|f files IH]; intros acc.
  - simpl. rewrite app_nil_r. reflexivity.
  - cbn [globLoop find filter]. unfold deniedFile at 1.
    destruct (endsWithSlash f); cbn [negb andb].
    + apply IH.
    + destruct (inSandbox h (NodePath.join [directory; f])); cbn [negb].
      * rewrite IH. cbn [rev]. rewrite <- app_assoc. reflexivity.
      * reflexivity.
Qed.

Lemma globLoop_directories (directory : string) (files acc : list string) :
  globLoop h directory false true files acc
  = match find (deniedDirectory h directory) files with
    | Some f => accessViolation f
    | None =>
        RetValue
          (castToSass (rev acc ++ map dropLast (filter endsWithSlash files)))
    end.
Proof.
  revert acc. induction files as [|f files IH]; intros acc.
  - simpl. rewrite app_nil_r. reflexivity.
  - cbn [globLoop find filter]. unfold deniedDirectory at 1.
    destruct (endsWithSlash f); cbn [negb andb].
    + destruct (inSandbox h (NodePath.join [directory; f])); cbn [negb].
      * rewrite IH. cbn [rev map]. rewrite <- app_assoc. reflexivity.
      * reflexivity.
    + apply IH.
Qed.

(** X7.  [eyeglass-fs-list-files] on a directory of the sandbox returns
    the entries that glob found and that are not marked as directories, in
    the order of glob; unless one of them lies outside the sandbox, in
    which case the answer is a security violation that names the first
    such entry, as glob spelled it.  Directories found are never checked
    and never returned. *)
Theorem list_files_result (d g : string) (files : list string) :
  inSandbox h d = true -> glob h d g = inr files ->
  fs_list_files h (SString d) (SString g)
  = Done match find (deniedFile h d) files with
         | Some f => RetError ("Security violation: Cannot access " ++ f)
         | None =>
             RetValue
               (SList (map SString
                         (filter (fun f => negb (endsWithSlash f)) files))
                  true)
         end.
Proof.
  intros Hd Hg. unfold fs_list_files, globFiles.
  rewrite Hd, Hg, globLoop_files. reflexivity.
Qed.

Lemma dropLast_slash (f : string) :
  endsWithSlash f = true -> (dropLast f ++ "/")%string = f.
Proof.
  unfold endsWithSlash. induction f as [|a f IH]; [discriminate|].
  destruct f as [|b f].
  - simpl. intros H. apply Ascii.eqb_eq in H. subst a. reflexivity.
  - intros H. change (dropLast (String a (String b f)))
      with (String a (dropLast (String b f))).
    simpl append. f_equal. apply IH. exact H.
Qed.

(** X8.  [eyeglass-fs-list-directories] on a directory of the sandbox
    returns the entries that glob marked as directories, in the order of
    glob, each without its final [/]; unless one of them lies outside the
    sandbox, in which case the answer is a security violation that names
    the first such entry.  Putting the [/] back gives the entries of
    glob. *)
Theorem list_directories_result (d g : string) (files : list string) :
  inSandbox h d = true -> glob h d g = inr files ->
  fs_list_directories h (SString d) (SString g)
  = Done match find (deniedDirectory h d) files with
         | Some f => RetError ("Security violation: Cannot access " ++ f)
         | None =>
             RetValue
               (SList (map SString
                         (map dropLast (filter endsWithSlash files)))
                  true)
         end
  /\ map (fun n => (n ++ "/")%string)
       (map dropLast (filter endsWithSlash files))
     = filter endsWithSlash files.
Proof.
  intros Hd Hg. split.
  - unfold fs_list_directories, globFiles.
    rewrite Hd, Hg, globLoop_directories. reflexivity.
  - rewrite map_map. clear Hg.
    induction files as [|f files IH]; [reflexivity|].
    simpl. destruct (endsWithSlash f) eqn:E; [|exact IH].
    simpl. rewrite (dropLast_slash f E), IH. reflexivity.
Qed.

(** X9.  A listing never shows what lies outside the sandbox: when
    [eyeglass-fs-list-files] answers with a list, the directory listed is
    in the sandbox, and so is every name of the list, taken under that
    directory. *)
Theorem list_files_within_sandbox (d g : SassValue) (items : list SassValue)
    (comma : bool) :
  fs_list_files h d g = Done (RetValue (SList items comma)) ->
  exists dir names,
    d = SString dir /\ items = map SString names
    /\ inSandbox h dir = true
    /\ forall n, In n names -> inSandbox h (NodePath.join [dir; n]) = true.
Proof.
  unfold fs_list_files. destruct d as [|dir| | | | |]; try discriminate.
  destruct g as [|pat| | | | |]; try discriminate.
  unfold globFiles. destruct (inSandbox h dir) eqn:Hd; [|discriminate].
  destruct (glob h dir pat) as [msg|files]; [discriminate|].
  rewrite globLoop_files.
  destruct (find (deniedFile h dir) files) as [f|] eqn:Hf; [discriminate|].
  intros H. injection H as <- _.
  exists dir, (filter (fun f => negb (endsWithSlash f)) files).
  split; [reflexivity|]. split; [reflexivity|]. split; [exact Hd|].
  intros n Hn. apply filter_In in Hn. destruct Hn as [Hin Hn].
  pose proof (find_none _ _ Hf n Hin) as Hden. unfold deniedFile in Hden.
  rewrite Hn in Hden. cbn [andb] in Hden. apply negb_false_iff in Hden.
  exact Hden.
Qed.

(** X10.  Permission grows with the allow-list and only with it: a path
    permitted under one allow-list is permitted under every allow-list
    that contains its roots, and an empty allow-list permits nothing. *)
Theorem inSandbox_monotone (h' : Fs.Host) (roots roots' : list string)
    (p : string) :
  cwd h = cwd h' ->
  fsSandbox h = Some roots -> fsSandbox h' = Some roots' ->
  (incl roots roots' -> inSandbox h p = true -> inSandbox h' p = true)
  /\ (roots = [] -> inSandbox h p = false).
Proof.
  intros Hc E E'. split.
  - intros Hincl H. rewrite (inSandbox_allow_list _ _ _ E) in H.
    apply existsb_exists in H. destruct H as (r & Hin & Hr).
    apply (inSandbox_some_root h' roots' p r E' (Hincl r Hin)).
    rewrite <- Hc. exact Hr.
  - intros ->. rewrite (inSandbox_allow_list _ _ _ E). reflexivity.
Qed.

Lemma pathInSandboxDir_by_below (cwd p dir : string) :
  pathInSandboxDir cwd p dir
  = match NodePath.below cwd dir p with
    | None => false
    | Some [] => true
    | Some (s :: _) => negb (JS.startsWith ".." s)
    end.
Proof.
  destruct (NodePath.below cwd dir p) as [[|s rest]|] eqn:E.
  - apply pathInSandboxDir_at. exact E.
  - apply (pathInSandboxDir_below _ _ _ _ _ E).
  - apply pathInSandboxDir_outside. exact E.
Qed.

(** X11.  The guard judges the place, not the spelling: two paths that
    resolve to the same absolute path get the same answer from
    [inSandbox], whatever [.], [..] and doubled separators they are
    written with. *)
Theorem inSandbox_respelling (p p' : string) :
  NodePath.resolve_segs (cwd h) [p] = NodePath.resolve_segs (cwd h) [p'] ->
  inSandbox h p = inSandbox h p'.
Proof.
  intros Hseg. unfold inSandbox. destruct (fsSandbox h) as [roots|];
    [|reflexivity].
  induction roots as [|r roots IH]; [reflexivity|].
  cbn [existsb]. rewrite IH. f_equal.
  rewrite !pathInSandboxDir_by_below. unfold NodePath.below.
  rewrite Hseg. reflexivity.
Qed.

End ListingMore.

Lemma list_files_result_witness :
  Fs.fs_list_files (Samples.listingHost (Some ["/r"]))
    (Sass.SString "/r") (Sass.SString "*")
  = Sass.Done
      (Sass.RetValue
         (Sass.SList [Sass.SString "a.scss"; Sass.SString "b.scss"] true))
  /\ Fs.fs_list_files (Samples.listingHost (Some ["/r"]))
       (Sass.SString "/r") (Sass.SString "../*")
     = Sass.Done
         (Sass.RetError "Security violation: Cannot access ../x.scss").
Proof.
  split.
  - exact (list_files_result (Samples.listingHost (Some ["/r"])) "/r" "*"
             ["a.scss"; "sub/"; "b.scss"] eq_refl eq_refl).
  - exact (list_files_result (Samples.listingHost (Some ["/r"])) "/r" "../*"
             ["../x.scss"; "../lib/"] eq_refl eq_refl).
Defined.

Lemma list_directories_result_witness :
  Fs.fs_list_directories (Samples.listingHost (Some ["/r"]))
    (Sass.SString "/r") (Sass.SString "*")
  = Sass.Done (Sass.RetValue (Sass.SList [Sass.SString "sub"] true))
  /\ Fs.fs_list_directories (Samples.listingHost (Some ["/r"]))
       (Sass.SString "/r") (Sass.SString "../*")
     = Sass.Done (Sass.RetError "Security violation: Cannot access ../lib/").
Proof.
  split.
  - exact (proj1 (list_directories_result
                    (Samples.listingHost (Some ["/r"])) "/r" "*"
                    ["a.scss"; "sub/"; "b.scss"] eq_refl eq_refl)).
  - exact (proj1 (list_directories_result
                    (Samples.listingHost (Some ["/r"])) "/r" "../*"
                    ["../x.scss"; "../lib/"] eq_refl eq_refl)).
Defined.

Lemma list_files_within_sandbox_witness :
  exists dir names,
    Sass.SString "/r" = Sass.SString dir
    /\ [Sass.SString "a.scss"; Sass.SString "b.scss"]
       = map Sass.SString names
    /\ Fs.inSandbox (Samples.listingHost (Some ["/r"])) dir = true
    /\ forall n, In n names ->
         Fs.inSandbox (Samples.listingHost (Some ["/r"]))
           (NodePath.join [dir; n]) = true.
Proof.
  exact (list_files_within_sandbox (Samples.listingHost (Some ["/r"]))
           (Sass.SString "/r") (Sass.SString "*")
           [Sass.SString "a.scss"; Sass.SString "b.scss"] true eq_refl).
Defined.

Lemma inSandbox_monotone_witness :
  Fs.inSandbox (Samples.fsHost (Some ["/lib"; "/r"])) "/r/a.txt" = true
  /\ Fs.inSandbox (Samples.fsHost (Some [])) "/r/a.txt" = false.
Proof.
  split.
  - apply (proj1 (inSandbox_monotone (Samples.fsHost (Some ["/r"]))
                    (Samples.fsHost (Some ["/lib"; "/r"]))
                    ["/r"] ["/lib"; "/r"] "/r/a.txt"
                    eq_refl eq_refl eq_refl)).
    + intros r [<- | []]. right. left. reflexivity.
    + reflexivity.
  - exact (proj2 (inSandbox_monotone (Samples.fsHost (Some []))
                    (Samples.fsHost (Some [])) [] [] "/r/a.txt"
                    eq_refl eq_refl eq_refl) eq_refl).
Defined.

Lemma inSandbox_respelling_witness :
  Fs.inSandbox (Samples.fsHost (Some ["/r"])) "/r/a/../b//c/."
  = Fs.inSandbox (Samples.fsHost (Some ["/r"])) "/r/b/c".
Proof.
  exact (inSandbox_respelling (Samples.fsHost (Some ["/r"]))
           "/r/a/../b//c/." "/r/b/c" eq_refl).
Defined.

(** ** URIs: what the constructor keeps, when [join] fails, and the
    backslash marker *)

Section UriMore.

Variable h : URI.Host.

Lemma backslash_eqb (a : ascii) :
  Ascii.eqb URI.backslash a = Nat.eqb (nat_of_ascii a) 92.
Proof.
  destruct (Nat.eqb (nat_of_ascii a) 92) eqn:E.
  - apply Nat.eqb_eq in E. apply Ascii.eqb_eq.
    rewrite <- (ascii_nat_embedding a), E. reflexivity.
  - apply Ascii.eqb_neq. intros <-. discriminate E.
Qed.

Lemma isPathSep_false (a : ascii) :
  URI.isPathSep a = false ->
  Ascii.eqb "/" a = false /\ Ascii.eqb URI.backslash a = false.
Proof.
  unfold URI.isPathSep. intros H. apply orb_false_iff in H.
  destruct H as [H1 H2]. rewrite backslash_eqb, Ascii.eqb_sym. auto.
Qed.

(** Replacing the runs of separators by [/] leaves no backslash and no
    doubled [/]. *)
Lemma replaceSeps_clean (s : string) (inRun : bool) :
  JS.includes (String URI.backslash "") (URI.replaceSeps "/" inRun s) = false
  /\ JS.includes "//" (URI.replaceSeps "/" inRun s) = false
  /\ (inRun = true -> JS.startsWith "/" (URI.replaceSeps "/" inRun s) = false).
Proof.
  revert inRun. induction s as [|a s IH]; intros inRun.
  - repeat split.
  - cbn [URI.replaceSeps]. destruct (URI.isPathSep a) eqn:Ea.
    + destruct inRun.
      * apply IH.
      * destruct (IH true) as (H1 & H2 & H3). specialize (H3 eq_refl).
        change ("/" ++ URI.replaceSeps "/" true s)%string
          with (String "/" (URI.replaceSeps "/" true s)).
        repeat split.
        -- cbn [JS.includes JS.startsWith]. rewrite H1. reflexivity.
        -- cbn [JS.includes]. rewrite H2.
           change (JS.startsWith "//" (String "/" (URI.replaceSeps "/" true s)))
             with (Ascii.eqb "/" "/"
                   && JS.startsWith "/" (URI.replaceSeps "/" true s)).
           rewrite H3. reflexivity.
        -- discriminate.
    + destruct (isPathSep_false a Ea) as [Hs Hb].
      destruct (IH false) as (H1 & H2 & _). repeat split.
      * cbn [JS.includes JS.startsWith]. rewrite Hb, H1. reflexivity.
      * cbn [JS.includes JS.startsWith]. rewrite Hs, H2. reflexivity.
      * intros _. cbn [JS.startsWith]. rewrite Hs. reflexivity.
Qed.

Lemma setHash_setQuery_keep (u : URI.t) (q f : option string) :
  URI.path (URI.setHash (URI.setQuery u q) f) = URI.path u
  /\ URI.sep (URI.setHash (URI.setQuery u q) f) = URI.sep u.
Proof.
  unfold URI.setHash, URI.setQuery, URI.addQuery.
  destruct (negb (JS.truthy_opt q)); split; reflexivity.
Qed.

(** X12.  Unless separator normalisation is switched off, the path of a
    URI built with the standard separator holds no backslash and no
    doubled [/], whatever mix of separators the input had. *)
Theorem URI_path_separators (uri : string) (sep' : option string) (u : URI.t) :
  URI.shouldNormalizePathSep h = true ->
  URI.new h uri sep' = Some u ->
  URI.sep u = "/" ->
  JS.includes (String URI.backslash "") (URI.path u) = false
  /\ JS.includes "//" (URI.path u) = false.
Proof.
  intros Hn Hnew Hsep. unfold URI.new in Hnew.
  destruct (URI.rUriFragments uri) as [[[p q] f]|]; [|discriminate].
  injection Hnew as <-.
  destruct (setHash_setQuery_keep
              (URI.setPath h
                 {| URI.sep :=
                      if JS.truthy_opt sep' then JS.coerce sep'
                      else URI.stdSep;
                    URI.path := ""; URI.search := ""; URI.hash := "" |} p)
              q f) as [Hp Hs].
  rewrite Hs in Hsep. rewrite Hp. clear Hp Hs.
  unfold URI.setPath, URI.convertSeparator in *. rewrite Hn.
  cbn [URI.sep URI.path] in *. rewrite Hsep.
  destruct (replaceSeps_clean
              (NodePath.normalize (URI.replaceSeps NodePath.sep false p))
              false) as (H1 & H2 & _).
  split; assumption.
Qed.

Lemma forallb_dropSearchDelims (p : ascii -> bool) (x : string) :
  forallb p (list_ascii_of_string x) = true ->
  forallb p (list_ascii_of_string (URI.dropSearchDelims x)) = true.
Proof.
  induction x as [|a x IH]; [trivial|]. intros H. simpl in H.
  apply andb_true_iff in H. destruct H as [Ha Hx].
  cbn [URI.dropSearchDelims]. destruct (URI.isSearchDelim a); [auto|].
  simpl. rewrite Ha, Hx. reflexivity.
Qed.

Lemma dropSearchDelims_head (x : string) :
  match URI.dropSearchDelims x with
  | EmptyString => True
  | String c _ => URI.isSearchDelim c = false
  end.
Proof.
  induction x as [|a x IH]; [exact I|].
  cbn [URI.dropSearchDelims]. destruct (URI.isSearchDelim a) eqn:E;
    [exact IH | exact E].
Qed.

(** The groups of a match of [rUriFragments]. *)
Lemma rUriFragments_groups (uri p : string) (q f : option string) :
  URI.rUriFragments uri = Some (p, q, f) ->
  (q = None \/
   exists x, q = Some (String "?" x)
             /\ forallb URI.notHash (list_ascii_of_string x) = true)
  /\ (f = None \/
      exists x, f = Some (String "#" x)
                /\ forallb Importer.notLineTerminator
                     (list_ascii_of_string x) = true).
Proof.
  unfold URI.rUriFragments.
  destruct (JS.span URI.notQueryOrHash uri) as [p0 r1].
  destruct p0 as [|c p0]; [discriminate|].
  assert (Hf : forall r2 : string,
             match r2 with
             | String a r =>
                 if Ascii.eqb a "#"
                 then Some (String a (fst (JS.span Importer.notLineTerminator r)))
                 else None
             | EmptyString => None
             end = f ->
             f = None \/
             exists x, f = Some (String "#" x)
                       /\ forallb Importer.notLineTerminator
                            (list_ascii_of_string x) = true).
  { intros r2 <-. destruct r2 as [|a r]; [left; reflexivity|].
    destruct (Ascii.eqb a "#") eqn:Ea; [|left; reflexivity].
    apply Ascii.eqb_eq in Ea. subst a. right.
    destruct (JS.span Importer.notLineTerminator r) as [x y] eqn:E.
    exists x. split; [reflexivity|].
    exact (proj1 (proj2 (span_spec _ _ _ _ E))). }
  destruct r1 as [|a r].
  - intros H. injection H as _ <- H. split; [left; reflexivity|].
    apply (Hf ""%string). exact H.
  - destruct (Ascii.eqb a "?") eqn:Ea.
    + apply Ascii.eqb_eq in Ea. subst a.
      destruct (JS.span URI.notHash r) as [x y] eqn:E.
      intros H. injection H as _ <- H. split.
      * right. exists x. split; [reflexivity|].
        exact (proj1 (proj2 (span_spec _ _ _ _ E))).
      * apply (Hf y). exact H.
    + intros H. injection H as _ <- H. split; [left; reflexivity|].
      apply (Hf (String a r)). exact H.
Qed.

(** X13.  The query and the fragment of a URI are well formed: the search
    is empty or one [?] followed by text without [#] that does not start
    with [?] or [&]; the hash is empty or a [#] followed by text without
    line terminator. *)
Theorem URI_search_and_hash (uri : string) (sep' : option string) (u : URI.t) :
  URI.new h uri sep' = Some u ->
  (URI.search u = "" \/
   exists x, URI.search u = String "?" x
             /\ forallb URI.notHash (list_ascii_of_string x) = true
             /\ match x with
                | EmptyString => True
                | String c _ => URI.isSearchDelim c = false
                end)
  /\ (URI.hash u = "" \/
      exists x, URI.hash u = String "#" x
                /\ forallb Importer.notLineTerminator
                     (list_ascii_of_string x) = true).
Proof.
  intros Hnew. unfold URI.new in Hnew.
  destruct (URI.rUriFragments uri) as [[[p q] f]|] eqn:E; [|discriminate].
  injection Hnew as <-.
  destruct (rUriFragments_groups _ _ _ _ E) as [Hq Hf]. split.
  - destruct Hq as [-> | (x & -> & Hx)]; [left; reflexivity|].
    right. exists (URI.dropSearchDelims x). split; [reflexivity|].
    split; [apply forallb_dropSearchDelims; exact Hx|].
    apply dropSearchDelims_head.
  - destruct Hf as [-> | (x & -> & Hx)].
    + left. unfold URI.setHash. reflexivity.
    + right. exists x. split; [reflexivity | exact Hx].
Qed.

(** X14.  [URI.join] throws exactly when no fragment is truthy or the
    first truthy fragment starts with [?] or [#]; in every other case it
    returns a path. *)
Theorem URI_join_fails (fragments : list string) :
  URI.join h fragments = None
  <-> match filter JS.truthy fragments with
      | [] => True
      | f :: _ => JS.startsWith "?" f = true \/ JS.startsWith "#" f = true
      end.
Proof.
  assert (Hmatch : forall s,
             match URI.new h s None with
             | Some u => Some (URI.getPath h u None None)
             | None => None
             end = None <-> URI.rUriFragments s = None).
  { intros s. unfold URI.new.
    destruct (URI.rUriFragments s) as [[[p q] f]|];
      split; intros H; try discriminate; reflexivity. }
  unfold URI.join.
  rewrite Hmatch, rUriFragments_null.
  destruct (filter JS.truthy fragments) as [|f rest] eqn:E; [reflexivity|].
  assert (Hf : JS.truthy f = true).
  { assert (Hin : In f (filter JS.truthy fragments))
      by (rewrite E; left; reflexivity).
    apply filter_In in Hin. exact (proj2 Hin). }
  destruct f as [|a f]; [discriminate|].
  assert (Hj : exists t, JS.join URI.stdSep (String a f :: rest) = String a t).
  { destruct rest; [exists f; reflexivity|]. eexists. reflexivity. }
  destruct Hj as [t ->].
  unfold JS.startsWith. rewrite !andb_true_r.
  split; intros [H | H].
  - left. subst a. reflexivity.
  - right. subst a. reflexivity.
  - left. apply Ascii.eqb_eq in H. auto.
  - right. apply Ascii.eqb_eq in H. auto.
Qed.

End UriMore.

Lemma URI_path_separators_witness :
  JS.includes (String URI.backslash "") "a/b/d" = false
  /\ JS.includes "//" "a/b/d" = false.
Proof.
  exact (URI_path_separators Samples.uriHost "a\b//c/../d?&x=1#top" None
           {| URI.sep := "/"; URI.path := "a/b/d";
              URI.search := "?x=1"; URI.hash := "#top" |}
           eq_refl eq_refl eq_refl).
Defined.

Lemma URI_search_and_hash_witness :
  ("?x=1&y" = "" \/
   exists x, "?x=1&y" = String "?" x
             /\ forallb URI.notHash (list_ascii_of_string x) = true
             /\ match x with
                | EmptyString => True
                | String c _ => URI.isSearchDelim c = false
                end)
  /\ ("#top" = "" \/
      exists x, "#top" = String "#" x
                /\ forallb Importer.notLineTerminator
                     (list_ascii_of_string x) = true).
Proof.
  exact (URI_search_and_hash Samples.uriHost "img/a.png??&x=1&y#top" None
           {| URI.sep := "/"; URI.path := "img/a.png";
              URI.search := "?x=1&y"; URI.hash := "#top" |} eq_refl).
Defined.

(** ** The backslash marker *)

Section Marker.

(** A string without [<] and without backslash starts a preserved string
    exactly when it starts the original. *)
Lemma startsWith_preserve (u s : string) :
  forallb (fun c => negb (Ascii.eqb c "<") && negb (Ascii.eqb c URI.backslash))
    (list_ascii_of_string u) = true ->
  JS.startsWith u (URI.preserve s) = JS.startsWith u s.
Proof.
  revert s. induction u as [|c u IH]; intros s Hu; [reflexivity|].
  simpl in Hu. apply andb_true_iff in Hu. destruct Hu as [Hc Hu].
  apply andb_true_iff in Hc. destruct Hc as [Hlt Hbs].
  apply negb_true_iff in Hlt, Hbs.
  destruct s as [|a s]; [reflexivity|].
  cbn [URI.preserve]. destruct (Ascii.eqb a URI.backslash) eqn:Ea.
  - apply Ascii.eqb_eq in Ea. subst a.
    change (URI.BACKSLASH ++ URI.preserve s)%string
      with (String "<" ("BACKSLASH>" ++ URI.preserve s)).
    cbn [JS.startsWith]. rewrite Hlt, Hbs. reflexivity.
  - cbn [JS.startsWith]. rewrite (IH s Hu). reflexivity.
Qed.

(** X15.  [URI.restore] undoes [URI.preserve] on every string in which
    the marker [<BACKSLASH>] does not occur. *)
Theorem restore_preserve (s : string) :
  JS.includes URI.BACKSLASH s = false ->
  URI.restore (URI.preserve s) = s.
Proof.
  unfold URI.restore. induction s as [|a s IH]; intros H; [reflexivity|].
  cbn [JS.includes] in H. apply orb_false_iff in H. destruct H as [Hhere Hs].
  cbn [URI.preserve]. destruct (Ascii.eqb a URI.backslash) eqn:Ea.
  - apply Ascii.eqb_eq in Ea. subst a.
    change (URI.BACKSLASH ++ URI.preserve s)%string
      with (String "<" ("BACKSLASH>" ++ URI.preserve s)).
    cbn [URI.restore_from].
    assert (Hm : JS.startsWith URI.BACKSLASH
                   (String "<" ("BACKSLASH>" ++ URI.preserve s)) = true).
    { change (String "<" ("BACKSLASH>" ++ URI.preserve s))
        with (URI.BACKSLASH ++ URI.preserve s)%string.
      apply startsWith_app. }
    rewrite Hm. cbn [append URI.restore_from]. rewrite (IH Hs). reflexivity.
  - cbn [URI.restore_from].
    assert (Hm : JS.startsWith URI.BACKSLASH (String a (URI.preserve s))
                 = false).
    { change (JS.startsWith URI.BACKSLASH (String a (URI.preserve s)))
        with (Ascii.eqb "<" a && JS.startsWith "BACKSLASH>" (URI.preserve s)).
      rewrite (startsWith_preserve "BACKSLASH>" s eq_refl). exact Hhere. }
    rewrite Hm, (IH Hs). reflexivity.
Qed.

End Marker.

Section MarkerBack.

Lemma startsWith_slice (u s : string) :
  JS.startsWith u s = true -> s = (u ++ URI.slice (String.length u) s)%string.
Proof.
  revert s. induction u as [|c u IH]; intros s H.
  - destruct s; reflexivity.
  - destruct s as [|a s]; [discriminate|].
    cbn [JS.startsWith] in H. apply andb_true_iff in H. destruct H as [Hc Hu].
    apply Ascii.eqb_eq in Hc. subst a.
    cbn [String.length URI.slice append]. f_equal. apply IH. exact Hu.
Qed.

Lemma slice_0 (s : string) : URI.slice 0 s = s.
Proof. destruct s; reflexivity. Qed.

Lemma preserve_restore_from (s : string) (k : nat) :
  JS.includes (String URI.backslash "") s = false ->
  URI.preserve (URI.restore_from k s) = URI.slice k s.
Proof.
  revert k. induction s as [|a s IH]; intros k H.
  - destruct k; reflexivity.
  - cbn [JS.includes JS.startsWith] in H. apply orb_false_iff in H.
    destruct H as [Ha Hs]. rewrite andb_true_r in Ha.
    destruct k as [|k].
    + cbn [URI.restore_from].
      destruct (JS.startsWith URI.BACKSLASH (String a s)) eqn:Hm.
      * cbn [URI.preserve]. rewrite Ascii.eqb_refl, (IH 10 Hs).
        rewrite slice_0. symmetry. exact (startsWith_slice _ _ Hm).
      * cbn [URI.preserve]. rewrite Ascii.eqb_sym, Ha, (IH 0 Hs), !slice_0.
        reflexivity.
    + cbn [URI.restore_from URI.slice]. apply IH. exact Hs.
Qed.

(** X16.  [URI.preserve] undoes [URI.restore] on every string that holds
    no backslash. *)
Theorem preserve_restore (s : string) :
  JS.includes (String URI.backslash "") s = false ->
  URI.preserve (URI.restore s) = s.
Proof.
  intros H. unfold URI.restore. rewrite (preserve_restore_from s 0 H).
  apply slice_0.
Qed.

End MarkerBack.

Lemma restore_preserve_witness :
  URI.restore (URI.preserve "C:\img\<a>.png") = "C:\img\<a>.png".
Proof. exact (restore_preserve "C:\img\<a>.png" eq_refl). Defined.

Lemma preserve_restore_witness :
  URI.preserve (URI.restore "C:<BACKSLASH>img<BACK<BACKSLASH>a.png")
  = "C:<BACKSLASH>img<BACK<BACKSLASH>a.png".
Proof.
  exact (preserve_restore "C:<BACKSLASH>img<BACK<BACKSLASH>a.png" eq_refl).
Defined.

(** ** Sass values: rendering and type tests *)

Section SassMore.

Import Sass.

Variable js_coerce : SassValue -> string.

Lemma join_prefixed (sep x : string) (l : list string) :
  JS.join sep (x :: l) = (x ++ JS.prefixed sep l)%string.
Proof.
  revert x. induction l as [|y l IH]; intros x.
  - simpl. symmetry. apply str_app_nil_r.
  - change (JS.join sep (x :: y :: l))
      with (x ++ sep ++ JS.join sep (y :: l))%string.
    rewrite IH. reflexivity.
Qed.

(** X17.  [toString] renders a list as its items, rendered in turn,
    joined by a comma and a space or by a space, between parentheses; a
    map as its [key: value] pairs joined by a comma and a space, between
    parentheses. *)
Theorem toString_collections :
  (forall items comma,
     toString js_coerce (SList items comma)
     = ("(" ++ JS.join (if comma then ", " else " ")
                 (map (toString js_coerce) items) ++ ")")%string)
  /\ (forall entries,
        toString js_coerce (SMap entries)
        = ("(" ++ JS.join ", "
                    (map (fun kv => (js_coerce (fst kv) ++ ": "
                                       ++ toString js_coerce (snd kv))%string)
                         entries) ++ ")")%string).
Proof.
  split.
  - intros items comma. cbn [toString]. do 2 f_equal.
    destruct items as [|x items]; [reflexivity|].
    cbn [map]. rewrite join_prefixed. cbn [append]. f_equal.
    induction items as [|y items IH]; [reflexivity|].
    cbn [map JS.prefixed]. rewrite <- IH.
    destruct comma; rewrite ?str_app_assoc; reflexivity.
  - intros entries. cbn [toString]. do 2 f_equal.
    destruct entries as [|[k x] entries]; [reflexivity|].
    cbn [map fst snd]. rewrite join_prefixed.
    rewrite !str_app_assoc. cbn [append]. do 4 f_equal.
    induction entries as [|[k' y] entries IH]; [reflexivity|].
    cbn [map JS.prefixed fst snd]. rewrite <- IH.
    rewrite !str_app_assoc. reflexivity.
Qed.

(** X18.  [isType] agrees with [typeName], except that the empty list
    also passes as a map: a value is of the type named exactly when
    [typeName] gives that name, or the name is [map] and the value is a
    list without items. *)
Theorem isType_typeName (x : SassReturn) (name : SassTypeName) :
  isType x name = true
  <-> (typeNameOf x = name
       \/ (name = TMap /\ exists comma, x = RetValue (SList [] comma))).
Proof.
  unfold isType. split.
  - intros H. destruct name, x as [[| | | | |[|i items] c|]|msg];
      try discriminate H; try (left; reflexivity).
    right. split; [reflexivity|]. exists c. reflexivity.
  - intros [<- | [-> [c ->]]]; [|reflexivity].
    destruct x as [[| | | | |items c|]|msg]; reflexivity.
Qed.

End SassMore.

Lemma isType_typeName_witness :
  Sass.isType (Sass.RetValue (Sass.SList [] true)) Sass.TMap = true
  /\ Sass.typeNameOf (Sass.RetValue (Sass.SList [] true)) = Sass.TList.
Proof.
  split; [|reflexivity].
  apply (proj2 (isType_typeName (Sass.RetValue (Sass.SList [] true))
                  Sass.TMap)).
  right. split; [reflexivity|]. exists true. reflexivity.
Defined.

(** ** What the importer reads *)

Section ReadsMore.

Import Importer.

Variable h : Host.

Lemma reads_fallback (uri prev : string) (dn : ImporterReturn -> Trace)
    (noFallback : unit -> Trace) :
  (forall r, reads (dn r) = []) ->
  incl (reads (fallback h uri prev dn noFallback)) (reads (noFallback tt)).
Proof.
  intros Hd. unfold fallback.
  induction (fallbackImporter h) as [|imp chain IH]; simpl.
  - apply incl_refl.
  - destruct (imp uri prev); [rewrite Hd; intros x []|exact IH].
Qed.

Lemma reads_readFirst (files : list string) (cb : ImportResultCallback)
    (onMiss : Trace) (allowed : list string) :
  (forall e d, incl (reads (cb e d)) allowed) ->
  incl (reads onMiss) allowed ->
  incl (reads (readFirst h files cb onMiss)) (files ++ allowed).
Proof.
  intros Hcb Hm. induction files as [|f files IH]; simpl.
  - exact Hm.
  - intros x [<- | Hx]; [left; reflexivity|]. right.
    destruct (readFileSync h f).
    + apply in_or_app. right. exact (Hcb _ _ x Hx).
    + exact (IH x Hx).
Qed.

Lemma reads_createHandler (uri prev : string)
    (errorHandler : option (string -> Trace)) (allowed : list string) :
  (forall eh, errorHandler = Some eh -> forall e, incl (reads (eh e)) allowed) ->
  forall e d,
    incl (reads (createHandler h uri prev errorHandler e d)) allowed.
Proof.
  intros Heh e d. unfold createHandler.
  assert (Hf : forall msg,
             incl (reads
                     (fallback h uri prev done
                        (fun _ =>
                           match errorHandler with
                           | Some eh => eh
                           | None => defaultErrorHandler
                           end msg))) allowed).
  { intros msg. eapply incl_tran; [apply reads_fallback; reflexivity|].
    destruct errorHandler as [eh|]; [apply (Heh eh eq_refl)|].
    intros x []. }
  destruct e as [e|]; [apply Hf|].
  destruct d as [d|]; [intros x [] | apply Hf].
Qed.

Lemma reads_handleRelativeImports (uri prev : string)
    (ips : option (list string)) :
  incl (reads (handleRelativeImports h uri prev ips))
       (relativeCandidates h uri prev ips).
Proof.
  unfold handleRelativeImports, relativeCandidates, readAbstractFile,
    readFirstFile.
  destruct (existsSync h prev);
    (eapply incl_tran;
     [apply (reads_readFirst _ _ _ [])|rewrite app_nil_r; apply incl_refl]);
    try (apply reads_createHandler).
  - discriminate.
  - discriminate.
  - intros eh E. injection E as <-. intros _ x [].
  - intros eh E. injection E as <-. intros _ x [].
Qed.

(** X19.  The importer reads candidates only: every file it tries to
    read is a candidate of the module attempt (when the module found
    declares a stylesheet directory) or a candidate of the relative
    attempt, which uses the include paths only when there was no module
    attempt.  The requesting file itself and the files of the registry
    are never read. *)
Theorem reads_are_candidates
    (uri prev m0 rel0 mname rel f : string) (lookups : list Event)
    (mod_ : option ModuleRecord) :
  MODULE_PARSER uri = Some (m0, rel0) ->
  lookupModule h prev m0 rel0 = (lookups, (mname, rel, mod_)) ->
  In f (reads (ModuleImporter h uri prev)) ->
  match mod_ with
  | Some md =>
      match sassDir md with
      | Some dir =>
          if JS.truthy dir
          then In f (moduleCandidates h rel dir mname)
               \/ In f (relativeCandidates h uri prev None)
          else In f (relativeCandidates h uri prev (includePaths h))
      | None => In f (relativeCandidates h uri prev (includePaths h))
      end
  | None => In f (relativeCandidates h uri prev (includePaths h))
  end.
Proof.
  intros Hp Hl. unfold ModuleImporter. rewrite Hp, Hl, reads_app.
  pose proof (proj1 (lookupModule_events h prev m0 rel0)) as Hlr.
  rewrite Hl in Hlr. cbn [fst] in Hlr. rewrite Hlr. cbn [app].
  destruct mod_ as [md|]; [|apply reads_handleRelativeImports].
  destruct (negb (JS.truthy_opt (sassDir md)) && negb (existsSync h prev))
    eqn:Ecfg.
  - intros Hin. exfalso.
    apply (reads_fallback uri prev done
             (fun _ => done (Failed (missingMessage md)))
             (fun _ => eq_refl) f Hin).
  - destruct (sassDir md) as [dir|]; [|apply reads_handleRelativeImports].
    destruct (JS.truthy dir); [|apply reads_handleRelativeImports].
    intros Hin. apply in_app_or.
    unfold readAbstractFile, readFirstFile in Hin.
    fold (moduleCandidates h rel dir mname) in Hin.
    revert f Hin. apply reads_readFirst.
    + apply reads_createHandler. intros eh E. injection E as <-. intros _.
      apply reads_handleRelativeImports.
    + apply reads_createHandler. intros eh E. injection E as <-. intros _.
      apply reads_handleRelativeImports.
Qed.

End ReadsMore.

(** ** Queries of a URI *)

Section QueryMore.

Lemma truthy_app_r (a b : string) :
  JS.truthy b = true -> JS.truthy (a ++ b) = true.
Proof. destruct a; [trivial | reflexivity]. Qed.

(** X20.  Queries accumulate with one delimiter between them: the first
    query added to a URI without search is introduced by [?], every later
    one by [&], and the [?] and [&] that a query starts with are dropped;
    an empty or absent query changes nothing; [setQuery] forgets what was
    there. *)
Theorem URI_queries (u : URI.t) (a b : string) :
  JS.truthy a = true -> JS.truthy b = true ->
  URI.search u = "" ->
  URI.search (URI.addQuery (URI.addQuery u (Some a)) (Some b))
  = ("?" ++ URI.dropSearchDelims a ++ "&" ++ URI.dropSearchDelims b)%string
  /\ URI.addQuery u None = u
  /\ URI.addQuery u (Some "") = u
  /\ URI.setQuery (URI.addQuery u (Some a)) (Some b)
     = URI.setQuery u (Some b).
Proof.
  intros Ha Hb Hu. split; [|split; [|split]].
  - unfold URI.addQuery. cbn [JS.truthy_opt]. rewrite Ha, Hb. cbn [negb].
    cbn [URI.search JS.coerce]. rewrite Hu.
    change (JS.truthy "") with false. cbv iota.
    change ("" ++ "?" ++ URI.dropSearchDelims a)%string
      with (String "?" (URI.dropSearchDelims a)).
    cbn [JS.truthy append]. reflexivity.
  - reflexivity.
  - reflexivity.
  - unfold URI.setQuery, URI.addQuery. cbn [JS.truthy_opt].
    rewrite Ha, Hb. reflexivity.
Qed.

End QueryMore.

Lemma reads_are_candidates_witness :
  In "/proj/node_modules/widgets/sass/_button.scss"
    (Importer.moduleCandidates
       (Samples.importerHost [] [("widgets", Samples.widgets)] [])
       "button" "/proj/node_modules/widgets/sass" "widgets")
  \/ In "/proj/node_modules/widgets/sass/_button.scss"
       (Importer.relativeCandidates
          (Samples.importerHost [] [("widgets", Samples.widgets)] [])
          "widgets/button" "stdin" None).
Proof.
  apply (reads_are_candidates
           (Samples.importerHost [] [("widgets", Samples.widgets)] [])
           "widgets/button" "stdin" "widgets" "button" "widgets" "button"
           "/proj/node_modules/widgets/sass/_button.scss"
           [Importer.Access "widgets" "/proj"] (Some Samples.widgets)
           eq_refl eq_refl).
  vm_compute. right. left. reflexivity.
Defined.

Lemma URI_queries_witness :
  URI.search
    (URI.addQuery
       (URI.addQuery
          {| URI.sep := "/"; URI.path := "a.png";
             URI.search := ""; URI.hash := "" |}
          (Some "&v=1")) (Some "?w=2"))
  = "?v=1&w=2".
Proof.
  exact (proj1 (URI_queries
                  {| URI.sep := "/"; URI.path := "a.png";
                     URI.search := ""; URI.hash := "" |}
                  "&v=1" "?w=2" eq_refl eq_refl eq_refl)).
Defined.
